(** * tmi.js chat client: the protocol session of [src/client.ts]

    A shallow embedding of the [Client] class: its fields, the objects it
    allocates ([Channel], [User], [ClientUser], [UserState]), the socket it
    writes to and the events it emits, with the methods of the class as
    computations in a state-and-exception monad. *)

From Stdlib Require Import String Ascii List ZArith Lia Bool.
From stdpp Require Import base option list gmap strings fin_maps.

Open Scope string_scope.

(** ** JavaScript values that appear where a string is expected *)

(** [identity.name], [identity.auth] and a user's login are strings that the
    code may leave [undefined] (a missing parameter) or [null]. *)
Inductive JsString :=
| JsUndefined
| JsNull
| JsStr (s : string).

#[global] Instance JsString_eq_dec : EqDecision JsString.
Proof. solve_decision. Defined.

(** String coercion inside a template literal. *)
Definition toString (v : JsString) : string :=
  match v with
  | JsUndefined => "undefined"
  | JsNull => "null"
  | JsStr s => s
  end.

(** [params[0]]: the element, or [undefined] past the end. *)
Definition first_param (params : list string) : option string := head params.

Definition of_param (p : option string) : JsString :=
  match p with
  | Some s => JsStr s
  | None => JsUndefined
  end.

(** Truthiness of a [string | undefined]: only the non-empty string. *)
Definition truthy (p : option string) : bool :=
  match p with
  | Some s => negb (String.eqb s "")
  | None => false
  end.

(** ** Parsed protocol lines (tekko) *)

Inductive TagValue :=
| TagTrue
| TagStr (s : string).

#[global] Instance TagValue_eq_dec : EqDecision TagValue.
Proof. solve_decision. Defined.

Abbreviation Tags := (gmap string TagValue).

Record Prefix := mkPrefix {
  prefix_name : string;
  prefix_user : option string;
  prefix_host : option string
}.

Record TekkoMessage := mkTekko {
  raw : string;
  command : string;
  params : list string;
  prefix : option Prefix;
  tags : Tags
}.

Definition with_raw (line : string) (m : TekkoMessage) : TekkoMessage :=
  {| raw := line; command := command m; params := params m;
     prefix := prefix m; tags := tags m |}.

(** The message handed to [tekko.format]: either [params], or [middle] with
    an optional [trailing]. *)
Record FormatInput := mkFormat {
  f_command : string;
  f_params : option (list string);
  f_middle : option (list string);
  f_trailing : option string
}.

(** ** The entity model *)

Abbreviation ChannelRef := nat (only parsing).
Abbreviation UserRef := nat (only parsing).
Abbreviation ClientUserRef := nat (only parsing).
Abbreviation UserStateRef := nat (only parsing).

(** Modelled from the spec: the classes of [./channel], [./user] and
    [./message] are not part of [client.ts].  A [Channel] is identified by its
    name and holds the tags it was created with; a [User] holds a login, its
    tags and a back-reference to its channel; the [ClientUser] is the
    authenticated user, with a login and a map from channel name to
    [UserState]; a [UserState] holds tags and a back-reference to its channel;
    [MessageData] wraps the fields of the parsed line and [ChatMessage]
    specialises it. *)
Record Channel := mkChannel {
  channel_name : option string;
  channel_tags : Tags
}.

Record User := mkUser {
  user_login : string;
  user_tags : Tags;
  user_channel : option ChannelRef
}.

Record UserState := mkUserState {
  state_tags : Tags;
  state_channel : option ChannelRef
}.

Record ClientUser := mkClientUser {
  login : JsString;
  client_user_tags : Tags;
  states : gmap (option string) UserStateRef
}.

Record MessageData := mkMessageData {
  data_raw : string;
  data_command : string;
  data_params : list string;
  data_prefix : option Prefix;
  data_tags : Tags
}.

Record ChatMessage := mkChatMessage {
  chat_data : MessageData
}.

(** Modelled from the spec: [UserState.update] merges the incoming tags into
    the stored ones; a tag of the message overwrites the stored tag of the
    same key, every other stored tag survives. *)
Definition update (incoming : Tags) (s : UserState) : UserState :=
  {| state_tags := incoming ∪ state_tags s; state_channel := state_channel s |}.

(** ** Options, connection and socket *)

Record Identity := mkIdentity {
  name : JsString;
  auth : JsString
}.

Record ConnectionOptions := mkConnectionOptions {
  opt_host : option string;
  opt_port : option Z
}.

Record ClientOptions := mkOptions {
  identity : option Identity;
  opt_connection : option ConnectionOptions
}.

Record Connection := mkConnection {
  host : string;
  port : Z
}.

Definition defaultTMIHost : string := "irc.chat.twitch.tv".
Definition defaultTMIPort : Z := 6697.

Definition noopIRCCommands : list string :=
  [ "CAP"; "002"; "003"; "004"; "353"; "366"; "375"; "372"; "376" ].

(** The methods a socket listener calls back. *)
Inductive Handler :=
| H_onConnect
| H_onClose
| H_onError
| H_onData.

Record Socket := mkSocket {
  socket_host : string;
  socket_port : Z;
  encoding : option string;
  listeners : list (string * Handler);
  written : list string
}.

(** ** Events *)

(** The acting user of a join or part: a [User] made for the message, or
    the value of [this.user]. *)
Inductive UserOrClientUser :=
| AUser (u : UserRef)
| AClientUser (u : option ClientUserRef).

Inductive Event :=
| EvUnhandledCommand (data : MessageData)
| EvError (error : string)
| EvPing
| EvConnected
| EvDisconnected (willReconnect hadError : bool)
| EvJoin (channel : option ChannelRef) (user : UserOrClientUser)
| EvPart (channel : option ChannelRef) (user : UserOrClientUser)
| EvMessage (message : ChatMessage)
| EvGlobalUserState (user : ClientUserRef)
| EvUserState (state : UserStateRef)
| EvRoomState (data : MessageData).

Definition event_name (e : Event) : string :=
  match e with
  | EvUnhandledCommand _ => "unhandled-command"
  | EvError _ => "error"
  | EvPing => "ping"
  | EvConnected => "connected"
  | EvDisconnected _ _ => "disconnected"
  | EvJoin _ _ => "join"
  | EvPart _ _ => "part"
  | EvMessage _ => "message"
  | EvGlobalUserState _ => "globaluserstate"
  | EvUserState _ => "userstate"
  | EvRoomState _ => "roomstate"
  end.

Inductive LogItem :=
| LogText (s : string)
| LogParsed (m : TekkoMessage).

(** ** The session: the client's fields, the objects allocated so far, and
    what the client has emitted and logged

    The client is an [EventEmitter]: [handlers] has the name of an event
    once for each listener that was registered for it with [on]. *)

Record Session := mkSession {
  socket : option Socket;
  options : ClientOptions;
  connection : Connection;
  user : option ClientUserRef;
  channels : gmap (option string) (option ChannelRef);
  channelObjs : list Channel;
  userObjs : list User;
  clientUserObjs : list ClientUser;
  userStateObjs : list UserState;
  emitted : list Event;
  console : list LogItem;
  handlers : list string
}.

Definition set_socket (v : option Socket) (s : Session) : Session :=
  mkSession v (options s) (connection s) (user s) (channels s)
    (channelObjs s) (userObjs s) (clientUserObjs s) (userStateObjs s)
    (emitted s) (console s) (handlers s).

Definition set_options (v : ClientOptions) (s : Session) : Session :=
  mkSession (socket s) v (connection s) (user s) (channels s)
    (channelObjs s) (userObjs s) (clientUserObjs s) (userStateObjs s)
    (emitted s) (console s) (handlers s).

Definition set_user (v : option ClientUserRef) (s : Session) : Session :=
  mkSession (socket s) (options s) (connection s) v (channels s)
    (channelObjs s) (userObjs s) (clientUserObjs s) (userStateObjs s)
    (emitted s) (console s) (handlers s).

Definition set_channels (v : gmap (option string) (option ChannelRef))
    (s : Session) : Session :=
  mkSession (socket s) (options s) (connection s) (user s) v
    (channelObjs s) (userObjs s) (clientUserObjs s) (userStateObjs s)
    (emitted s) (console s) (handlers s).

Definition set_channelObjs (v : list Channel) (s : Session) : Session :=
  mkSession (socket s) (options s) (connection s) (user s) (channels s)
    v (userObjs s) (clientUserObjs s) (userStateObjs s)
    (emitted s) (console s) (handlers s).

Definition set_userObjs (v : list User) (s : Session) : Session :=
  mkSession (socket s) (options s) (connection s) (user s) (channels s)
    (channelObjs s) v (clientUserObjs s) (userStateObjs s)
    (emitted s) (console s) (handlers s).

Definition set_clientUserObjs (v : list ClientUser) (s : Session) : Session :=
  mkSession (socket s) (options s) (connection s) (user s) (channels s)
    (channelObjs s) (userObjs s) v (userStateObjs s)
    (emitted s) (console s) (handlers s).

Definition set_userStateObjs (v : list UserState) (s : Session) : Session :=
  mkSession (socket s) (options s) (connection s) (user s) (channels s)
    (channelObjs s) (userObjs s) (clientUserObjs s) v
    (emitted s) (console s) (handlers s).

Definition set_emitted (v : list Event) (s : Session) : Session :=
  mkSession (socket s) (options s) (connection s) (user s) (channels s)
    (channelObjs s) (userObjs s) (clientUserObjs s) (userStateObjs s)
    v (console s) (handlers s).

Definition set_console (v : list LogItem) (s : Session) : Session :=
  mkSession (socket s) (options s) (connection s) (user s) (channels s)
    (channelObjs s) (userObjs s) (clientUserObjs s) (userStateObjs s)
    (emitted s) v (handlers s).

Definition set_handlers (v : list string) (s : Session) : Session :=
  mkSession (socket s) (options s) (connection s) (user s) (channels s)
    (channelObjs s) (userObjs s) (clientUserObjs s) (userStateObjs s)
    (emitted s) (console s) v.

(** ** Computations: state passing with JavaScript exceptions

    A method either returns normally or throws; what it changed before a
    [throw] stays changed. *)

Inductive JsError :=
| TypeError (what : string)
| RangeError (what : string)
| ParseError (line : string)
| Unhandled (error : string)
| DanglingReference.

Inductive Completion (A : Type) :=
| Normal (a : A)
| Throw (e : JsError).
Arguments Normal {A} a.
Arguments Throw {A} e.

Definition Eff (A : Type) : Type := Session -> Session * Completion A.

Definition ret {A} (a : A) : Eff A := fun s => (s, Normal a).

Definition bind {A B} (m : Eff A) (k : A -> Eff B) : Eff B :=
  fun s =>
    match m s with
    | (s', Normal a) => k a s'
    | (s', Throw e) => (s', Throw e)
    end.

Definition throw {A} (e : JsError) : Eff A := fun s => (s, Throw e).
Definition gets {A} (f : Session -> A) : Eff A := fun s => (s, Normal (f s)).
Definition modify (f : Session -> Session) : Eff unit := fun s => (f s, Normal tt).

Declare Scope eff_scope.
Delimit Scope eff_scope with eff.
Notation "'let*' x := m 'in' k" := (bind m (fun x => k))
  (at level 10, x pattern, m at level 100, k at level 200) : eff_scope.
Notation "m >> k" := (bind m (fun _ => k))
  (at level 90, right associativity) : eff_scope.
Open Scope eff_scope.

(** The session after running [m], and how [m] completed. *)
Definition after {A} (m : Eff A) (s : Session) : Session := fst (m s).
Definition completion {A} (m : Eff A) (s : Session) : Completion A := snd (m s).

(** ** Primitive effects *)

Definition CRLF : string := String "013"%char (String "010"%char "").

(** [emit] hands the event to the listeners registered for its name, which
    are taken to return.  An [error] event for which no listener is
    registered is not handed to anyone: the emitter throws the error. *)
Definition emit (e : Event) : Eff unit :=
  match e with
  | EvError error =>
    let* hs := gets handlers in
    if existsb (String.eqb "error") hs
    then modify (fun s => set_emitted (emitted s ++ [e]) s)
    else throw (Unhandled error)
  | _ => modify (fun s => set_emitted (emitted s ++ [e]) s)
  end.

(** [client.on(event, listener)], of the [EventEmitter] the class extends. *)
Definition Client_on (event : string) : Eff unit :=
  modify (fun s => set_handlers (handlers s ++ [event]) s).

Definition console_log (i : LogItem) : Eff unit :=
  modify (fun s => set_console (console s ++ [i]) s).

(** [socket.write(data, callback)] hands [data] to the socket; the callback
    runs later, see [write_callback]. *)
Definition write (data : string) (sk : Socket) : Socket :=
  mkSocket (socket_host sk) (socket_port sk) (encoding sk) (listeners sk)
    (written sk ++ [data]).

Definition setEncoding (enc : string) (sk : Socket) : Socket :=
  mkSocket (socket_host sk) (socket_port sk) (Some enc) (listeners sk)
    (written sk).

Definition on (event : string) (h : Handler) (sk : Socket) : Socket :=
  mkSocket (socket_host sk) (socket_port sk) (encoding sk)
    (listeners sk ++ [(event, h)]) (written sk).

(** A port that [tls.connect] accepts. *)
Definition valid_port (p : Z) : bool := (0 <=? p)%Z && (p <? 65536)%Z.

(** [tls.connect({ host, port })]: a new socket, nothing written to it; a
    [RangeError], thrown at once, for a port that is out of range. *)
Definition tls_connect (h : string) (p : Z) : Eff Socket :=
  if valid_port p then ret (mkSocket h p None [] [])
  else throw (RangeError "Port should be >= 0 and < 65536").

Definition update_socket (f : Socket -> Socket) : Eff unit :=
  modify (fun s => set_socket (f <$> socket s) s).

(** [new C(...)]: the object is appended to the objects of its class and is
    referred to by its position, which no earlier object has. *)
Definition new_Channel (n : option string) (t : Tags) : Eff ChannelRef :=
  fun s => (set_channelObjs (channelObjs s ++ [mkChannel n t]) s,
            Normal (length (channelObjs s))).

Definition new_User (l : string) (t : Tags) (c : option ChannelRef) : Eff UserRef :=
  fun s => (set_userObjs (userObjs s ++ [mkUser l t c]) s,
            Normal (length (userObjs s))).

Definition new_ClientUser (l : JsString) (t : Tags) : Eff ClientUserRef :=
  fun s => (set_clientUserObjs (clientUserObjs s ++ [mkClientUser l t ∅]) s,
            Normal (length (clientUserObjs s))).

Definition new_UserState (t : Tags) (c : option ChannelRef) : Eff UserStateRef :=
  fun s => (set_userStateObjs (userStateObjs s ++ [mkUserState t c]) s,
            Normal (length (userStateObjs s))).

Definition new_MessageData (m : TekkoMessage) : MessageData :=
  mkMessageData (raw m) (command m) (params m) (prefix m) (tags m).

Definition new_ChatMessage (d : MessageData) : ChatMessage :=
  mkChatMessage d.

(** Reading and writing the object behind a reference. *)
Definition read_clientUser (r : ClientUserRef) : Eff ClientUser :=
  fun s => match clientUserObjs s !! r with
           | Some o => (s, Normal o)
           | None => (s, Throw DanglingReference)
           end.

Definition write_clientUser (r : ClientUserRef) (o : ClientUser) : Eff unit :=
  modify (fun s => set_clientUserObjs (<[r := o]> (clientUserObjs s)) s).

Definition read_userState (r : UserStateRef) : Eff UserState :=
  fun s => match userStateObjs s !! r with
           | Some o => (s, Normal o)
           | None => (s, Throw DanglingReference)
           end.

Definition write_userState (r : UserStateRef) (o : UserState) : Eff unit :=
  modify (fun s => set_userStateObjs (<[r := o]> (userStateObjs s)) s).

Definition set_states (m : gmap (option string) UserStateRef) (u : ClientUser)
    : ClientUser :=
  mkClientUser (login u) (client_user_tags u) m.

(** [this.user.states]: a [TypeError] while [this.user] is [null]. *)
Definition user_states : Eff (ClientUserRef * ClientUser) :=
  let* u := gets user in
  match u with
  | None => throw (TypeError "Cannot read property 'states' of null")
  | Some r => let* o := read_clientUser r in ret (r, o)
  end.

(** A promise, by its state when it is returned. *)
Inductive Promise (A : Type) :=
| Resolved (a : A)
| Rejected (e : JsError)
| Pending.
Arguments Resolved {A} a.
Arguments Rejected {A} e.
Arguments Pending {A}.

(** ** The constructor *)

Definition new_Client (opts : ClientOptions) : Session :=
  let connectionOpts :=
    match opt_connection opts with
    | Some c => c
    | None => mkConnectionOptions None None
    end in
  {| socket := None;
     options := opts;
     connection :=
       {| host := match opt_host connectionOpts with
                  | None => defaultTMIHost
                  | Some h => h
                  end;
          port := match opt_port connectionOpts with
                  | None => defaultTMIPort
                  | Some p => p
                  end |};
     user := None;
     channels := ∅;
     channelObjs := [];
     userObjs := [];
     clientUserObjs := [];
     userStateObjs := [];
     emitted := [];
     console := [];
     handlers := [] |}.

(** [rawData.split('\r\n')] *)
Fixpoint split_CRLF (s : string) : list string :=
  match s with
  | EmptyString => [EmptyString]
  | String c s' =>
    match s' with
    | String c' s'' =>
      if (Ascii.eqb c "013" && Ascii.eqb c' "010")%bool
      then EmptyString :: split_CRLF s''
      else match split_CRLF s' with
           | l :: ls => String c l :: ls
           | [] => [String c EmptyString]
           end
    | EmptyString => [String c EmptyString]
    end
  end.

(** ** The methods of [Client] *)

(** Who a message is sent to: a channel name or a [Channel]. *)
Inductive Target :=
| ByName (n : string)
| ByChannel (c : Channel).

(** The event a socket delivers to its listeners. *)
Inductive SocketEvent :=
| SecureConnect
| Close (hadError : bool)
| SocketError (error : string)
| Data (data : string).

Definition socket_event_name (e : SocketEvent) : string :=
  match e with
  | SecureConnect => "secureConnect"
  | Close _ => "close"
  | SocketError _ => "error"
  | Data _ => "data"
  end.

Section Methods.

(** The collaborators outside the repository: [tekko.parse] ([None] when it
    throws), [tekko.format], [String.prototype.trim], and the string a
    [Channel] converts to. *)
Variable parse : string -> option TekkoMessage.
Variable format : FormatInput -> string.
Variable trim : string -> string.
Variable Channel_toString : Channel -> string.

Definition target_toString (t : Target) : string :=
  match t with
  | ByName n => n
  | ByChannel c => Channel_toString c
  end.

Definition sendRaw (message : string) : Eff unit :=
  let* sk := gets socket in
  match sk with
  | None => throw (TypeError "Cannot read property 'write' of null")
  | Some sk => modify (set_socket (Some (write (message ++ CRLF) sk)))
  end.

(** The callback [sendRaw] passes to [socket.write], run by the socket once
    the write has completed or failed. *)
Definition write_callback (err : option string) : Eff unit :=
  match err with
  | Some e => emit (EvError e)
  | None => ret tt
  end.

Definition sendRawArray (messages : list string) : Eff unit :=
  sendRaw (String.concat CRLF messages).

Definition _onConnect : Eff unit :=
  let* opts := gets options in
  match identity opts with
  | None => throw (TypeError "Cannot read property 'name' of undefined")
  | Some id =>
    let name := name id in
    let auth := "oauth:" ++ toString (auth id) in
    sendRawArray [ "CAP REQ :twitch.tv/tags twitch.tv/commands";
                   "PASS " ++ auth;
                   "NICK " ++ toString name ] >>
    emit EvConnected
  end.

Definition connect : Eff (Promise unit) :=
  let* c := gets connection in
  let* sk := tls_connect (host c) (port c) in
  modify (set_socket (Some sk)) >>
  update_socket (setEncoding "utf8") >>
  update_socket (on "secureConnect" H_onConnect) >>
  update_socket (on "close" H_onClose) >>
  update_socket (on "error" H_onError) >>
  update_socket (on "data" H_onData) >>
  ret (Resolved tt).

Definition _onClose (hadError : bool) : Eff unit :=
  let willReconnect := false in
  emit (EvDisconnected willReconnect hadError) >>
  if willReconnect then connect >> ret tt else ret tt.

Definition _onError (error : string) : Eff unit :=
  emit (EvError error).

(** [parsedData.prefix && parsedData.prefix.user === 'jtv'] *)
Definition from_jtv (m : TekkoMessage) : bool :=
  match prefix m with
  | Some p =>
    match prefix_user p with
    | Some u => String.eqb u "jtv"
    | None => false
    end
  | None => false
  end.

(** [this.user && prefix.name === this.user.login] *)
Definition is_self (p : option Prefix) : Eff bool :=
  let* u := gets user in
  match u with
  | None => ret false
  | Some r =>
    match p with
    | None => throw (TypeError "Cannot read property 'name' of null")
    | Some p =>
      let* o := read_clientUser r in
      ret (bool_decide (JsStr (prefix_name p) = login o))
    end
  end.

(** [let channel = null; if(channelName) { channel =
    this.channels.get(channelName); if(!channel) { channel = new Channel(this,
    channelName, tags); } }] *)
Definition resolve_channel (channelName : option string) (t : Tags)
    : Eff (option ChannelRef) :=
  if truthy channelName then
    let* stored := gets (fun s => channels s !! channelName) in
    match stored with
    | Some (Some c) => ret (Some c)
    | _ => let* c := new_Channel channelName t in ret (Some c)
    end
  else ret None.

(** [let user = this.user; if(!isSelf) { user = new User(prefix.name, tags,
    channel); }] *)
Definition acting_user (isSelf : bool) (p : option Prefix) (t : Tags)
    (channel : option ChannelRef) : Eff UserOrClientUser :=
  let* u := gets user in
  if negb isSelf then
    match p with
    | None => throw (TypeError "Cannot read property 'name' of null")
    | Some p => let* r := new_User (prefix_name p) t channel in ret (AUser r)
    end
  else ret (AClientUser u).

Definition _handleMessage (message : string) : Eff unit :=
  match parse message with
  | None => throw (ParseError message)
  | Some parsed =>
    let parsedData := with_raw message parsed in
    let command := command parsedData in
    if String.eqb command "PING" then
      sendRaw "PONG :tmi.twitch.tv" >>
      emit EvPing
    else if from_jtv parsedData then
      console_log (LogText "JTV") >>
      console_log (LogParsed parsedData)
    else if String.eqb command "001" then
      let name := of_param (first_param (params parsedData)) in
      let* opts := gets options in
      match identity opts with
      | None =>
        modify (set_options
                  (mkOptions (Some (mkIdentity name JsNull)) (opt_connection opts)))
      | Some id =>
        modify (set_options
                  (mkOptions (Some (mkIdentity name (auth id))) (opt_connection opts)))
      end
    else if existsb (String.eqb command) noopIRCCommands then
      ret tt
    else
      let data := new_MessageData parsedData in
      let params := data_params data in
      let prefix := data_prefix data in
      let tags := data_tags data in
      let channelName := first_param params in
      let* channel := resolve_channel channelName tags in
      let* isSelf := is_self prefix in
      if String.eqb command "PRIVMSG" then
        let messageEvent := new_ChatMessage data in
        emit (EvMessage messageEvent)
      else if String.eqb command "JOIN" then
        modify (fun s => set_channels (<[channelName := channel]> (channels s)) s) >>
        let* user := acting_user isSelf prefix tags channel in
        emit (EvJoin channel user)
      else if String.eqb command "PART" then
        modify (fun s => set_channels (delete channelName (channels s)) s) >>
        let* ro := user_states in
        let (r, o) := (ro : ClientUserRef * ClientUser) in
        write_clientUser r (set_states (delete channelName (states o)) o) >>
        let* channel :=
          match channel with
          | None => let* c := new_Channel channelName tags in ret (Some c)
          | Some c => ret (Some c)
          end in
        let* user := acting_user isSelf prefix tags channel in
        emit (EvPart channel user)
      else if String.eqb command "GLOBALUSERSTATE" then
        let* opts := gets options in
        let name :=
          match identity opts with
          | Some id => name id
          | None => JsNull
          end in
        let* r := new_ClientUser name tags in
        modify (set_user (Some r)) >>
        emit (EvGlobalUserState r)
      else if String.eqb command "USERSTATE" then
        let* ro := user_states in
        let (r, o) := (ro : ClientUserRef * ClientUser) in
        let* state :=
          match states o !! channelName with
          | Some st =>
            let* old := read_userState st in
            write_userState st (update tags old) >>
            ret st
          | None =>
            let* st := new_UserState tags channel in
            write_clientUser r (set_states (<[channelName := st]> (states o)) o) >>
            ret st
          end in
        emit (EvUserState state)
      else if String.eqb command "ROOMSTATE" then
        emit (EvRoomState data)
      else
        emit (EvUnhandledCommand data)
  end.

(** The lines of a chunk are handled in order; a throw ends the loop. *)
Fixpoint handle_lines (lines : list string) : Eff unit :=
  match lines with
  | [] => ret tt
  | line :: rest => _handleMessage line >> handle_lines rest
  end.

Definition _onData (rawData : string) : Eff unit :=
  let data := split_CRLF (trim rawData) in
  match data with
  | [line] => _handleMessage line
  | _ => handle_lines data
  end.

Definition sendCommand (channel : Target) (command : string)
    (params : string + list string) : Eff unit :=
  let commandParams :=
    match params with
    | inr ps => String.concat " " ps
    | inl p => p
    end in
  let ircMessage :=
    format {| f_command := "PRIVMSG";
              f_params := None;
              f_middle := Some [ target_toString channel ];
              f_trailing := Some ("/" ++ command ++ " " ++ commandParams) |} in
  sendRaw ircMessage.

Definition join (roomName : string) : Eff unit :=
  let ircMessage :=
    format {| f_command := "JOIN";
              f_params := None;
              f_middle := Some [ roomName ];
              f_trailing := None |} in
  sendRaw ircMessage.

Definition part (roomName : string) : Eff unit :=
  let ircMessage :=
    format {| f_command := "PART";
              f_params := None;
              f_middle := Some [ roomName ];
              f_trailing := None |} in
  sendRaw ircMessage.

Definition say (channel : Target) (message : string) : Eff unit :=
  let ircMessage :=
    format {| f_command := "PRIVMSG";
              f_params := Some [ target_toString channel; message ];
              f_middle := None;
              f_trailing := None |} in
  sendRaw ircMessage.

(** ** The socket calling back *)

Definition call_handler (h : Handler) (e : SocketEvent) : Eff unit :=
  match h, e with
  | H_onConnect, _ => _onConnect
  | H_onClose, Close hadError => _onClose hadError
  | H_onError, SocketError error => _onError error
  | H_onData, Data d => _onData d
  | _, _ => ret tt
  end.

Fixpoint call_listeners (ls : list (string * Handler)) (e : SocketEvent)
    : Eff unit :=
  match ls with
  | [] => ret tt
  | (n, h) :: rest =>
    (if String.eqb n (socket_event_name e) then call_handler h e else ret tt) >>
    call_listeners rest e
  end.

(** The current socket delivers [e] to the listeners registered for it. *)
Definition deliver (e : SocketEvent) : Eff unit :=
  let* sk := gets socket in
  match sk with
  | None => ret tt
  | Some sk => call_listeners (listeners sk) e
  end.

End Methods.

(** ** Sessions a client can reach *)

Inductive Action :=
| A_on (event : string)
| A_connect
| A_deliver (e : SocketEvent)
| A_write_callback (err : option string)
| A_handleMessage (message : string)
| A_sendRaw (message : string)
| A_sendRawArray (messages : list string)
| A_sendCommand (channel : Target) (command : string) (params : string + list string)
| A_join (roomName : string)
| A_part (roomName : string)
| A_say (channel : Target) (message : string).

Section Reachable.

Variable parse : string -> option TekkoMessage.
Variable format : FormatInput -> string.
Variable trim : string -> string.
Variable Channel_toString : Channel -> string.

Definition perform (a : Action) : Eff unit :=
  match a with
  | A_on event => Client_on event
  | A_connect => connect >> ret tt
  | A_deliver e => deliver parse trim e
  | A_write_callback err => write_callback err
  | A_handleMessage m => _handleMessage parse m
  | A_sendRaw m => sendRaw m
  | A_sendRawArray ms => sendRawArray ms
  | A_sendCommand c w ps => sendCommand format Channel_toString c w ps
  | A_join r => join format r
  | A_part r => part format r
  | A_say c m => say format Channel_toString c m
  end.

(** A session is reachable when it is what some calls and socket events,
    whether they returned or threw, made of a newly constructed client. *)
Inductive reachable : Session -> Prop :=
| reachable_new (opts : ClientOptions) : reachable (new_Client opts)
| reachable_step (a : Action) (s : Session) :
    reachable s -> reachable (after (perform a) s).

End Reachable.

(** ** Vocabulary of the properties *)

(** The channel map, the authenticated user and every object of the entity
    model are the same in [s'] as in [s]. *)
Definition same_entities (s s' : Session) : Prop :=
  channels s' = channels s /\ user s' = user s /\
  channelObjs s' = channelObjs s /\ userObjs s' = userObjs s /\
  clientUserObjs s' = clientUserObjs s /\ userStateObjs s' = userStateObjs s.

(** [this.user && prefix.name === this.user.login] can be evaluated: no user
    is established yet, or the message names its sender and [this.user] is an
    object. *)
Definition sender_comparable (s : Session) (m : TekkoMessage) : Prop :=
  match user s with
  | None => True
  | Some r => is_Some (prefix m) /\ is_Some (clientUserObjs s !! r)
  end.

(** The message reaches the branches on its command: it is not taken by the
    branch of the service pseudo-user. *)
Definition dispatched_as (cmd : string) (m : TekkoMessage) : Prop :=
  command m = cmd /\ from_jtv m = false.

(** The three commands [_onConnect] sends, as they go out in one write. *)
Definition handshake (id : Identity) : string :=
  "CAP REQ :twitch.tv/tags twitch.tv/commands" ++ CRLF ++
  "PASS oauth:" ++ toString (auth id) ++ CRLF ++
  "NICK " ++ toString (name id) ++ CRLF.

(** Every Channel of the channel map is an object that carries the name it is
    stored under, and that name is one for which dispatch resolves a
    channel. *)
Definition channels_named (s : Session) : Prop :=
  forall (k : option string) (r : ChannelRef),
    channels s !! k = Some (Some r) ->
    exists c, channelObjs s !! r = Some c /\ channel_name c = k /\
              truthy k = true.

(** No two Channel objects of the session carry the same name. *)
Definition one_Channel_per_name (s : Session) : Prop :=
  forall (i j : ChannelRef) (c d : Channel),
    channelObjs s !! i = Some c -> channelObjs s !! j = Some d ->
    channel_name c = channel_name d -> i = j.

(** Dispatch is done with the message before it resolves a channel: the
    branches of PING, of the service pseudo-user, of 001 and of the no-op
    commands. *)
Definition ends_early (m : TekkoMessage) : bool :=
  String.eqb (command m) "PING" || from_jtv m ||
  String.eqb (command m) "001" ||
  existsb (String.eqb (command m)) noopIRCCommands.

(** The event of the branch that the command of the message selects. *)
Definition dispatched_event (m : TekkoMessage) : string :=
  if String.eqb (command m) "PRIVMSG" then "message"
  else if String.eqb (command m) "JOIN" then "join"
  else if String.eqb (command m) "PART" then "part"
  else if String.eqb (command m) "GLOBALUSERSTATE" then "globaluserstate"
  else if String.eqb (command m) "USERSTATE" then "userstate"
  else if String.eqb (command m) "ROOMSTATE" then "roomstate"
  else "unhandled-command".

(** The user of the session and the states of every [ClientUser] refer to
    objects that exist. *)
Definition references_live (s : Session) : Prop :=
  (forall r : ClientUserRef,
     user s = Some r -> r < length (clientUserObjs s)) /\
  (forall (r : ClientUserRef) (o : ClientUser) (k : option string)
          (st : UserStateRef),
     clientUserObjs s !! r = Some o -> states o !! k = Some st ->
     st < length (userStateObjs s)).

(** [m] keeps the property [P] of sessions, whether it returns or throws. *)
Definition keeps (P : Session -> Prop) {A} (m : Eff A) : Prop :=
  forall s : Session, P s -> P (after m s).

(** [m] leaves the channel map, the user and every object as they are. *)
Definition keeps_entities {A} (m : Eff A) : Prop :=
  forall s : Session, same_entities s (after m s).

(** [P] is a property of the channel map, the user and the objects. *)
Definition entity_property (P : Session -> Prop) : Prop :=
  forall s s' : Session, same_entities s s' -> P s -> P s'.

(** The text has a space in it: as a parameter of a protocol line it can
    only go last, after the colon. *)
Definition has_space (text : string) : Prop :=
  exists a b : string, text = (a ++ " " ++ b)%string.

(** The entries of a map that are stored under the key [k]. *)
Definition entries_for {K V : Type} `{Countable K} (k : K) (m : gmap K V)
    : list (K * V) :=
  filter (fun kv => kv.1 = k) (map_to_list m).

(** The sender name [n] is the login of the authenticated user: what
    [isSelf] tests. *)
Definition own_name (s : Session) (n : string) : Prop :=
  exists (r : ClientUserRef) (o : ClientUser),
    user s = Some r /\ clientUserObjs s !! r = Some o /\ login o = JsStr n.

(** The listeners [connect] registers on the socket it makes. *)
Definition connect_listeners : list (string * Handler) :=
  [ ("secureConnect", H_onConnect); ("close", H_onClose);
    ("error", H_onError); ("data", H_onData) ].

(** The text has a CRLF in it. *)
Definition has_CRLF (text : string) : Prop :=
  exists a b : string, text = (a ++ CRLF ++ b)%string.

(** [sendRaw] of each message in turn, as a caller would loop. *)
Fixpoint send_each (messages : list string) : Eff unit :=
  match messages with
  | [] => ret tt
  | m :: rest => sendRaw m >> send_each rest
  end.

(** Everything the socket of the session has been given, as one text. *)
Definition wire_text (s : Session) : option string :=
  (fun sk => String.concat "" (written sk)) <$> socket s.

(** The session after the calls and socket events [acts], in order, each
    whether it returned or threw. *)
Definition run_all (parse : string -> option TekkoMessage)
    (format : FormatInput -> string) (trim : string -> string)
    (Channel_toString : Channel -> string) (acts : list Action) (s : Session)
    : Session :=
  fold_left
    (fun s a => after (perform parse format trim Channel_toString a) s) acts s.

(** The action hands inbound data to dispatch: a line, or a chunk that
    the socket delivers. *)
Definition inbound (a : Action) : bool :=
  match a with
  | A_handleMessage _ => true
  | A_deliver (Data _) => true
  | _ => false
  end.

(** ** Sample lines and collaborators, for the examples *)

Module Samples.

Definition tmi : option Prefix :=
  Some (mkPrefix "tmi.twitch.tv" None None).

Definition alice : option Prefix :=
  Some (mkPrefix "alice" (Some "alice") (Some "alice.tmi.twitch.tv")).

(** The service pseudo-user. *)
Definition jtv : option Prefix :=
  Some (mkPrefix "jtv" (Some "jtv") (Some "jtv.tmi.twitch.tv")).

Definition lines : list (string * TekkoMessage) :=
  [ ("PING :tmi.twitch.tv",
     mkTekko "" "PING" ["tmi.twitch.tv"] None ∅);
    (":alice!alice@alice.tmi.twitch.tv JOIN #channel",
     mkTekko "" "JOIN" ["#channel"] alice ∅);
    (":alice!alice@alice.tmi.twitch.tv PART #channel",
     mkTekko "" "PART" ["#channel"] alice ∅);
    (":tmi.twitch.tv GLOBALUSERSTATE",
     mkTekko "" "GLOBALUSERSTATE" [] tmi ∅);
    ("@mod=0;color=red :tmi.twitch.tv USERSTATE #channel",
     mkTekko "" "USERSTATE" ["#channel"] tmi
       {[ "mod" := TagStr "0"; "color" := TagStr "red" ]});
    ("@mod=1 :tmi.twitch.tv USERSTATE #channel",
     mkTekko "" "USERSTATE" ["#channel"] tmi {[ "mod" := TagStr "1" ]});
    (":tmi.twitch.tv ROOMSTATE #channel",
     mkTekko "" "ROOMSTATE" ["#channel"] tmi ∅);
    (":tmi.twitch.tv RECONNECT",
     mkTekko "" "RECONNECT" [] tmi ∅);
    (":alice!alice@alice.tmi.twitch.tv JOIN :",
     mkTekko "" "JOIN" [""] alice ∅);
    (":jtv!jtv@jtv.tmi.twitch.tv JOIN #channel",
     mkTekko "" "JOIN" ["#channel"] jtv ∅);
    (":jtv!jtv@jtv.tmi.twitch.tv GLOBALUSERSTATE",
     mkTekko "" "GLOBALUSERSTATE" [] jtv ∅);
    ("@mod=1 :jtv!jtv@jtv.tmi.twitch.tv USERSTATE #channel",
     mkTekko "" "USERSTATE" ["#channel"] jtv {[ "mod" := TagStr "1" ]}) ].

(** A stand-in for [tekko.parse], defined on the sample lines. *)
Fixpoint parse_in (table : list (string * TekkoMessage)) (line : string)
    : option TekkoMessage :=
  match table with
  | [] => None
  | (l, m) :: rest => if String.eqb l line then Some m else parse_in rest line
  end.

Definition parse : string -> option TekkoMessage := parse_in lines.

(** A stand-in for [tekko.format]: command, middle parameters, and the last
    parameter after a colon. *)
Definition wire (c : string) (middle : list string) (trailing : option string)
    : string :=
  c ++ String.concat "" (map (fun m => " " ++ m) middle) ++
  match trailing with
  | Some t => " :" ++ t
  | None => ""
  end.

Definition format (i : FormatInput) : string :=
  match f_params i with
  | Some [] => wire (f_command i) [] None
  | Some (p :: ps) =>
    wire (f_command i) (removelast (p :: ps)) (Some (List.last ps p))
  | None =>
    wire (f_command i)
      (match f_middle i with Some m => m | None => [] end) (f_trailing i)
  end.

Definition trim (s : string) : string := s.

Definition Channel_toString (c : Channel) : string :=
  match channel_name c with
  | Some n => n
  | None => "undefined"
  end.

Definition ping : TekkoMessage := mkTekko "" "PING" ["tmi.twitch.tv"] None ∅.

(** The socket [connect] leaves in a client with the default connection. *)
Definition fresh_socket : Socket :=
  mkSocket defaultTMIHost defaultTMIPort (Some "utf8")
    [ ("secureConnect", H_onConnect); ("close", H_onClose);
      ("error", H_onError); ("data", H_onData) ] [].

Definition anonymous : ClientOptions := mkOptions None None.

Definition alice_options : ClientOptions :=
  mkOptions (Some (mkIdentity (JsStr "alice") (JsStr "token"))) None.

End Samples.

(** More of the traffic of a session: the welcome of the server, a command
    the client ignores, chat, a line of the service pseudo-user, and a
    command without sender. *)
Module Traffic.

Definition bob : option Prefix :=
  Some (mkPrefix "bob" (Some "bob") (Some "bob.tmi.twitch.tv")).

Definition lines : list (string * TekkoMessage) :=
  (Samples.lines ++
   [ (":tmi.twitch.tv 001 alice :Welcome, GLHF!",
      mkTekko "" "001" ["alice"; "Welcome, GLHF!"] Samples.tmi ∅);
     (":tmi.twitch.tv CAP * ACK :twitch.tv/tags twitch.tv/commands",
      mkTekko "" "CAP" ["*"; "ACK"; "twitch.tv/tags twitch.tv/commands"]
        Samples.tmi ∅);
     (":bob!bob@bob.tmi.twitch.tv PRIVMSG #channel :hello",
      mkTekko "" "PRIVMSG" ["#channel"; "hello"] bob ∅);
     (":bob!bob@bob.tmi.twitch.tv JOIN #channel",
      mkTekko "" "JOIN" ["#channel"] bob ∅);
     (":jtv!jtv@jtv.tmi.twitch.tv PRIVMSG alice :hosting",
      mkTekko "" "PRIVMSG" ["alice"; "hosting"] Samples.jtv ∅);
     ("RECONNECT", mkTekko "" "RECONNECT" [] None ∅) ])%list.

Definition parse : string -> option TekkoMessage := Samples.parse_in lines.

End Traffic.

(** * Properties *)

(** ** Running computations *)

Lemma run_eq {A} (m : Eff A) (s s' : Session) (c : Completion A) :
  m s = (s', c) -> after m s = s' /\ completion m s = c.
Proof. unfold after, completion. intros ->. split; reflexivity. Qed.

Lemma sendRaw_connected (message : string) (sk : Socket) (s : Session) :
  socket s = Some sk ->
  sendRaw message s = (set_socket (Some (write (message ++ CRLF) sk)) s, Normal tt).
Proof. intros H. unfold sendRaw, bind, gets, modify. rewrite H. reflexivity. Qed.

Lemma sendRaw_no_socket (message : string) (s : Session) :
  socket s = None ->
  sendRaw message s = (s, Throw (TypeError "Cannot read property 'write' of null")).
Proof. intros H. unfold sendRaw, bind, gets, throw. rewrite H. reflexivity. Qed.

Section Dispatch.

Variable parse : string -> option TekkoMessage.

(** C6: an inbound line whose command is PING makes dispatch write
    [PONG :tmi.twitch.tv] followed by CRLF to the socket, once, and emit one
    [ping] event, without payload; nothing else is written or emitted, and
    the channel map, the authenticated user and the objects of the entity
    model (with them the per-channel user states), the options and the
    connection stay as they were.  An inbound line comes from the socket, so
    the client has one. *)
Theorem ping_answers_pong (line : string) (msg : TekkoMessage) (sk : Socket)
    (st : Session) :
  parse line = Some msg ->
  command msg = "PING" ->
  socket st = Some sk ->
  let st' := after (_handleMessage parse line) st in
  completion (_handleMessage parse line) st = Normal tt /\
  socket st' = Some (write ("PONG :tmi.twitch.tv" ++ CRLF) sk) /\
  written <$> socket st' =
    Some (written sk ++ [("PONG :tmi.twitch.tv" ++ CRLF)%string])%list /\
  emitted st' = (emitted st ++ [EvPing])%list /\
  same_entities st st' /\
  options st' = options st /\ connection st' = connection st /\
  console st' = console st.
Proof.
  intros Hparse Hcmd Hsock st'.
  assert (Hrun : _handleMessage parse line st =
                 (set_emitted (emitted st ++ [EvPing])
                    (set_socket (Some (write ("PONG :tmi.twitch.tv" ++ CRLF) sk)) st),
                  Normal tt)).
  { unfold _handleMessage. rewrite Hparse. simpl. rewrite Hcmd. simpl.
    unfold bind. rewrite (sendRaw_connected _ sk) by assumption. reflexivity. }
  apply run_eq in Hrun. destruct Hrun as [Hafter Hcompl].
  subst st'. rewrite Hafter, Hcompl. unfold same_entities. simpl.
  repeat split; reflexivity.
Qed.

End Dispatch.

(** The sample PING line on a connected client. *)
Lemma ping_answers_pong_witness :
  let st := after connect (new_Client Samples.alice_options) in
  let st' := after (_handleMessage Samples.parse "PING :tmi.twitch.tv") st in
  (Samples.parse "PING :tmi.twitch.tv" = Some Samples.ping /\
   command Samples.ping = "PING" /\
   socket st = Some Samples.fresh_socket) /\
  written <$> socket st' = Some [("PONG :tmi.twitch.tv" ++ CRLF)%string] /\
  emitted st' = [EvPing].
Proof.
  intros st st'.
  assert (Hp : Samples.parse "PING :tmi.twitch.tv" = Some Samples.ping)
    by reflexivity.
  assert (Hc : command Samples.ping = "PING") by reflexivity.
  assert (Hs : socket st = Some Samples.fresh_socket) by reflexivity.
  split; [ repeat split; assumption | ].
  destruct (ping_answers_pong Samples.parse _ _ _ st Hp Hc Hs)
    as (_ & _ & Hw & He & _).
  split; [exact Hw | exact He].
Defined.

(** ** Connecting *)

Lemma append_assoc (a b c : string) : ((a ++ b) ++ c = a ++ (b ++ c))%string.
Proof.
  induction a as [|x a IH]; [reflexivity |].
  apply (f_equal (String x)). exact IH.
Qed.

Lemma sendRawArray_handshake (id : Identity) :
  (String.concat CRLF
     [ "CAP REQ :twitch.tv/tags twitch.tv/commands";
       "PASS " ++ ("oauth:" ++ toString (auth id));
       "NICK " ++ toString (name id) ] ++ CRLF)%string = handshake id.
Proof.
  unfold handshake. cbn [String.concat].
  rewrite !append_assoc. reflexivity.
Qed.

Lemma _onConnect_connected (id : Identity) (sk : Socket) (s : Session) :
  identity (options s) = Some id ->
  socket s = Some sk ->
  _onConnect s =
    (set_emitted (emitted s ++ [EvConnected])
       (set_socket (Some (write (handshake id) sk)) s), Normal tt).
Proof.
  intros Hid Hsk. unfold _onConnect, sendRawArray.
  unfold bind at 1. unfold gets at 1. rewrite Hid.
  unfold bind. rewrite (sendRaw_connected _ sk) by assumption.
  rewrite sendRawArray_handshake. reflexivity.
Qed.

(** Without an identity there is no name to read: the listener throws and
    nothing is sent. *)
Lemma _onConnect_without_identity (s : Session) :
  identity (options s) = None ->
  _onConnect s =
    (s, Throw (TypeError "Cannot read property 'name' of undefined")).
Proof.
  intros Hid. unfold _onConnect, bind, gets, throw. rewrite Hid. reflexivity.
Qed.

Lemma connect_run (s : Session) :
  valid_port (port (connection s)) = true ->
  connect s =
    (set_socket
       (Some (mkSocket (host (connection s)) (port (connection s)) (Some "utf8")
                connect_listeners [])) s,
     Normal (Resolved tt)).
Proof.
  intros Hport. unfold connect, tls_connect.
  unfold bind at 1. unfold gets at 1. rewrite Hport.
  destruct s. reflexivity.
Qed.

(** A port out of range: [tls.connect] throws before a socket is made. *)
Lemma connect_out_of_range (s : Session) :
  valid_port (port (connection s)) = false ->
  connect s = (s, Throw (RangeError "Port should be >= 0 and < 65536")).
Proof.
  intros Hport. unfold connect, tls_connect.
  unfold bind at 1. unfold gets at 1. rewrite Hport. reflexivity.
Qed.




Section Connection.

Variable parse : string -> option TekkoMessage.
Variable trim : string -> string.





End Connection.





(** ** Sending *)

Lemma Samples_format_params (c : string) (middle : list string)
    (trailing : string) :
  has_space trailing ->
  Samples.format (mkFormat c (Some (middle ++ [trailing])%list) None None) =
  Samples.format (mkFormat c None (Some middle) (Some trailing)).
Proof.
  intros _.
  unfold Samples.format. cbn [f_params f_command f_middle f_trailing].
  destruct middle as [|a m]; [reflexivity |].
  change ((a :: m) ++ [trailing])%list with (a :: (m ++ [trailing]))%list.
  cbv iota.
  change (a :: (m ++ [trailing]))%list with ((a :: m) ++ [trailing])%list.
  rewrite removelast_last, last_last. reflexivity.
Qed.

Section Outbound.

Variable format : FormatInput -> string.
Variable Channel_toString : Channel -> string.

(** [tekko.format] is not part of the repository.  It is given the
    parameters of a line as [params] or as [middle] with [trailing]; a
    parameter with a space in it can only be sent as the trailing one, and
    the codec is taken to encode a [params] list that ends with such a
    parameter like the parameters before it as [middle] and it as
    [trailing]. *)
Hypothesis format_params :
  forall (c : string) (middle : list string) (trailing : string),
    has_space trailing ->
    format (mkFormat c (Some (middle ++ [trailing])%list) None None) =
    format (mkFormat c None (Some middle) (Some trailing)).

(** C9: [sendCommand] on a channel, a command word and a list of parameters
    does what [say] does on the same channel with the text made of a slash,
    the command word, a space and the parameters joined by spaces: both hand
    the same PRIVMSG line to [sendRaw].  The line is encoded from the command
    PRIVMSG, the channel as its only middle parameter and that text as its
    trailing parameter, and on a connected client it is the one write that
    is made. *)
Theorem sendCommand_rides_say (channel : Target) (w : string)
    (ps : list string) (st : Session) :
  let text := ("/" ++ w ++ " " ++ String.concat " " ps)%string in
  let line :=
    format (mkFormat "PRIVMSG" None
              (Some [target_toString Channel_toString channel]) (Some text)) in
  sendCommand format Channel_toString channel w (inr ps) st =
    say format Channel_toString channel text st /\
  sendCommand format Channel_toString channel w (inr ps) st = sendRaw line st /\
  (forall sk : Socket, socket st = Some sk ->
     written <$> socket (after (sendCommand format Channel_toString
                                  channel w (inr ps)) st) =
       Some (written sk ++ [(line ++ CRLF)%string])%list).
Proof.
  intros text line.
  assert (Hsend : sendCommand format Channel_toString channel w (inr ps) st =
                  sendRaw line st) by reflexivity.
  split; [| split].
  - rewrite Hsend. unfold say, line.
    change [target_toString Channel_toString channel; text]
      with ([target_toString Channel_toString channel] ++ [text])%list.
    rewrite format_params; [reflexivity |].
    exists ("/" ++ w)%string, (String.concat " " ps). unfold text.
    now rewrite append_assoc.
  - exact Hsend.
  - intros sk Hsk. unfold after. rewrite Hsend.
    rewrite (sendRaw_connected _ sk) by assumption. reflexivity.
Qed.

End Outbound.

(** A ban sent to the sample channel, with the sample codec. *)
Lemma sendCommand_rides_say_witness :
  let st := after connect (new_Client Samples.alice_options) in
  (forall (c : string) (middle : list string) (trailing : string),
     has_space trailing ->
     Samples.format (mkFormat c (Some (middle ++ [trailing])%list) None None) =
     Samples.format (mkFormat c None (Some middle) (Some trailing))) /\
  sendCommand Samples.format Samples.Channel_toString
    (ByName "#channel") "ban" (inr ["bob"; "spam"]) st =
  say Samples.format Samples.Channel_toString
    (ByName "#channel") "/ban bob spam" st /\
  written <$> socket (after (sendCommand Samples.format Samples.Channel_toString
                               (ByName "#channel") "ban" (inr ["bob"; "spam"])) st) =
    Some [ ("PRIVMSG #channel :/ban bob spam" ++ CRLF)%string ].
Proof.
  intros st.
  split; [exact Samples_format_params |].
  destruct (sendCommand_rides_say Samples.format Samples.Channel_toString
              Samples_format_params (ByName "#channel") "ban" ["bob"; "spam"] st)
    as (Hsay & _ & Hw).
  split; [exact Hsay |].
  exact (Hw Samples.fresh_socket eq_refl).
Defined.

(** ** Dispatch: the steps shared by the branches on the command *)

Lemma set_channelObjs_same (s : Session) :
  set_channelObjs (channelObjs s ++ []) s = s.
Proof. destruct s. unfold set_channelObjs. cbn. now rewrite app_nil_r. Qed.

(** Channel resolution returns; it changes nothing but the Channel objects,
    to which it adds at most the one it constructs. *)
Lemma resolve_channel_run (n : option string) (t : Tags) (s : Session) :
  exists (extra : list Channel) (ch : option ChannelRef),
    resolve_channel n t s =
      (set_channelObjs (channelObjs s ++ extra) s, Normal ch) /\
    ((truthy n = false /\ ch = None /\ extra = []) \/
     (truthy n = true /\ channels s !! n = Some ch /\ is_Some ch /\ extra = []) \/
     (truthy n = true /\ ~ (exists c, channels s !! n = Some (Some c)) /\
      ch = Some (length (channelObjs s)) /\ extra = [mkChannel n t])).
Proof.
  unfold resolve_channel. destruct (truthy n) eqn:Ht.
  - unfold bind, gets.
    destruct (channels s !! n) as [[c|]|] eqn:Hc.
    + exists [], (Some c). rewrite set_channelObjs_same.
      split; [reflexivity |]. right; left. eauto.
    + exists [mkChannel n t], (Some (length (channelObjs s))).
      split; [reflexivity |]. right; right.
      repeat split; try reflexivity. intros [c Hc']. congruence.
    + exists [mkChannel n t], (Some (length (channelObjs s))).
      split; [reflexivity |]. right; right.
      repeat split; try reflexivity. intros [c Hc']. congruence.
  - exists [], None. rewrite set_channelObjs_same.
    split; [reflexivity |]. left. auto.
Qed.

Lemma is_self_no_user (p : option Prefix) (s : Session) :
  user s = None -> is_self p s = (s, Normal false).
Proof. intros H. unfold is_self, bind, gets. rewrite H. reflexivity. Qed.

Lemma is_self_user (p : Prefix) (r : ClientUserRef) (o : ClientUser)
    (s : Session) :
  user s = Some r -> clientUserObjs s !! r = Some o ->
  is_self (Some p) s = (s, Normal (bool_decide (JsStr (prefix_name p) = login o))).
Proof.
  intros Hu Ho. unfold is_self, bind, gets, read_clientUser.
  rewrite Hu, Ho. reflexivity.
Qed.

Lemma is_self_comparable (m : TekkoMessage) (s s' : Session) :
  user s' = user s -> clientUserObjs s' = clientUserObjs s ->
  sender_comparable s m ->
  exists b : bool, is_self (prefix m) s' = (s', Normal b).
Proof.
  intros Hu Ho Hc. unfold sender_comparable in Hc.
  destruct (user s) as [r|] eqn:Hr.
  - destruct Hc as [[p Hp] [o Hobj]]. rewrite Hp.
    exists (bool_decide (JsStr (prefix_name p) = login o)).
    apply (is_self_user p r o); congruence.
  - exists false. apply is_self_no_user. congruence.
Qed.

Lemma user_states_no_user (s : Session) :
  user s = None ->
  user_states s = (s, Throw (TypeError "Cannot read property 'states' of null")).
Proof. intros H. unfold user_states, bind, gets, throw. rewrite H. reflexivity. Qed.

Lemma user_states_user (r : ClientUserRef) (o : ClientUser) (s : Session) :
  user s = Some r -> clientUserObjs s !! r = Some o ->
  user_states s = (s, Normal (r, o)).
Proof.
  intros Hu Ho. unfold user_states, bind, gets, read_clientUser, ret.
  rewrite Hu, Ho. reflexivity.
Qed.

(** Decide the comparisons of a known command with the commands of the
    branches. *)
Ltac decide_commands :=
  repeat match goal with
         | |- context [String.eqb ?a ?b] =>
           let v := eval vm_compute in (String.eqb a b) in
           match v with
           | true => change (String.eqb a b) with true
           | false => change (String.eqb a b) with false
           end
         | |- context [existsb (String.eqb ?a) noopIRCCommands] =>
           let v := eval vm_compute in (existsb (String.eqb a) noopIRCCommands) in
           match v with
           | true => change (existsb (String.eqb a) noopIRCCommands) with true
           | false => change (existsb (String.eqb a) noopIRCCommands) with false
           end
         end.

(** Enter the branch of a message with a known command that the service
    pseudo-user did not send. *)
Ltac enter_branch Hparse Hcmd Hjtv :=
  unfold _handleMessage; rewrite Hparse; cbv zeta;
  change (command (with_raw _ ?m)) with (command m);
  change (from_jtv (with_raw _ ?m)) with (from_jtv m);
  rewrite Hcmd, Hjtv; decide_commands; cbv iota;
  cbn [new_MessageData data_params data_prefix data_tags with_raw
       params prefix tags].

Lemma is_self_pure (p : option Prefix) (s : Session) :
  exists c, is_self p s = (s, c).
Proof.
  unfold is_self, bind, gets, read_clientUser, throw, ret.
  destruct (user s) as [r|]; [| eauto]. destruct p; [| eauto].
  destruct (clientUserObjs s !! r); eauto.
Qed.

(** Unfold the effects of a run [H : m s = (s', c)] and project the fields
    of the sessions it goes through. *)
Ltac step H :=
  cbv beta iota zeta delta
    [bind ret throw gets modify emit console_log user_states read_clientUser
     write_clientUser read_userState write_userState new_User new_Channel
     new_UserState new_ClientUser acting_user update_socket] in H;
  cbn [socket options connection user channels channelObjs userObjs
       clientUserObjs userStateObjs emitted console
       set_socket set_options set_user set_channels set_channelObjs
       set_userObjs set_clientUserObjs set_userStateObjs set_emitted
       set_console] in H.

(** Follow every way the run can take, by cases on what it inspects. *)
Ltac crunch H :=
  repeat (step H;
          match type of H with
          | context [match ?x with _ => _ end] =>
            lazymatch x with
            | context [match _ with _ => _ end] => fail
            | _ => destruct x eqn:?
            end
          end);
  step H.

Ltac finish H := crunch H; injection H as <- <-; subst; cbn; auto.

Section Totality.

Variable parse : string -> option TekkoMessage.

Ltac emitted_one H :=
  crunch H;
  first [ discriminate H | injection H as <-; eexists; split; reflexivity ].

(** A decoded line that dispatch returns from was answered (PING), or made
    the transition of its early branch (the log of the service pseudo-user,
    the name of the identity, nothing for a no-op command), or was emitted
    as the event of its command. *)
Lemma dispatch_not_silent (line : string) (msg : TekkoMessage) (st : Session) :
  parse line = Some msg ->
  completion (_handleMessage parse line) st = Normal tt ->
  let st' := after (_handleMessage parse line) st in
  (String.eqb (command msg) "PING" = true /\
   emitted st' = (emitted st ++ [EvPing])%list) \/
  (ends_early msg = true /\ from_jtv msg = true /\
   emitted st' = emitted st /\
   console st' =
     (console st ++ [LogText "JTV"; LogParsed (with_raw line msg)])%list) \/
  (ends_early msg = true /\ String.eqb (command msg) "001" = true /\
   emitted st' = emitted st /\
   exists id, identity (options st') = Some id /\
              name id = of_param (first_param (params msg))) \/
  (ends_early msg = true /\
   existsb (String.eqb (command msg)) noopIRCCommands = true /\ st' = st) \/
  (ends_early msg = false /\
   exists e, emitted st' = (emitted st ++ [e])%list /\
             event_name e = dispatched_event msg).
Proof.
  intros Hparse Hc st'. subst st'. unfold after, completion in *.
  destruct (_handleMessage parse line st) as [s' c] eqn:Hrun. cbn [fst snd] in *.
  subst c. unfold _handleMessage in Hrun. rewrite Hparse in Hrun.
  cbv zeta in Hrun.
  change (command (with_raw line msg)) with (command msg) in Hrun.
  change (from_jtv (with_raw line msg)) with (from_jtv msg) in Hrun.
  unfold ends_early, dispatched_event.
  destruct (String.eqb (command msg) "PING") eqn:Hping.
  { left. split; [reflexivity |]. unfold sendRaw in Hrun.
    crunch Hrun; [| discriminate Hrun]. injection Hrun as <-. reflexivity. }
  right.
  destruct (from_jtv msg) eqn:Hjtv.
  { left. do 2 (split; [reflexivity |]).
    crunch Hrun. injection Hrun as <-. split; [reflexivity |].
    cbn. now rewrite <- app_assoc. }
  right.
  destruct (String.eqb (command msg) "001") eqn:H001.
  { left. do 2 (split; [reflexivity |]).
    crunch Hrun; injection Hrun as <-; (split; [reflexivity |]);
      eexists; split; reflexivity. }
  right.
  destruct (existsb _ _) eqn:Hnoop.
  { left. do 2 (split; [reflexivity |]).
    crunch Hrun. injection Hrun as <-. reflexivity. }
  right. split; [reflexivity |].
  destruct (resolve_channel_run (first_param (params msg)) (tags msg) st)
    as (extra & ch & Hres & _).
  cbn [new_MessageData data_params data_prefix data_tags with_raw
       params prefix tags] in Hrun.
  remember (set_channelObjs (channelObjs st ++ extra) st) as s1 eqn:Hs1.
  assert (He : emitted s1 = emitted st) by (subst s1; reflexivity).
  unfold bind at 1 in Hrun. rewrite Hres in Hrun. clear Hres Hs1.
  rewrite <- He. clear He.
  destruct (is_self_pure (prefix msg) s1) as [cs Hself].
  unfold bind at 1 in Hrun. rewrite Hself in Hrun. clear Hself.
  destruct cs as [b|e]; [| discriminate Hrun].
  destruct (String.eqb (command msg) "PRIVMSG"). { emitted_one Hrun. }
  destruct (String.eqb (command msg) "JOIN"). { emitted_one Hrun. }
  destruct (String.eqb (command msg) "PART"). { emitted_one Hrun. }
  destruct (String.eqb (command msg) "GLOBALUSERSTATE"). { emitted_one Hrun. }
  destruct (String.eqb (command msg) "USERSTATE"). { emitted_one Hrun. }
  destruct (String.eqb (command msg) "ROOMSTATE"); emitted_one Hrun.
Qed.

End Totality.

Section Preconditions.

Variable parse : string -> option TekkoMessage.

(** A message that reaches the comparison of its sender with an established
    user and names no sender makes dispatch throw there, on reading [name]
    of the missing prefix ([MessageData] hands the prefix of the parsed line
    on): no branch on the command is entered, nothing is emitted, and the
    channel map and the user stay as they were. *)
Lemma sender_missing_throws (line : string) (msg : TekkoMessage)
    (u : ClientUserRef) (st : Session) :
  parse line = Some msg ->
  ends_early msg = false ->
  prefix msg = None ->
  user st = Some u ->
  let st' := after (_handleMessage parse line) st in
  completion (_handleMessage parse line) st =
    Throw (TypeError "Cannot read property 'name' of null") /\
  emitted st' = emitted st /\ channels st' = channels st /\
  user st' = user st /\ clientUserObjs st' = clientUserObjs st /\
  userStateObjs st' = userStateObjs st.
Proof.
  intros Hparse Hearly Hprefix Huser st'.
  destruct (resolve_channel_run (first_param (params msg)) (tags msg) st)
    as (extra & ch & Hres & _).
  set (s1 := set_channelObjs (channelObjs st ++ extra) st) in *.
  assert (Hrun : _handleMessage parse line st =
                 (s1, Throw (TypeError "Cannot read property 'name' of null"))).
  { unfold ends_early in Hearly.
    apply orb_false_elim in Hearly. destruct Hearly as [Hearly Hnoop].
    apply orb_false_elim in Hearly. destruct Hearly as [Hearly H001].
    apply orb_false_elim in Hearly. destruct Hearly as [Hping Hjtv].
    unfold _handleMessage. rewrite Hparse. cbv zeta.
    change (command (with_raw line msg)) with (command msg).
    change (from_jtv (with_raw line msg)) with (from_jtv msg).
    rewrite Hping, Hjtv, H001, Hnoop.
    cbn [new_MessageData data_params data_prefix data_tags with_raw
         params prefix tags].
    unfold bind at 1. rewrite Hres.
    unfold bind at 1. unfold is_self, bind, gets, throw.
    change (user s1) with (user st). rewrite Huser, Hprefix. reflexivity. }
  destruct (run_eq _ _ _ _ Hrun) as [Ha Hc]. subst st'. rewrite Ha, Hc.
  repeat split; reflexivity.
Qed.

(** C1, on the code: a USERSTATE or a PART message dispatched while no
    authenticated user is established makes dispatch throw a [TypeError],
    reading [states] of [null].  No event is emitted, neither [error] nor
    [disconnected]; a USERSTATE leaves the channel map as it was, a PART has
    removed the channel from it before it throws. *)
Theorem no_user_throws (line : string) (msg : TekkoMessage) (st : Session) :
  parse line = Some msg ->
  from_jtv msg = false ->
  user st = None ->
  command msg = "USERSTATE" \/ command msg = "PART" ->
  let st' := after (_handleMessage parse line) st in
  completion (_handleMessage parse line) st =
    Throw (TypeError "Cannot read property 'states' of null") /\
  emitted st' = emitted st /\
  user st' = None /\
  (command msg = "USERSTATE" -> channels st' = channels st) /\
  (command msg = "PART" ->
   channels st' = delete (first_param (params msg)) (channels st)).
Proof.
  intros Hparse Hjtv Huser Hcmd st'.
  destruct (resolve_channel_run (first_param (params msg)) (tags msg) st)
    as (extra & ch & Hres & _).
  set (s1 := set_channelObjs (channelObjs st ++ extra) st) in *.
  assert (Hu1 : user s1 = None) by exact Huser.
  destruct Hcmd as [Hcmd | Hcmd].
  - assert (Hrun : _handleMessage parse line st =
                   (s1, Throw (TypeError "Cannot read property 'states' of null"))).
    { enter_branch Hparse Hcmd Hjtv.
      unfold bind at 1. rewrite Hres.
      unfold bind at 1. rewrite (is_self_no_user _ s1 Hu1).
      unfold bind at 1. rewrite (user_states_no_user s1 Hu1). reflexivity. }
    destruct (run_eq _ _ _ _ Hrun) as [Ha Hc]. subst st'. rewrite Ha, Hc.
    repeat split; try reflexivity; try assumption.
    intros H. rewrite Hcmd in H. discriminate.
  - assert (Hrun : _handleMessage parse line st =
                   (set_channels (delete (first_param (params msg)) (channels s1)) s1,
                    Throw (TypeError "Cannot read property 'states' of null"))).
    { enter_branch Hparse Hcmd Hjtv.
      unfold bind at 1. rewrite Hres.
      unfold bind at 1. rewrite (is_self_no_user _ s1 Hu1).
      unfold bind at 1. unfold modify at 1.
      unfold bind at 1. rewrite user_states_no_user by exact Hu1. reflexivity. }
    destruct (run_eq _ _ _ _ Hrun) as [Ha Hc]. subst st'. rewrite Ha, Hc.
    repeat split; try reflexivity; try assumption.
    intros H. rewrite Hcmd in H. discriminate.
Qed.

End Preconditions.

(** A USERSTATE for a client that received no GLOBALUSERSTATE, and a PART
    after a JOIN on such a client. *)
Lemma no_user_throws_witness :
  let st := new_Client Samples.anonymous in
  let joined :=
    after (_handleMessage Samples.parse
             ":alice!alice@alice.tmi.twitch.tv JOIN #channel") st in
  channels joined !! Some "#channel" = Some (Some 0) /\
  user joined = None /\
  completion (_handleMessage Samples.parse
                "@mod=1 :tmi.twitch.tv USERSTATE #channel") st =
    Throw (TypeError "Cannot read property 'states' of null") /\
  completion (_handleMessage Samples.parse
                ":alice!alice@alice.tmi.twitch.tv PART #channel") joined =
    Throw (TypeError "Cannot read property 'states' of null") /\
  emitted (after (_handleMessage Samples.parse
                    ":alice!alice@alice.tmi.twitch.tv PART #channel") joined) =
    emitted joined /\
  channels (after (_handleMessage Samples.parse
                     ":alice!alice@alice.tmi.twitch.tv PART #channel") joined)
    !! Some "#channel" = None.
Proof.
  intros st joined.
  split; [vm_compute; reflexivity |].
  split; [reflexivity |].
  destruct (no_user_throws Samples.parse
              "@mod=1 :tmi.twitch.tv USERSTATE #channel"
              (mkTekko "" "USERSTATE" ["#channel"] Samples.tmi
                 {[ "mod" := TagStr "1" ]})
              st eq_refl eq_refl eq_refl (or_introl eq_refl))
    as (Hthrow & _).
  split; [exact Hthrow |].
  destruct (no_user_throws Samples.parse
              ":alice!alice@alice.tmi.twitch.tv PART #channel"
              (mkTekko "" "PART" ["#channel"] Samples.alice ∅)
              joined eq_refl eq_refl eq_refl (or_intror eq_refl))
    as (Hthrow' & He & _ & _ & Hch).
  split; [exact Hthrow' |]. split; [exact He |].
  rewrite (Hch eq_refl). apply lookup_delete_eq.
Defined.

(** ** The authenticated user *)

Lemma not_In_existsb (c : string) (l : list string) :
  ~ In c l -> existsb (String.eqb c) l = false.
Proof.
  induction l as [|x l IH]; [reflexivity |]. intros Hn. cbn [existsb].
  rewrite IH by (intros Hin; apply Hn; right; exact Hin).
  rewrite orb_false_r. apply String.eqb_neq. intros ->. apply Hn. left. reflexivity.
Qed.

Section User.

Variable parse : string -> option TekkoMessage.

(** C4, as the code has it: a GLOBALUSERSTATE message that the service
    pseudo-user did not send (and that names its sender if a user is already
    established, for the comparison of the sender with that user) makes
    dispatch construct a new [ClientUser], with the name of the current
    identity as its login ([null] without identity), the tags of the message
    and no per-channel state; the new object is none of the earlier ones, it
    becomes the authenticated user in place of the prior value, from which
    it differs, and one [globaluserstate] event carrying it is emitted. *)
Theorem globaluserstate_replaces_user (line : string) (msg : TekkoMessage)
    (st : Session) :
  parse line = Some msg ->
  dispatched_as "GLOBALUSERSTATE" msg ->
  sender_comparable st msg ->
  let st' := after (_handleMessage parse line) st in
  let r := length (clientUserObjs st) in
  let identity_name :=
    match identity (options st) with
    | Some id => name id
    | None => JsNull
    end in
  completion (_handleMessage parse line) st = Normal tt /\
  clientUserObjs st !! r = None /\
  clientUserObjs st' =
    (clientUserObjs st ++ [mkClientUser identity_name (tags msg) ∅])%list /\
  user st' = Some r /\
  user st' <> user st /\
  emitted st' = (emitted st ++ [EvGlobalUserState r])%list.
Proof.
  intros Hparse [Hcmd Hjtv] Hcmp st' r identity_name.
  destruct (resolve_channel_run (first_param (params msg)) (tags msg) st)
    as (extra & ch & Hres & _).
  set (s1 := set_channelObjs (channelObjs st ++ extra) st) in *.
  destruct (is_self_comparable msg st s1 eq_refl eq_refl Hcmp) as [b Hself].
  assert (Hrun : _handleMessage parse line st =
                 (set_emitted (emitted st ++ [EvGlobalUserState r])
                    (set_user (Some r)
                       (set_clientUserObjs
                          (clientUserObjs st ++
                           [mkClientUser identity_name (tags msg) ∅])
                          s1)),
                  Normal tt)).
  { enter_branch Hparse Hcmd Hjtv.
    unfold bind at 1. rewrite Hres.
    unfold bind at 1. rewrite Hself. reflexivity. }
  destruct (run_eq _ _ _ _ Hrun) as [Ha Hc]. subst st'. rewrite Ha, Hc.
  cbn [clientUserObjs user emitted set_emitted set_user set_clientUserObjs].
  split; [reflexivity |].
  split; [apply lookup_ge_None_2; subst r; lia |].
  split; [reflexivity |]. split; [reflexivity |]. split; [| reflexivity].
  unfold sender_comparable in Hcmp.
  destruct (user st) as [r0|]; [| discriminate].
  destruct Hcmp as [_ [o Ho]]. apply lookup_lt_Some in Ho.
  intros Heq. injection Heq as Heq. subst r. lia.
Qed.

(** C8, on the code: a decoded line whose command is neither PING nor 001,
    is not in the no-op set, was not sent by the service pseudo-user and is
    none of PRIVMSG, JOIN, PART, GLOBALUSERSTATE, USERSTATE and ROOMSTATE,
    and that names no sender, is not emitted as [unhandled-command] once a
    user is established: dispatch throws on reading the name of the missing
    prefix, where it compares the sender with the user, before it gets to
    the branches on the command.  Nothing is emitted, and the channel map
    and the user stay as they were: the line is dropped, with a fault. *)
Theorem unrecognised_without_sender_throws (line : string)
    (msg : TekkoMessage) (u : ClientUserRef) (st : Session) :
  parse line = Some msg ->
  command msg <> "PING" ->
  command msg <> "001" ->
  ~ In (command msg) noopIRCCommands ->
  from_jtv msg = false ->
  ~ In (command msg)
       ["PRIVMSG"; "JOIN"; "PART"; "GLOBALUSERSTATE"; "USERSTATE"; "ROOMSTATE"] ->
  prefix msg = None ->
  user st = Some u ->
  let st' := after (_handleMessage parse line) st in
  completion (_handleMessage parse line) st =
    Throw (TypeError "Cannot read property 'name' of null") /\
  emitted st' = emitted st /\
  channels st' = channels st /\ user st' = user st.
Proof.
  intros Hparse Hping H001 Hnoop Hjtv _ Hprefix Huser st'.
  assert (Hearly : ends_early msg = false).
  { unfold ends_early.
    rewrite (proj2 (String.eqb_neq _ _) Hping), Hjtv,
            (proj2 (String.eqb_neq _ _) H001), (not_In_existsb _ _ Hnoop).
    reflexivity. }
  destruct (sender_missing_throws parse line msg u st
              Hparse Hearly Hprefix Huser) as (Hc & He & Hch & Hu & _).
  fold st' in He, Hch, Hu.
  split; [exact Hc |]. split; [exact He |]. split; [exact Hch | exact Hu].
Qed.

(** An unrecognised line that can be compared with the user is emitted: a
    decoded line whose command is neither PING nor 001, is not in the no-op
    set, was not sent by the service pseudo-user and is none of PRIVMSG,
    JOIN, PART, GLOBALUSERSTATE, USERSTATE and ROOMSTATE makes dispatch
    return and emit one [unhandled-command] event that carries the decoded
    message with its raw line, when it names its sender or no user is
    established; the channel map and the authenticated user stay as they
    were.  And whenever dispatch returns from a decoded line, it has
    answered it (PING), or made the transition of its early branch, or
    emitted the event of its command. *)
Lemma unrecognised_is_unhandled (line : string) (msg : TekkoMessage)
    (st : Session) :
  parse line = Some msg ->
  command msg <> "PING" ->
  command msg <> "001" ->
  ~ In (command msg) noopIRCCommands ->
  from_jtv msg = false ->
  ~ In (command msg)
       ["PRIVMSG"; "JOIN"; "PART"; "GLOBALUSERSTATE"; "USERSTATE"; "ROOMSTATE"] ->
  sender_comparable st msg ->
  let st' := after (_handleMessage parse line) st in
  completion (_handleMessage parse line) st = Normal tt /\
  emitted st' =
    (emitted st ++
     [EvUnhandledCommand
        (mkMessageData line (command msg) (params msg) (prefix msg) (tags msg))])%list /\
  channels st' = channels st /\ user st' = user st /\
  clientUserObjs st' = clientUserObjs st /\
  userStateObjs st' = userStateObjs st /\
  (forall (any_line : string) (any : TekkoMessage) (s : Session),
     parse any_line = Some any ->
     completion (_handleMessage parse any_line) s = Normal tt ->
     let s' := after (_handleMessage parse any_line) s in
     (String.eqb (command any) "PING" = true /\
      emitted s' = (emitted s ++ [EvPing])%list) \/
     (ends_early any = true /\ from_jtv any = true /\
      emitted s' = emitted s /\
      console s' =
        (console s ++ [LogText "JTV"; LogParsed (with_raw any_line any)])%list) \/
     (ends_early any = true /\ String.eqb (command any) "001" = true /\
      emitted s' = emitted s /\
      exists id, identity (options s') = Some id /\
                 name id = of_param (first_param (params any))) \/
     (ends_early any = true /\
      existsb (String.eqb (command any)) noopIRCCommands = true /\ s' = s) \/
     (ends_early any = false /\
      exists e, emitted s' = (emitted s ++ [e])%list /\
                event_name e = dispatched_event any)).
Proof.
  intros Hparse Hping H001 Hnoop Hjtv Hcmds Hcmp st'.
  destruct (resolve_channel_run (first_param (params msg)) (tags msg) st)
    as (extra & ch & Hres & _).
  set (s1 := set_channelObjs (channelObjs st ++ extra) st) in *.
  destruct (is_self_comparable msg st s1 eq_refl eq_refl Hcmp) as [b Hself].
  assert (Hne : forall c, In c ["PRIVMSG"; "JOIN"; "PART"; "GLOBALUSERSTATE";
                                "USERSTATE"; "ROOMSTATE"] ->
                          String.eqb (command msg) c = false).
  { intros c Hin. apply String.eqb_neq. intros Heq. apply Hcmds.
    rewrite Heq. exact Hin. }
  assert (Hrun : _handleMessage parse line st =
                 (set_emitted
                    (emitted st ++
                     [EvUnhandledCommand
                        (mkMessageData line (command msg) (params msg)
                           (prefix msg) (tags msg))]) s1,
                  Normal tt)).
  { unfold _handleMessage. rewrite Hparse. cbv zeta.
    change (command (with_raw line msg)) with (command msg).
    change (from_jtv (with_raw line msg)) with (from_jtv msg).
    rewrite (proj2 (String.eqb_neq _ _) Hping), Hjtv,
            (proj2 (String.eqb_neq _ _) H001), (not_In_existsb _ _ Hnoop).
    cbn [new_MessageData data_params data_prefix data_tags with_raw
         params prefix tags raw command].
    unfold bind at 1. rewrite Hres.
    unfold bind at 1. rewrite Hself.
    rewrite !Hne by (cbn [In]; tauto).
    reflexivity. }
  destruct (run_eq _ _ _ _ Hrun) as [Ha Hc]. subst st'. rewrite Ha, Hc.
  do 6 (split; [reflexivity |]).
  intros any_line any s Hany Hret. exact (dispatch_not_silent parse any_line any s Hany Hret).
Qed.

End User.

(** C4, as the claim has it, fails: a GLOBALUSERSTATE message with the
    service pseudo-user as its sender is taken by the branch of that user,
    which logs it and returns; no [ClientUser] is constructed, the user
    stays unset and nothing is emitted. *)
Lemma globaluserstate_from_jtv_ignored :
  let line := ":jtv!jtv@jtv.tmi.twitch.tv GLOBALUSERSTATE" in
  let st := new_Client Samples.alice_options in
  let st' := after (_handleMessage Samples.parse line) st in
  (command <$> Samples.parse line) = Some "GLOBALUSERSTATE" /\
  completion (_handleMessage Samples.parse line) st = Normal tt /\
  clientUserObjs st' = [] /\
  user st' = None /\
  emitted st' = [] /\
  console st' =
    [ LogText "JTV";
      LogParsed (mkTekko line "GLOBALUSERSTATE" [] Samples.jtv ∅) ].
Proof. repeat split; reflexivity. Qed.

(** A second GLOBALUSERSTATE on the sample client. *)
Lemma globaluserstate_replaces_user_witness :
  let line := ":tmi.twitch.tv GLOBALUSERSTATE" in
  let msg := mkTekko "" "GLOBALUSERSTATE" [] Samples.tmi ∅ in
  let st := after (_handleMessage Samples.parse line)
              (new_Client Samples.alice_options) in
  let st' := after (_handleMessage Samples.parse line) st in
  (Samples.parse line = Some msg /\ dispatched_as "GLOBALUSERSTATE" msg /\
   sender_comparable st msg) /\
  user st = Some 0 /\ user st' = Some 1 /\
  clientUserObjs st' =
    [ mkClientUser (JsStr "alice") ∅ ∅; mkClientUser (JsStr "alice") ∅ ∅ ] /\
  emitted st' = [EvGlobalUserState 0; EvGlobalUserState 1].
Proof.
  intros line msg st st'.
  assert (Hp : Samples.parse line = Some msg) by reflexivity.
  assert (Hd : dispatched_as "GLOBALUSERSTATE" msg) by (split; reflexivity).
  assert (Hc : sender_comparable st msg).
  { unfold sender_comparable.
    change (user st) with (Some 0).
    split; [eexists; reflexivity |].
    exists (mkClientUser (JsStr "alice") ∅ ∅). reflexivity. }
  split; [repeat split; assumption || apply Hd || apply Hc |].
  destruct (globaluserstate_replaces_user Samples.parse line msg st Hp Hd Hc)
    as (_ & _ & Hobjs & Hu & _ & He).
  split; [reflexivity |]. split; [exact Hu |].
  split; [exact Hobjs | exact He].
Defined.

(** A RECONNECT without sender, on a client whose user the GLOBALUSERSTATE
    of the server has established. *)
Lemma unrecognised_without_sender_throws_witness :
  let line := "RECONNECT" in
  let msg := mkTekko "" "RECONNECT" [] None ∅ in
  let st := after (perform Traffic.parse Samples.format Samples.trim
                     Samples.Channel_toString
                     (A_handleMessage ":tmi.twitch.tv GLOBALUSERSTATE"))
              (new_Client Samples.alice_options) in
  let st' := after (_handleMessage Traffic.parse line) st in
  (reachable Traffic.parse Samples.format Samples.trim
     Samples.Channel_toString st /\
   Traffic.parse line = Some msg /\ from_jtv msg = false /\
   prefix msg = None /\ user st = Some 0) /\
  completion (_handleMessage Traffic.parse line) st =
    Throw (TypeError "Cannot read property 'name' of null") /\
  emitted st' = [EvGlobalUserState 0].
Proof.
  intros line msg st st'.
  assert (Hr : reachable Traffic.parse Samples.format Samples.trim
                 Samples.Channel_toString st)
    by (apply reachable_step, reachable_new).
  assert (Hp : Traffic.parse line = Some msg) by reflexivity.
  assert (Hj : from_jtv msg = false) by reflexivity.
  assert (Hpre : prefix msg = None) by reflexivity.
  assert (Hu : user st = Some 0) by reflexivity.
  split; [exact (conj Hr (conj Hp (conj Hj (conj Hpre Hu)))) |].
  assert (Hping : command msg <> "PING") by discriminate.
  assert (H001 : command msg <> "001") by discriminate.
  assert (Hnoop : ~ In (command msg) noopIRCCommands).
  { cbn [In noopIRCCommands command msg].
    intros H. repeat destruct H as [H | H]; try discriminate H. exact H. }
  assert (Hcmds : ~ In (command msg)
            ["PRIVMSG"; "JOIN"; "PART"; "GLOBALUSERSTATE"; "USERSTATE"; "ROOMSTATE"]).
  { cbn [In command msg].
    intros H. repeat destruct H as [H | H]; try discriminate H. exact H. }
  destruct (unrecognised_without_sender_throws Traffic.parse line msg 0 st
              Hp Hping H001 Hnoop Hj Hcmds Hpre Hu) as (Hc & He & _).
  split; [exact Hc |]. fold st' in He. rewrite He. reflexivity.
Defined.

(** The RECONNECT command of the server, with its sender, is not one
    dispatch knows. *)
Lemma unrecognised_is_unhandled_example :
  let line := ":tmi.twitch.tv RECONNECT" in
  let msg := mkTekko "" "RECONNECT" [] Samples.tmi ∅ in
  let st := new_Client Samples.alice_options in
  let st' := after (_handleMessage Samples.parse line) st in
  (Samples.parse line = Some msg /\ from_jtv msg = false /\
   sender_comparable st msg) /\
  completion (_handleMessage Samples.parse line) st = Normal tt /\
  emitted st' =
    [ EvUnhandledCommand (mkMessageData line "RECONNECT" [] Samples.tmi ∅) ].
Proof.
  intros line msg st st'.
  assert (Hp : Samples.parse line = Some msg) by reflexivity.
  assert (Hj : from_jtv msg = false) by reflexivity.
  assert (Hc : sender_comparable st msg) by exact I.
  split; [repeat split; assumption |].
  assert (Hping : command msg <> "PING") by discriminate.
  assert (H001 : command msg <> "001") by discriminate.
  assert (Hnoop : ~ In (command msg) noopIRCCommands).
  { cbn [In noopIRCCommands command msg].
    intros H. repeat destruct H as [H | H]; try discriminate H. exact H. }
  assert (Hcmds : ~ In (command msg)
            ["PRIVMSG"; "JOIN"; "PART"; "GLOBALUSERSTATE"; "USERSTATE"; "ROOMSTATE"]).
  { cbn [In command msg].
    intros H. repeat destruct H as [H | H]; try discriminate H. exact H. }
  destruct (unrecognised_is_unhandled Samples.parse line msg st
              Hp Hping H001 Hnoop Hj Hcmds Hc) as (Hn & He & _).
  split; [exact Hn | exact He].
Defined.

(** ** The channel map *)

Lemma filter_none {A : Type} (P : A -> Prop) `{forall x, Decision (P x)}
    (l : list A) :
  (forall x, x ∈ l -> ~ P x) -> filter P l = [].
Proof.
  induction l as [|a l IH]; intros Hl; [reflexivity |].
  rewrite filter_cons_False by (apply Hl; left).
  apply IH. intros x Hx. apply Hl. right. exact Hx.
Qed.

(** A map has exactly one entry under a key it has. *)
Lemma entries_for_lookup {K V : Type} `{Countable K} (m : gmap K V) (k : K)
    (v : V) :
  m !! k = Some v -> entries_for k m = [(k, v)].
Proof.
  intros Hk. apply Permutation_singleton_r. unfold entries_for.
  rewrite <- (insert_delete_id m k v Hk) at 1.
  rewrite map_to_list_insert by apply lookup_delete_eq.
  rewrite filter_cons_True by reflexivity.
  apply Permutation_cons; [reflexivity |].
  rewrite filter_none; [reflexivity |].
  intros [k' v'] Hin Heq. cbn in Heq. subst k'.
  apply elem_of_map_to_list in Hin. rewrite lookup_delete_eq in Hin. discriminate.
Qed.

Lemma entries_for_absent {K V : Type} `{Countable K} (m : gmap K V) (k : K) :
  m !! k = None -> entries_for k m = [].
Proof.
  intros Hk. unfold entries_for. apply filter_none.
  intros [k' v'] Hin Heq. cbn in Heq. subst k'.
  apply elem_of_map_to_list in Hin. congruence.
Qed.

Lemma truthy_name (c : string) : c <> "" -> truthy (Some c) = true.
Proof.
  intros Hc. unfold truthy. apply negb_true_iff. apply String.eqb_neq. exact Hc.
Qed.

Section ChannelMap.

Variable parse : string -> option TekkoMessage.

(** What a JOIN does to the channel map: it stores the resolved channel
    under the channel name, whether or not the acting user can then be
    made. *)
Lemma join_channels (line : string) (msg : TekkoMessage) (st : Session) :
  parse line = Some msg ->
  dispatched_as "JOIN" msg ->
  sender_comparable st msg ->
  exists (extra : list Channel) (ch : option ChannelRef),
    resolve_channel (first_param (params msg)) (tags msg) st =
      (set_channelObjs (channelObjs st ++ extra) st, Normal ch) /\
    let st' := after (_handleMessage parse line) st in
    channels st' = <[first_param (params msg) := ch]> (channels st) /\
    channelObjs st' = (channelObjs st ++ extra)%list /\
    user st' = user st /\ clientUserObjs st' = clientUserObjs st.
Proof.
  intros Hparse [Hcmd Hjtv] Hcmp.
  destruct (resolve_channel_run (first_param (params msg)) (tags msg) st)
    as (extra & ch & Hres & _).
  exists extra, ch. split; [exact Hres |].
  set (s1 := set_channelObjs (channelObjs st ++ extra) st) in *.
  destruct (is_self_comparable msg st s1 eq_refl eq_refl Hcmp) as [b Hself].
  assert (Hrun : exists s' c,
            _handleMessage parse line st = (s', c) /\
            channels s' = <[first_param (params msg) := ch]> (channels st) /\
            channelObjs s' = (channelObjs st ++ extra)%list /\
            user s' = user st /\ clientUserObjs s' = clientUserObjs st).
  { enter_branch Hparse Hcmd Hjtv.
    unfold bind at 1. rewrite Hres.
    unfold bind at 1. rewrite Hself.
    destruct b, (prefix msg); eexists _, _;
      (split; [reflexivity |]); repeat split; reflexivity. }
  destruct Hrun as (s' & c & Hrun & Hfacts).
  unfold after. rewrite Hrun. exact Hfacts.
Qed.

(** What a PART does to the channel map: it deletes the channel name, before
    it looks at the authenticated user. *)
Lemma part_channels (line : string) (msg : TekkoMessage) (st : Session) :
  parse line = Some msg ->
  dispatched_as "PART" msg ->
  sender_comparable st msg ->
  channels (after (_handleMessage parse line) st) =
    delete (first_param (params msg)) (channels st).
Proof.
  intros Hparse [Hcmd Hjtv] Hcmp.
  destruct (resolve_channel_run (first_param (params msg)) (tags msg) st)
    as (extra & ch & Hres & _).
  set (s1 := set_channelObjs (channelObjs st ++ extra) st) in *.
  destruct (is_self_comparable msg st s1 eq_refl eq_refl Hcmp) as [b Hself].
  unfold after. enter_branch Hparse Hcmd Hjtv.
  unfold bind at 1. rewrite Hres.
  unfold bind at 1. rewrite Hself.
  unfold bind at 1. unfold modify at 1.
  set (s2 := set_channels _ s1).
  unfold bind at 1.
  unfold sender_comparable in Hcmp.
  destruct (user st) as [r|] eqn:Hu.
  - destruct Hcmp as [_ [o Ho]].
    rewrite (user_states_user r o s2) by assumption.
    destruct b, ch, (prefix msg); reflexivity.
  - rewrite (user_states_no_user s2) by assumption. reflexivity.
Qed.

(** C2, as the code has it: for a non-empty channel name [c], a JOIN
    message for [c] that the service pseudo-user did not send leaves the
    channel map with exactly one entry under [c], which is a Channel; when
    every Channel of the map carried its name before, this one carries the
    name [c].  A PART message for [c] that the service pseudo-user did not
    send, dispatched next or in any later session, leaves the map without
    entry under [c].  The messages name their sender if a user is
    established, for the comparison of the sender with that user. *)
Theorem join_then_part (c : string) (line1 line2 : string)
    (join_msg part_msg : TekkoMessage) (st : Session) :
  c <> "" ->
  parse line1 = Some join_msg ->
  dispatched_as "JOIN" join_msg ->
  first_param (params join_msg) = Some c ->
  sender_comparable st join_msg ->
  parse line2 = Some part_msg ->
  dispatched_as "PART" part_msg ->
  first_param (params part_msg) = Some c ->
  sender_comparable st part_msg ->
  let joined := after (_handleMessage parse line1) st in
  let parted := after (_handleMessage parse line2) joined in
  (exists r : ChannelRef,
     channels joined !! Some c = Some (Some r) /\
     entries_for (Some c) (channels joined) = [(Some c, Some r)] /\
     (channels_named st ->
      exists ch, channelObjs joined !! r = Some ch /\ channel_name ch = Some c)) /\
  channels parted !! Some c = None /\
  entries_for (Some c) (channels parted) = [] /\
  (forall later : Session,
     sender_comparable later part_msg ->
     channels (after (_handleMessage parse line2) later) !! Some c = None).
Proof.
  intros Hc Hp1 Hd1 Hn1 Hs1 Hp2 Hd2 Hn2 Hs2 joined parted.
  destruct (join_channels line1 join_msg st Hp1 Hd1 Hs1)
    as (extra & ch & Hres & Hch & Hobjs & Hu & Hcu).
  fold joined in Hch, Hobjs, Hu, Hcu. rewrite Hn1 in Hch.
  assert (Hpart : forall later, sender_comparable later part_msg ->
            channels (after (_handleMessage parse line2) later) !! Some c = None).
  { intros later Hl. rewrite (part_channels line2 part_msg later Hp2 Hd2 Hl).
    rewrite Hn2. apply lookup_delete_eq. }
  assert (Hs2' : sender_comparable joined part_msg).
  { unfold sender_comparable in *. rewrite Hu, Hcu. exact Hs2. }
  split; [| split; [| split]].
  - destruct (resolve_channel_run (first_param (params join_msg))
                (tags join_msg) st) as (extra' & ch' & Hres' & Hspec).
    rewrite Hres in Hres'. injection Hres' as Hex Hch'.
    apply app_inv_head in Hex. subst extra' ch'.
    rewrite Hn1 in Hspec. rewrite (truthy_name c Hc) in Hspec.
    destruct Hspec as [(Ht & _) | [(_ & Hst & [r Hr] & Hex) | (_ & Hno & Hr & Hex)]];
      [discriminate | |]; subst ch extra.
    + exists r.
      assert (Hl : channels joined !! Some c = Some (Some r))
        by (rewrite Hch; apply lookup_insert_eq).
      split; [exact Hl |]. split; [apply entries_for_lookup; exact Hl |].
      intros Hnamed. rewrite Hobjs, app_nil_r.
      destruct (Hnamed (Some c) r Hst) as (x & Hx & Hn & _).
      exists x. split; [exact Hx | exact Hn].
    + exists (length (channelObjs st)).
      assert (Hl : channels joined !! Some c =
                   Some (Some (length (channelObjs st))))
        by (rewrite Hch; apply lookup_insert_eq).
      split; [exact Hl |]. split; [apply entries_for_lookup; exact Hl |].
      intros _. exists (mkChannel (Some c) (tags join_msg)).
      split; [| reflexivity]. rewrite Hobjs.
      rewrite lookup_app_r by lia. now rewrite Nat.sub_diag.
  - apply Hpart. exact Hs2'.
  - apply entries_for_absent. apply Hpart. exact Hs2'.
  - exact Hpart.
Qed.

End ChannelMap.

(** C2, as the claim has it, fails: a JOIN message for the sample channel
    with the service pseudo-user as its sender is taken by the branch of
    that user and leaves the channel map without entry for the channel; and
    a JOIN whose first parameter is the empty string, which resolves no
    channel, stores [null] under that name, not a Channel. *)
Lemma join_from_jtv_or_unnamed_not_stored :
  let st := new_Client Samples.alice_options in
  let from_service :=
    after (_handleMessage Samples.parse
             ":jtv!jtv@jtv.tmi.twitch.tv JOIN #channel") st in
  let unnamed :=
    after (_handleMessage Samples.parse
             ":alice!alice@alice.tmi.twitch.tv JOIN :") st in
  ((command <$> Samples.parse ":jtv!jtv@jtv.tmi.twitch.tv JOIN #channel") =
     Some "JOIN" /\
   (params <$> Samples.parse ":jtv!jtv@jtv.tmi.twitch.tv JOIN #channel") =
     Some ["#channel"] /\
   channels from_service !! Some "#channel" = None /\
   entries_for (Some "#channel") (channels from_service) = [] /\
   emitted from_service = []) /\
  ((command <$> Samples.parse ":alice!alice@alice.tmi.twitch.tv JOIN :") =
     Some "JOIN" /\
   (params <$> Samples.parse ":alice!alice@alice.tmi.twitch.tv JOIN :") =
     Some [""] /\
   channels unnamed !! Some "" = Some None /\
   channelObjs unnamed = []).
Proof.
  intros st from_service unnamed. split.
  - split; [reflexivity |]. split; [reflexivity |].
    assert (Hl : channels from_service !! Some "#channel" = None) by reflexivity.
    split; [exact Hl |].
    split; [apply entries_for_absent; exact Hl | reflexivity].
  - split; [reflexivity |]. split; [reflexivity |].
    split; [vm_compute; reflexivity | reflexivity].
Qed.

(** A JOIN and a PART of the sample channel, after a GLOBALUSERSTATE. *)
Lemma join_then_part_witness :
  let line1 := ":alice!alice@alice.tmi.twitch.tv JOIN #channel" in
  let line2 := ":alice!alice@alice.tmi.twitch.tv PART #channel" in
  let join_msg := mkTekko "" "JOIN" ["#channel"] Samples.alice ∅ in
  let part_msg := mkTekko "" "PART" ["#channel"] Samples.alice ∅ in
  let st := after (_handleMessage Samples.parse ":tmi.twitch.tv GLOBALUSERSTATE")
              (new_Client Samples.alice_options) in
  let joined := after (_handleMessage Samples.parse line1) st in
  let parted := after (_handleMessage Samples.parse line2) joined in
  ("#channel" <> "" /\
   Samples.parse line1 = Some join_msg /\ dispatched_as "JOIN" join_msg /\
   first_param (params join_msg) = Some "#channel" /\
   sender_comparable st join_msg /\
   Samples.parse line2 = Some part_msg /\ dispatched_as "PART" part_msg /\
   first_param (params part_msg) = Some "#channel" /\
   sender_comparable st part_msg) /\
  channels joined !! Some "#channel" = Some (Some 0) /\
  channels parted !! Some "#channel" = None.
Proof.
  intros line1 line2 join_msg part_msg st joined parted.
  assert (Hc : "#channel" <> "") by discriminate.
  assert (Hp1 : Samples.parse line1 = Some join_msg) by reflexivity.
  assert (Hd1 : dispatched_as "JOIN" join_msg) by (split; reflexivity).
  assert (Hn1 : first_param (params join_msg) = Some "#channel") by reflexivity.
  assert (Hs : forall m, prefix m = Samples.alice -> sender_comparable st m).
  { intros m Hm. unfold sender_comparable. change (user st) with (Some 0).
    rewrite Hm. split; [eexists; reflexivity |].
    exists (mkClientUser (JsStr "alice") ∅ ∅). reflexivity. }
  assert (Hp2 : Samples.parse line2 = Some part_msg) by reflexivity.
  assert (Hd2 : dispatched_as "PART" part_msg) by (split; reflexivity).
  assert (Hn2 : first_param (params part_msg) = Some "#channel") by reflexivity.
  split.
  { exact (conj Hc (conj Hp1 (conj Hd1 (conj Hn1 (conj (Hs join_msg eq_refl)
            (conj Hp2 (conj Hd2 (conj Hn2 (Hs part_msg eq_refl))))))))). }
  destruct (join_then_part Samples.parse "#channel" line1 line2 join_msg part_msg
              st Hc Hp1 Hd1 Hn1 (Hs join_msg eq_refl) Hp2 Hd2 Hn2
              (Hs part_msg eq_refl))
    as ((r & Hr & _) & Hparted & _).
  split; [vm_compute; reflexivity | exact Hparted].
Defined.

(** ** The per-channel state of the authenticated user *)

Section UserStates.

Variable parse : string -> option TekkoMessage.

(** C5, as the code has it: with an authenticated user established, a
    USERSTATE message for a channel name that the service pseudo-user did
    not send (and that names its sender, for the comparison of the sender
    with the user) makes dispatch return and emit one [userstate] event for
    the state it stored.  When the user has no state under that name, a new
    [UserState] is constructed from the tags of the message and stored
    under the name, as the only entry under it.  When the user has a state
    under that name, the map of the user is left as it is, with the same
    [UserState] under the name, and that object is updated in place: it
    keeps its channel, every tag of the message is in it with the value of
    the message, and every tag it had that the message does not mention is
    in it as before. *)
Theorem userstate_creates_or_merges (c : string) (line : string)
    (msg : TekkoMessage) (u : ClientUserRef) (o : ClientUser) (st : Session) :
  parse line = Some msg ->
  dispatched_as "USERSTATE" msg ->
  first_param (params msg) = Some c ->
  is_Some (prefix msg) ->
  user st = Some u ->
  clientUserObjs st !! u = Some o ->
  let st' := after (_handleMessage parse line) st in
  user st' = Some u /\
  (states o !! Some c = None ->
   let fresh := length (userStateObjs st) in
   completion (_handleMessage parse line) st = Normal tt /\
   userStateObjs st !! fresh = None /\
   (exists ch, userStateObjs st' =
                 (userStateObjs st ++ [mkUserState (tags msg) ch])%list) /\
   clientUserObjs st' =
     <[u := set_states (<[Some c := fresh]> (states o)) o]> (clientUserObjs st) /\
   (exists o', clientUserObjs st' !! u = Some o' /\
               entries_for (Some c) (states o') = [(Some c, fresh)]) /\
   emitted st' = (emitted st ++ [EvUserState fresh])%list) /\
  (forall (stored : UserStateRef) (old : UserState),
     states o !! Some c = Some stored ->
     userStateObjs st !! stored = Some old ->
     completion (_handleMessage parse line) st = Normal tt /\
     clientUserObjs st' = clientUserObjs st /\
     entries_for (Some c) (states o) = [(Some c, stored)] /\
     userStateObjs st' =
       <[stored := mkUserState (tags msg ∪ state_tags old) (state_channel old)]>
         (userStateObjs st) /\
     (exists new, userStateObjs st' !! stored = Some new /\
        state_channel new = state_channel old /\
        (forall k v, tags msg !! k = Some v -> state_tags new !! k = Some v) /\
        (forall k, tags msg !! k = None ->
                   state_tags new !! k = state_tags old !! k)) /\
     emitted st' = (emitted st ++ [EvUserState stored])%list).
Proof.
  intros Hparse [Hcmd Hjtv] Hname [p Hp] Hu Ho st'.
  destruct (resolve_channel_run (first_param (params msg)) (tags msg) st)
    as (extra & ch & Hres & _).
  set (s1 := set_channelObjs (channelObjs st ++ extra) st) in *.
  assert (Hself : is_self (prefix msg) s1 =
                  (s1, Normal (bool_decide (JsStr (prefix_name p) = login o))))
    by (rewrite Hp; apply (is_self_user p u o s1); assumption).
  assert (Hus : user_states s1 = (s1, Normal (u, o)))
    by (apply user_states_user; assumption).
  assert (Hstart : _handleMessage parse line st =
            bind (match states o !! Some c with
                  | Some stored =>
                    let* old := read_userState stored in
                    write_userState stored (update (tags msg) old) >> ret stored
                  | None =>
                    let* fresh := new_UserState (tags msg) ch in
                    write_clientUser u
                      (set_states (<[Some c := fresh]> (states o)) o) >>
                    ret fresh
                  end)
                 (fun state => emit (EvUserState state)) s1).
  { enter_branch Hparse Hcmd Hjtv.
    unfold bind at 1. rewrite Hres.
    unfold bind at 1. rewrite Hself.
    unfold bind at 1. rewrite Hus. rewrite Hname. reflexivity. }
  split; [| split].
  - transitivity (user st); [| exact Hu].
    subst st'. unfold after. rewrite Hstart.
    destruct (states o !! Some c) as [stored|]; [| reflexivity].
    unfold bind, read_userState.
    destruct (userStateObjs s1 !! stored); reflexivity.
  - intros Hnone fresh.
    assert (Hrun : _handleMessage parse line st =
              (set_emitted (emitted st ++ [EvUserState fresh])
                 (set_clientUserObjs
                    (<[u := set_states (<[Some c := fresh]> (states o)) o]>
                       (clientUserObjs st))
                    (set_userStateObjs
                       (userStateObjs st ++ [mkUserState (tags msg) ch]) s1)),
               Normal tt))
      by (rewrite Hstart, Hnone; reflexivity).
    destruct (run_eq _ _ _ _ Hrun) as [Ha Hc]. subst st'. rewrite Ha, Hc.
    cbn [clientUserObjs userStateObjs emitted set_emitted set_clientUserObjs
         set_userStateObjs].
    split; [reflexivity |].
    split; [apply lookup_ge_None_2; subst fresh; lia |].
    split; [exists ch; reflexivity |]. split; [reflexivity |].
    split; [| reflexivity].
    exists (set_states (<[Some c := fresh]> (states o)) o).
    split; [apply list_lookup_insert_eq; eapply lookup_lt_Some; exact Ho |].
    apply entries_for_lookup. apply lookup_insert_eq.
  - intros stored old Hstored Hold.
    assert (Hrun : _handleMessage parse line st =
              (set_emitted (emitted st ++ [EvUserState stored])
                 (set_userStateObjs
                    (<[stored := update (tags msg) old]> (userStateObjs st)) s1),
               Normal tt)).
    { rewrite Hstart, Hstored. unfold bind at 1. unfold bind at 1.
      unfold read_userState.
      change (userStateObjs s1) with (userStateObjs st). rewrite Hold.
      reflexivity. }
    destruct (run_eq _ _ _ _ Hrun) as [Ha Hc]. subst st'. rewrite Ha, Hc.
    cbn [clientUserObjs userStateObjs emitted set_emitted set_userStateObjs].
    split; [reflexivity |]. split; [reflexivity |].
    split; [apply entries_for_lookup; exact Hstored |].
    split; [reflexivity |]. split; [| reflexivity].
    exists (update (tags msg) old).
    split; [apply list_lookup_insert_eq; eapply lookup_lt_Some; exact Hold |].
    split; [reflexivity |]. split.
    + intros k v Hk. cbn [update state_tags]. apply lookup_union_Some_l. exact Hk.
    + intros k Hk. cbn [update state_tags]. apply lookup_union_r. exact Hk.
Qed.

End UserStates.

(** C5, as the claim has it, fails: with the user established, a USERSTATE
    message for the sample channel with the service pseudo-user as its
    sender is taken by the branch of that user; no [UserState] is
    constructed, the user has no state for the channel and nothing is
    emitted for the message. *)
Lemma userstate_from_jtv_ignored :
  let line := "@mod=1 :jtv!jtv@jtv.tmi.twitch.tv USERSTATE #channel" in
  let st := after (_handleMessage Samples.parse ":tmi.twitch.tv GLOBALUSERSTATE")
              (new_Client Samples.alice_options) in
  let st' := after (_handleMessage Samples.parse line) st in
  (command <$> Samples.parse line) = Some "USERSTATE" /\
  (params <$> Samples.parse line) = Some ["#channel"] /\
  user st = Some 0 /\
  clientUserObjs st = [mkClientUser (JsStr "alice") ∅ ∅] /\
  completion (_handleMessage Samples.parse line) st = Normal tt /\
  userStateObjs st' = [] /\
  clientUserObjs st' = [mkClientUser (JsStr "alice") ∅ ∅] /\
  emitted st' = emitted st.
Proof. repeat split; reflexivity. Qed.

(** The scenario of two USERSTATE messages for the sample channel: the
    second keeps the one stored state and merges its tags. *)
Lemma userstate_creates_or_merges_witness :
  let line1 := "@mod=0;color=red :tmi.twitch.tv USERSTATE #channel" in
  let line2 := "@mod=1 :tmi.twitch.tv USERSTATE #channel" in
  let msg := mkTekko "" "USERSTATE" ["#channel"] Samples.tmi
               {[ "mod" := TagStr "1" ]} in
  let o := mkClientUser (JsStr "alice") ∅ {[ Some "#channel" := 0 ]} in
  let old := mkUserState {[ "mod" := TagStr "0"; "color" := TagStr "red" ]}
               (Some 0) in
  let st := after (_handleMessage Samples.parse line1)
              (after (_handleMessage Samples.parse ":tmi.twitch.tv GLOBALUSERSTATE")
                 (new_Client Samples.alice_options)) in
  let st' := after (_handleMessage Samples.parse line2) st in
  (Samples.parse line2 = Some msg /\ dispatched_as "USERSTATE" msg /\
   first_param (params msg) = Some "#channel" /\ is_Some (prefix msg) /\
   user st = Some 0 /\ clientUserObjs st !! 0 = Some o /\
   states o !! Some "#channel" = Some 0 /\ userStateObjs st !! 0 = Some old) /\
  clientUserObjs st' = [o] /\
  userStateObjs st' =
    [ mkUserState ({[ "mod" := TagStr "1" ]} ∪
                   {[ "mod" := TagStr "0"; "color" := TagStr "red" ]}) (Some 0) ] /\
  emitted st' = [EvGlobalUserState 0; EvUserState 0; EvUserState 0].
Proof.
  intros line1 line2 msg o old st st'.
  assert (Hp : Samples.parse line2 = Some msg) by reflexivity.
  assert (Hd : dispatched_as "USERSTATE" msg) by (split; reflexivity).
  assert (Hn : first_param (params msg) = Some "#channel") by reflexivity.
  assert (Hpre : is_Some (prefix msg)) by (eexists; reflexivity).
  assert (Hu : user st = Some 0) by reflexivity.
  assert (Ho : clientUserObjs st !! 0 = Some o) by reflexivity.
  assert (Hst : states o !! Some "#channel" = Some 0) by (vm_compute; reflexivity).
  assert (Hold : userStateObjs st !! 0 = Some old) by reflexivity.
  split.
  { exact (conj Hp (conj Hd (conj Hn (conj Hpre (conj Hu (conj Ho
             (conj Hst Hold))))))). }
  destruct (userstate_creates_or_merges Samples.parse "#channel" line2 msg 0 o st
              Hp Hd Hn Hpre Hu Ho) as (_ & _ & Hmerge).
  destruct (Hmerge 0 old Hst Hold) as (_ & Hcu & _ & Hobjs & _ & He).
  split; [exact Hcu |]. split; [exact Hobjs | exact He].
Defined.

(** ** Reachable sessions and the Channels of the channel map *)

Section Channels.

Variable parse : string -> option TekkoMessage.
Variable format : FormatInput -> string.
Variable trim : string -> string.
Variable Channel_toString : Channel -> string.

(** What dispatch does to the channel map and to the Channel objects: the
    branches before channel resolution do nothing to them; the others
    resolve the channel of the first parameter, and then only a JOIN stores
    the resolved channel and only a PART deletes the name (and constructs a
    Channel if none was resolved). *)
Lemma handle_channel_effect (line : string) (s : Session) :
  let s' := after (_handleMessage parse line) s in
  ((forall msg, parse line = Some msg -> ends_early msg = true) /\
   channels s' = channels s /\ channelObjs s' = channelObjs s) \/
  exists msg, parse line = Some msg /\ ends_early msg = false /\
    exists extra ch,
      resolve_channel (first_param (params msg)) (tags msg) s =
        (set_channelObjs (channelObjs s ++ extra) s, Normal ch) /\
      ((channels s' = channels s /\
        channelObjs s' = (channelObjs s ++ extra)%list) \/
       (command msg = "JOIN" /\
        channels s' = <[first_param (params msg) := ch]> (channels s) /\
        channelObjs s' = (channelObjs s ++ extra)%list) \/
       (command msg = "PART" /\
        channels s' = delete (first_param (params msg)) (channels s) /\
        (channelObjs s' = (channelObjs s ++ extra)%list \/
         (ch = None /\
          channelObjs s' =
            ((channelObjs s ++ extra) ++
             [mkChannel (first_param (params msg)) (tags msg)])%list)))).
Proof.
  intros s'. subst s'. unfold after.
  destruct (_handleMessage parse line s) as [s' c] eqn:Hrun. cbn [fst].
  unfold _handleMessage in Hrun.
  destruct (parse line) as [msg|] eqn:Hparse;
    [| left; split; [discriminate | finish Hrun]].
  cbv zeta in Hrun.
  change (command (with_raw line msg)) with (command msg) in Hrun.
  change (from_jtv (with_raw line msg)) with (from_jtv msg) in Hrun.
  assert (Hearly : ends_early msg = true ->
                   forall msg', Some msg = Some msg' -> ends_early msg' = true)
    by (intros He msg' [= <-]; exact He).
  unfold ends_early in Hearly.
  destruct (String.eqb (command msg) "PING") eqn:Hping.
  { left. split; [apply Hearly; reflexivity |].
    unfold sendRaw in Hrun. finish Hrun. }
  destruct (from_jtv msg) eqn:Hjtv.
  { left. split; [apply Hearly; reflexivity | finish Hrun]. }
  destruct (String.eqb (command msg) "001") eqn:H001.
  { left. split; [apply Hearly; reflexivity | finish Hrun]. }
  destruct (existsb _ _) eqn:Hnoop.
  { left. split; [apply Hearly; reflexivity | finish Hrun]. }
  clear Hearly.
  right. exists msg. split; [reflexivity |].
  split; [unfold ends_early; rewrite Hping, Hjtv, H001, Hnoop; reflexivity |].
  destruct (resolve_channel_run (first_param (params msg)) (tags msg) s)
    as (extra & ch & Hres & _).
  exists extra, ch. split; [exact Hres |].
  cbn [new_MessageData data_params data_prefix data_tags with_raw
       params prefix tags] in Hrun.
  remember (set_channelObjs (channelObjs s ++ extra) s) as s1 eqn:Hs1.
  unfold bind at 1 in Hrun. rewrite Hres in Hrun.
  destruct (is_self_pure (prefix msg) s1) as [cs Hself].
  unfold bind at 1 in Hrun. rewrite Hself in Hrun.
  destruct cs as [b|e]; [| left; finish Hrun].
  destruct (String.eqb (command msg) "PRIVMSG"). { left; finish Hrun. }
  destruct (String.eqb (command msg) "JOIN") eqn:Hjoin.
  { right; left. apply String.eqb_eq in Hjoin. split; [exact Hjoin |].
    finish Hrun. }
  destruct (String.eqb (command msg) "PART") eqn:Hpart.
  { right; right. apply String.eqb_eq in Hpart. split; [exact Hpart |].
    finish Hrun. }
  destruct (String.eqb (command msg) "GLOBALUSERSTATE"). { left. finish Hrun. }
  destruct (String.eqb (command msg) "USERSTATE"). { left. finish Hrun. }
  destruct (String.eqb (command msg) "ROOMSTATE"); left; finish Hrun.
Qed.

End Channels.

(** *** Properties of the entities that every method keeps *)

Lemma keeps_bind {A B} (P : Session -> Prop) (m : Eff A) (k : A -> Eff B) :
  keeps P m -> (forall a, keeps P (k a)) -> keeps P (bind m k).
Proof.
  intros Hm Hk s Hs. specialize (Hm s Hs). unfold after in *. unfold bind.
  destruct (m s) as [s1 [a|e]]; cbn [fst] in *; [| exact Hm].
  apply (Hk a s1 Hm).
Qed.

Lemma keeps_ret {A} (P : Session -> Prop) (a : A) : keeps P (ret a).
Proof. intros s Hs. exact Hs. Qed.

Lemma keeps_of_entities {A} (P : Session -> Prop) (m : Eff A) :
  entity_property P -> keeps_entities m -> keeps P m.
Proof. intros HP Hm s Hs. exact (HP s _ (Hm s) Hs). Qed.

Lemma keeps_entities_sendRaw (message : string) : keeps_entities (sendRaw message).
Proof.
  intros s. unfold after. destruct (sendRaw message s) as [s' c] eqn:Hrun.
  unfold sendRaw in Hrun. crunch Hrun; injection Hrun as <- <-;
    repeat split; reflexivity.
Qed.

Lemma keeps_entities_onConnect : keeps_entities _onConnect.
Proof.
  intros s. unfold after. destruct (_onConnect s) as [s' c] eqn:Hrun.
  unfold _onConnect, sendRawArray, sendRaw in Hrun.
  crunch Hrun; injection Hrun as <- <-; repeat split; reflexivity.
Qed.

Lemma keeps_entities_on (event : string) : keeps_entities (Client_on event).
Proof. intros s. repeat split; reflexivity. Qed.

Lemma keeps_entities_connect : keeps_entities connect.
Proof.
  intros s. unfold after.
  destruct (valid_port (port (connection s))) eqn:Hport.
  - rewrite (connect_run s Hport). repeat split; reflexivity.
  - rewrite (connect_out_of_range s Hport). repeat split; reflexivity.
Qed.

Lemma keeps_entities_onClose (hadError : bool) : keeps_entities (_onClose hadError).
Proof. intros s. repeat split; reflexivity. Qed.

Lemma keeps_entities_onError (error : string) : keeps_entities (_onError error).
Proof.
  intros s. unfold after, _onError, emit, bind, gets.
  destruct (existsb (String.eqb "error") (handlers s));
    repeat split; reflexivity.
Qed.

Lemma keeps_entities_write_callback (err : option string) :
  keeps_entities (write_callback err).
Proof.
  intros s. destruct err as [e|]; [| repeat split; reflexivity].
  apply (keeps_entities_onError e).
Qed.

Section Invariant.

Variable parse : string -> option TekkoMessage.
Variable format : FormatInput -> string.
Variable trim : string -> string.
Variable Channel_toString : Channel -> string.

(** A property of the entities that dispatch keeps. *)
Variable P : Session -> Prop.
Hypothesis P_entities : entity_property P.
Hypothesis P_handleMessage : forall line, keeps P (_handleMessage parse line).

Lemma keeps_handle_lines (lines : list string) :
  keeps P (handle_lines parse lines).
Proof.
  induction lines as [|line rest IH]; cbn [handle_lines].
  - apply keeps_ret.
  - apply keeps_bind; [apply P_handleMessage | intros _; exact IH].
Qed.

Lemma keeps_onData (rawData : string) : keeps P (_onData parse trim rawData).
Proof.
  unfold _onData. destruct (split_CRLF (trim rawData)) as [|line [|l ls]].
  - apply keeps_handle_lines.
  - apply P_handleMessage.
  - apply keeps_handle_lines.
Qed.

Lemma keeps_call_handler (h : Handler) (e : SocketEvent) :
  keeps P (call_handler parse trim h e).
Proof.
  destruct h, e; cbn [call_handler];
    first [ apply keeps_ret
          | apply keeps_of_entities;
              [exact P_entities | apply keeps_entities_onConnect]
          | apply keeps_of_entities;
              [exact P_entities | apply keeps_entities_onClose]
          | apply keeps_of_entities;
              [exact P_entities | apply keeps_entities_onError]
          | apply keeps_onData ].
Qed.

Lemma keeps_call_listeners (ls : list (string * Handler)) (e : SocketEvent) :
  keeps P (call_listeners parse trim ls e).
Proof.
  induction ls as [|[n h] rest IH]; cbn [call_listeners].
  - apply keeps_ret.
  - apply keeps_bind; [| intros _; exact IH].
    destruct (String.eqb n (socket_event_name e));
      [apply keeps_call_handler | apply keeps_ret].
Qed.

Lemma keeps_deliver (e : SocketEvent) : keeps P (deliver parse trim e).
Proof.
  intros s Hs. unfold after, deliver, bind, gets.
  destruct (socket s) as [sk|]; [| exact Hs].
  apply (keeps_call_listeners (listeners sk) e s Hs).
Qed.

Lemma keeps_perform (a : Action) :
  keeps P (perform parse format trim Channel_toString a).
Proof.
  destruct a; cbn [perform];
    first [ apply keeps_deliver
          | apply P_handleMessage
          | apply keeps_bind;
              [apply keeps_of_entities;
                 [exact P_entities | apply keeps_entities_connect]
              | intros _; apply keeps_ret]
          | apply keeps_of_entities;
              [exact P_entities | apply keeps_entities_write_callback]
          | apply keeps_of_entities;
              [exact P_entities | apply keeps_entities_sendRaw]
          | apply keeps_of_entities;
              [exact P_entities | apply keeps_entities_on] ].
Qed.

(** What holds of every new client and is kept by dispatch holds of every
    reachable session. *)
Lemma reachable_invariant (s : Session) :
  (forall opts, P (new_Client opts)) ->
  reachable parse format trim Channel_toString s -> P s.
Proof.
  intros Hnew. induction 1 as [opts | a s Hr IH].
  - apply Hnew.
  - apply keeps_perform. exact IH.
Qed.

End Invariant.

(** *** The Channels of the channel map carry their names *)

Lemma channels_named_grow (s s' : Session) (extra : list Channel) :
  channels_named s ->
  channels s' = channels s ->
  channelObjs s' = (channelObjs s ++ extra)%list ->
  channels_named s'.
Proof.
  intros Hs Hc Ho k r Hk. rewrite Hc in Hk.
  destruct (Hs k r Hk) as (c & Hl & Hn). exists c. split; [| exact Hn].
  rewrite Ho. apply lookup_app_l_Some. exact Hl.
Qed.

Lemma channels_named_entities : entity_property channels_named.
Proof.
  intros s s' (Hc & _ & Ho & _) Hs.
  apply (channels_named_grow s _ []); [exact Hs | exact Hc |].
  now rewrite app_nil_r.
Qed.

Lemma keeps_named_handleMessage (parse : string -> option TekkoMessage)
    (line : string) :
  keeps channels_named (_handleMessage parse line).
Proof.
  intros s Hs.
  destruct (handle_channel_effect parse line s)
    as [(_ & Hc & Ho) | (msg & _ & _ & extra & ch & Hres & Heff)].
  { apply (channels_named_grow s _ []); [exact Hs | exact Hc |].
    now rewrite app_nil_r. }
  destruct (resolve_channel_run (first_param (params msg)) (tags msg) s)
    as (extra' & ch' & Hres' & Hspec).
  rewrite Hres in Hres'. injection Hres' as Hex Hch.
  apply app_inv_head in Hex. subst extra' ch'.
  set (n := first_param (params msg)) in *.
  destruct Heff as [[Hc Ho] | [(_ & Hc & Ho) | (_ & Hc & Ho)]].
  - apply (channels_named_grow s _ extra); assumption.
  - intros k r Hk. rewrite Hc in Hk. rewrite Ho.
    destruct (decide (n = k)) as [<- | Hne].
    + rewrite lookup_insert_eq in Hk. injection Hk as Hk. subst ch.
      destruct Hspec as [(_ & Hn & _) | [(_ & Hst & _ & Hex) | (Ht & _ & Hr & Hex)]].
      * discriminate.
      * subst extra. rewrite app_nil_r. apply Hs. exact Hst.
      * injection Hr as Hr. subst r extra.
        exists (mkChannel n (tags msg)).
        split; [| split; [reflexivity | exact Ht]].
        rewrite lookup_app_r by lia. now rewrite Nat.sub_diag.
    + rewrite lookup_insert_ne in Hk by exact Hne.
      destruct (Hs k r Hk) as (c & Hl & Hn). exists c. split; [| exact Hn].
      apply lookup_app_l_Some. exact Hl.
  - intros k r Hk. rewrite Hc in Hk.
    apply lookup_delete_Some in Hk. destruct Hk as [_ Hk].
    destruct (Hs k r Hk) as (c & Hl & Hn). exists c. split; [| exact Hn].
    destruct Ho as [Ho | [_ Ho]]; rewrite Ho.
    + apply lookup_app_l_Some. exact Hl.
    + apply lookup_app_l_Some. apply lookup_app_l_Some. exact Hl.
Qed.

Lemma reachable_channels_named (parse : string -> option TekkoMessage)
    (format : FormatInput -> string) (trim : string -> string)
    (Channel_toString : Channel -> string) (s : Session) :
  reachable parse format trim Channel_toString s -> channels_named s.
Proof.
  apply (reachable_invariant parse format trim Channel_toString channels_named
           channels_named_entities (keeps_named_handleMessage parse)).
  intros opts k r Hk. cbn in Hk. rewrite lookup_empty in Hk. discriminate.
Qed.

(** *** The references of a session are live *)

Lemma references_live_entities : entity_property references_live.
Proof.
  intros s s' (_ & Hu & _ & _ & Hc & Hs) H.
  unfold references_live. rewrite Hu, Hc, Hs. exact H.
Qed.

Lemma references_live_same (s s' : Session) :
  references_live s -> user s' = user s ->
  clientUserObjs s' = clientUserObjs s -> userStateObjs s' = userStateObjs s ->
  references_live s'.
Proof.
  intros H Hu Hc Hs. unfold references_live. rewrite Hu, Hc, Hs. exact H.
Qed.

Lemma references_live_part (s : Session) (r : ClientUserRef) (o : ClientUser)
    (n : option string) :
  references_live s -> clientUserObjs s !! r = Some o ->
  references_live
    (set_clientUserObjs
       (<[r := set_states (delete n (states o)) o]> (clientUserObjs s)) s).
Proof.
  intros [H1 H2] Ho. split; cbn.
  - intros r' Hr'. rewrite length_insert. auto.
  - intros r' o' k st Hl Hst.
    destruct (decide (r = r')) as [<- | Hne].
    + rewrite list_lookup_insert_eq in Hl by (eapply lookup_lt_Some; exact Ho).
      injection Hl as <-. cbn in Hst. apply lookup_delete_Some in Hst.
      eapply H2; [exact Ho | apply Hst].
    + rewrite list_lookup_insert_ne in Hl by exact Hne. eapply H2; eauto.
Qed.

Lemma references_live_global (s : Session) (l : JsString) (t : Tags) :
  references_live s ->
  references_live
    (set_user (Some (length (clientUserObjs s)))
       (set_clientUserObjs (clientUserObjs s ++ [mkClientUser l t ∅]) s)).
Proof.
  intros [H1 H2]. split; cbn.
  - intros r [= <-]. rewrite length_app. cbn. lia.
  - intros r o k st Hl Hst.
    apply lookup_app_Some in Hl. destruct Hl as [Hl | [_ Hl]].
    + eapply H2; eauto.
    + destruct (r - length (clientUserObjs s)) as [|i]; [| discriminate].
      injection Hl as <-. cbn in Hst. rewrite lookup_empty in Hst. discriminate.
Qed.

Lemma references_live_update (s : Session) (st : UserStateRef) (u : UserState) :
  references_live s ->
  references_live (set_userStateObjs (<[st := u]> (userStateObjs s)) s).
Proof.
  intros [H1 H2]. split; cbn; [exact H1 |].
  intros r o k st' Hl Hst. rewrite length_insert. eapply H2; eauto.
Qed.

Lemma references_live_create (s : Session) (r : ClientUserRef) (o : ClientUser)
    (n : option string) (u : UserState) :
  references_live s -> clientUserObjs s !! r = Some o ->
  references_live
    (set_clientUserObjs
       (<[r := set_states (<[n := length (userStateObjs s)]> (states o)) o]>
          (clientUserObjs s))
       (set_userStateObjs (userStateObjs s ++ [u]) s)).
Proof.
  intros [H1 H2] Ho. split; cbn.
  - intros r' Hr'. rewrite length_insert. auto.
  - intros r' o' k st Hl Hst. rewrite length_app. cbn.
    destruct (decide (r = r')) as [<- | Hne].
    + rewrite list_lookup_insert_eq in Hl by (eapply lookup_lt_Some; exact Ho).
      injection Hl as <-. cbn in Hst.
      apply lookup_insert_Some in Hst. destruct Hst as [[_ <-] | [_ Hst]]; [lia |].
      specialize (H2 r o k st Ho Hst). lia.
    + rewrite list_lookup_insert_ne in Hl by exact Hne.
      specialize (H2 r' o' k st Hl Hst). lia.
Qed.

(** The session a branch of dispatch ends in has live references. *)
Ltac live Hs :=
  first [ eapply references_live_same; [exact Hs | reflexivity ..]
        | eapply (references_live_same _ _
                    (references_live_part _ _ _ _ Hs ltac:(eassumption)));
          reflexivity
        | eapply (references_live_same _ _ (references_live_global _ _ _ Hs));
          reflexivity
        | eapply (references_live_same _ _ (references_live_update _ _ _ Hs));
          reflexivity
        | eapply (references_live_same _ _
                    (references_live_create _ _ _ _ _ Hs ltac:(eassumption)));
          reflexivity ].

Ltac finish_live H Hs := crunch H; injection H as <- <-; live Hs.

Lemma keeps_live_handleMessage (parse : string -> option TekkoMessage)
    (line : string) :
  keeps references_live (_handleMessage parse line).
Proof.
  intros s Hs. unfold after.
  destruct (_handleMessage parse line s) as [s' c] eqn:Hrun. cbn [fst].
  unfold _handleMessage in Hrun.
  destruct (parse line) as [msg|] eqn:Hparse; [| finish_live Hrun Hs].
  cbv zeta in Hrun.
  change (command (with_raw line msg)) with (command msg) in Hrun.
  change (from_jtv (with_raw line msg)) with (from_jtv msg) in Hrun.
  destruct (String.eqb (command msg) "PING").
  { unfold sendRaw in Hrun. finish_live Hrun Hs. }
  destruct (from_jtv msg). { finish_live Hrun Hs. }
  destruct (String.eqb (command msg) "001"). { finish_live Hrun Hs. }
  destruct (existsb _ _). { finish_live Hrun Hs. }
  destruct (resolve_channel_run (first_param (params msg)) (tags msg) s)
    as (extra & ch & Hres & _).
  cbn [new_MessageData data_params data_prefix data_tags with_raw
       params prefix tags] in Hrun.
  remember (set_channelObjs (channelObjs s ++ extra) s) as s1 eqn:Hs1.
  assert (Hs1' : references_live s1)
    by (subst s1; eapply references_live_same; [exact Hs | reflexivity ..]).
  unfold bind at 1 in Hrun. rewrite Hres in Hrun.
  clear Hs Hs1 Hres.
  destruct (is_self_pure (prefix msg) s1) as [cs Hself].
  unfold bind at 1 in Hrun. rewrite Hself in Hrun. clear Hself.
  destruct cs as [b|e]; [| finish_live Hrun Hs1'].
  destruct (String.eqb (command msg) "PRIVMSG"). { finish_live Hrun Hs1'. }
  destruct (String.eqb (command msg) "JOIN"). { finish_live Hrun Hs1'. }
  destruct (String.eqb (command msg) "PART"). { finish_live Hrun Hs1'. }
  destruct (String.eqb (command msg) "GLOBALUSERSTATE").
  { finish_live Hrun Hs1'. }
  destruct (String.eqb (command msg) "USERSTATE"). { finish_live Hrun Hs1'. }
  destruct (String.eqb (command msg) "ROOMSTATE"); finish_live Hrun Hs1'.
Qed.

Lemma reachable_references_live (parse : string -> option TekkoMessage)
    (format : FormatInput -> string) (trim : string -> string)
    (Channel_toString : Channel -> string) (s : Session) :
  reachable parse format trim Channel_toString s -> references_live s.
Proof.
  apply (reachable_invariant parse format trim Channel_toString references_live
           references_live_entities (keeps_live_handleMessage parse)).
  intros opts. split.
  - intros r Hr. discriminate Hr.
  - intros r o k st Hl. cbn in Hl. rewrite lookup_nil in Hl. discriminate.
Qed.

(** In a reachable session the comparison of the sender with the user only
    asks that the message names its sender. *)
Lemma reachable_sender_comparable (parse : string -> option TekkoMessage)
    (format : FormatInput -> string) (trim : string -> string)
    (Channel_toString : Channel -> string) (s : Session) (m : TekkoMessage) :
  reachable parse format trim Channel_toString s ->
  user s = None \/ is_Some (prefix m) ->
  sender_comparable s m.
Proof.
  intros Hr Hm. unfold sender_comparable.
  destruct (user s) as [r|] eqn:Hu; [| exact I].
  destruct Hm as [Hm | Hm]; [discriminate |]. split; [exact Hm |].
  apply lookup_lt_is_Some.
  apply (reachable_references_live parse format trim Channel_toString s Hr).
  exact Hu.
Qed.

Section Reuse.

Variable parse : string -> option TekkoMessage.
Variable format : FormatInput -> string.
Variable trim : string -> string.
Variable Channel_toString : Channel -> string.

(** C3, as the code has it: the channel map is the list of joined channels.
    In every reachable session each Channel of the map is an object that
    carries the name it is stored under, so the map holds one Channel per
    name and no Channel under two names.  A message whose channel name has
    a Channel in the map is resolved to that stored Channel: dispatch
    constructs no Channel, and the map keeps that same Channel under the
    name unless the message is a PART, which removes the entry.  A message
    whose channel name has no Channel in the map is resolved, when dispatch
    gets to resolving, by a Channel constructed for this message. *)
Theorem stored_channel_is_reused (st : Session) :
  reachable parse format trim Channel_toString st ->
  (forall (k : option string) (r : ChannelRef),
     channels st !! k = Some (Some r) ->
     exists ch, channelObjs st !! r = Some ch /\ channel_name ch = k) /\
  (forall (k1 k2 : option string) (r : ChannelRef),
     channels st !! k1 = Some (Some r) ->
     channels st !! k2 = Some (Some r) -> k1 = k2) /\
  (forall (line : string) (msg : TekkoMessage) (c : string) (r : ChannelRef),
     parse line = Some msg ->
     first_param (params msg) = Some c ->
     channels st !! Some c = Some (Some r) ->
     let st' := after (_handleMessage parse line) st in
     channelObjs st' = channelObjs st /\
     (channels st' !! Some c = Some (Some r) \/
      command msg = "PART" /\ channels st' !! Some c = None)) /\
  (forall (line : string) (msg : TekkoMessage) (c : string),
     parse line = Some msg ->
     first_param (params msg) = Some c -> c <> "" ->
     ~ (exists r, channels st !! Some c = Some (Some r)) ->
     ends_early msg = false ->
     channelObjs (after (_handleMessage parse line) st) =
       (channelObjs st ++ [mkChannel (Some c) (tags msg)])%list).
Proof.
  intros Hreach.
  pose proof (reachable_channels_named parse format trim Channel_toString
                st Hreach) as Hnamed.
  split; [| split; [| split]].
  - intros k r Hk. destruct (Hnamed k r Hk) as (ch & Hl & Hn & _).
    exists ch. split; [exact Hl | exact Hn].
  - intros k1 k2 r H1 H2.
    destruct (Hnamed k1 r H1) as (c1 & Hl1 & Hn1 & _).
    destruct (Hnamed k2 r H2) as (c2 & Hl2 & Hn2 & _).
    congruence.
  - intros line msg c r Hparse Hname Hstored st'.
    destruct (Hnamed (Some c) r Hstored) as (_ & _ & _ & Hc).
    destruct (handle_channel_effect parse line st)
      as [(_ & Hch & Ho) | (msg' & Hparse' & _ & extra & ch & Hres & Heff)].
    { fold st' in Hch, Ho. split; [exact Ho |]. left. rewrite Hch. exact Hstored. }
    rewrite Hparse in Hparse'. injection Hparse' as <-.
    fold st' in Heff. rewrite Hname in *.
    destruct (resolve_channel_run (Some c) (tags msg) st)
      as (extra' & ch' & Hres' & Hspec).
    rewrite Hres in Hres'. injection Hres' as Hex Hch.
    apply app_inv_head in Hex. subst extra' ch'.
    rewrite Hc in Hspec.
    destruct Hspec as [(Ht & _) | [(_ & Hst & _ & Hex) | (_ & Hno & _)]];
      [discriminate | | exfalso; apply Hno; eauto].
    rewrite Hstored in Hst. injection Hst as <-. subst extra.
    rewrite app_nil_r in Heff.
    destruct Heff as [[Hch Ho] | [(_ & Hch & Ho) | (Hpart & Hch & Ho)]].
    + split; [exact Ho |]. left. rewrite Hch. exact Hstored.
    + split; [exact Ho |]. left. rewrite Hch. apply lookup_insert_eq.
    + destruct Ho as [Ho | [Hnone _]]; [| discriminate].
      split; [exact Ho |]. right. split; [exact Hpart |].
      rewrite Hch. apply lookup_delete_eq.
  - intros line msg c Hparse Hname Hc Hno Hlate.
    destruct (handle_channel_effect parse line st)
      as [(Hearly & _) | (msg' & Hparse' & _ & extra & ch & Hres & Heff)].
    { rewrite (Hearly msg Hparse) in Hlate. discriminate. }
    rewrite Hparse in Hparse'. injection Hparse' as <-.
    rewrite Hname in *.
    destruct (resolve_channel_run (Some c) (tags msg) st)
      as (extra' & ch' & Hres' & Hspec).
    rewrite Hres in Hres'. injection Hres' as Hex Hch.
    apply app_inv_head in Hex. subst extra' ch'.
    rewrite (truthy_name c Hc) in Hspec.
    destruct Hspec as [(Ht & _) | [(_ & Hst & [r Hr] & _) | (_ & _ & Hr & Hex)]];
      [discriminate | exfalso; apply Hno; exists r; congruence |].
    subst extra ch.
    destruct Heff as [[_ Ho] | [(_ & _ & Ho) | (_ & _ & [Ho | [Hnone _]])]];
      try exact Ho.
    discriminate.
Qed.

End Reuse.

(** The session of the examples after a GLOBALUSERSTATE, a USERSTATE for the
    sample channel and a JOIN of it. *)
Lemma sample_session_reachable :
  reachable Samples.parse Samples.format Samples.trim Samples.Channel_toString
    (after (_handleMessage Samples.parse
              ":alice!alice@alice.tmi.twitch.tv JOIN #channel")
       (after (_handleMessage Samples.parse
                 "@mod=0;color=red :tmi.twitch.tv USERSTATE #channel")
          (after (_handleMessage Samples.parse ":tmi.twitch.tv GLOBALUSERSTATE")
             (new_Client Samples.alice_options)))).
Proof.
  apply (reachable_step _ _ _ _ (A_handleMessage _)).
  apply (reachable_step _ _ _ _ (A_handleMessage _)).
  apply (reachable_step _ _ _ _ (A_handleMessage _)).
  apply reachable_new.
Qed.

(** C3, as the claim has it, fails: the USERSTATE for the sample channel,
    which has not been joined, constructs a Channel for the state of the
    user to refer to, and the JOIN that follows constructs a second Channel
    of the same name for the channel map.  Likewise a JOIN, a PART and a
    second JOIN of the sample channel construct two Channels of its name,
    one for each JOIN. *)
Lemma one_Channel_per_name_fails :
  let st :=
    after (_handleMessage Samples.parse
             ":alice!alice@alice.tmi.twitch.tv JOIN #channel")
      (after (_handleMessage Samples.parse
                "@mod=0;color=red :tmi.twitch.tv USERSTATE #channel")
         (after (_handleMessage Samples.parse ":tmi.twitch.tv GLOBALUSERSTATE")
            (new_Client Samples.alice_options))) in
  let rejoined :=
    after (_handleMessage Samples.parse
             ":alice!alice@alice.tmi.twitch.tv JOIN #channel")
      (after (_handleMessage Samples.parse
                ":alice!alice@alice.tmi.twitch.tv PART #channel")
         (after (_handleMessage Samples.parse
                   ":alice!alice@alice.tmi.twitch.tv JOIN #channel")
            (after (_handleMessage Samples.parse ":tmi.twitch.tv GLOBALUSERSTATE")
               (new_Client Samples.alice_options)))) in
  (reachable Samples.parse Samples.format Samples.trim Samples.Channel_toString st /\
   channel_name <$> channelObjs st = [Some "#channel"; Some "#channel"] /\
   state_channel <$> userStateObjs st = [Some 0] /\
   channels st !! Some "#channel" = Some (Some 1) /\
   ~ one_Channel_per_name st) /\
  (channel_name <$> channelObjs rejoined = [Some "#channel"; Some "#channel"] /\
   emitted rejoined =
     [ EvGlobalUserState 0;
       EvJoin (Some 0) (AClientUser (Some 0));
       EvPart (Some 0) (AClientUser (Some 0));
       EvJoin (Some 1) (AClientUser (Some 0)) ] /\
   channels rejoined !! Some "#channel" = Some (Some 1) /\
   ~ one_Channel_per_name rejoined).
Proof.
  intros st rejoined. split.
  - split; [exact sample_session_reachable |].
    split; [reflexivity |]. split; [reflexivity |].
    split; [vm_compute; reflexivity |].
    intros Hone.
    assert (H01 : 0 = 1); [| discriminate H01].
    eapply (Hone 0 1); reflexivity.
  - split; [reflexivity |]. split; [vm_compute; reflexivity |].
    split; [vm_compute; reflexivity |].
    intros Hone.
    assert (H01 : 0 = 1); [| discriminate H01].
    eapply (Hone 0 1); reflexivity.
Qed.

(** A ROOMSTATE for the joined sample channel reuses the stored Channel. *)
Lemma stored_channel_is_reused_witness :
  let st :=
    after (_handleMessage Samples.parse
             ":alice!alice@alice.tmi.twitch.tv JOIN #channel")
      (after (_handleMessage Samples.parse
                "@mod=0;color=red :tmi.twitch.tv USERSTATE #channel")
         (after (_handleMessage Samples.parse ":tmi.twitch.tv GLOBALUSERSTATE")
            (new_Client Samples.alice_options))) in
  let st' := after (_handleMessage Samples.parse
                      ":tmi.twitch.tv ROOMSTATE #channel") st in
  reachable Samples.parse Samples.format Samples.trim Samples.Channel_toString st /\
  channels st !! Some "#channel" = Some (Some 1) /\
  channelObjs st' = channelObjs st /\
  channels st' !! Some "#channel" = Some (Some 1).
Proof.
  intros st st'.
  split; [exact sample_session_reachable |].
  assert (Hst : channels st !! Some "#channel" = Some (Some 1))
    by (vm_compute; reflexivity).
  split; [exact Hst |].
  destruct (stored_channel_is_reused Samples.parse Samples.format Samples.trim
              Samples.Channel_toString st sample_session_reachable)
    as (_ & _ & Hreuse & _).
  destruct (Hreuse ":tmi.twitch.tv ROOMSTATE #channel"
              (mkTekko "" "ROOMSTATE" ["#channel"] Samples.tmi ∅)
              "#channel" 1 eq_refl eq_refl Hst) as [Ho Hch].
  split; [exact Ho |].
  destruct Hch as [Hch | [Hpart _]]; [exact Hch | discriminate Hpart].
Defined.

(** * The rest of dispatch and of the methods *)

(** ** The branches that end dispatch early *)

Section Early.

Variable parse : string -> option TekkoMessage.

(** X1: a line whose command is one of the nine no-op commands, not sent by
    the service pseudo-user, is ignored: dispatch returns and the session is
    what it was, whether or not a user is established and whether or not the
    line names a sender. *)
Theorem noop_command_ignored (line : string) (msg : TekkoMessage)
    (st : Session) :
  parse line = Some msg ->
  In (command msg) noopIRCCommands ->
  from_jtv msg = false ->
  _handleMessage parse line st = (st, Normal tt).
Proof.
  intros Hparse Hin Hjtv.
  unfold _handleMessage. rewrite Hparse. cbv zeta.
  change (command (with_raw line msg)) with (command msg).
  change (from_jtv (with_raw line msg)) with (from_jtv msg).
  rewrite Hjtv.
  unfold noopIRCCommands in Hin. cbn [In] in Hin.
  repeat (destruct Hin as [<- | Hin]; [reflexivity |]).
  destruct Hin.
Qed.

(** X2: a line of the service pseudo-user that is not a PING is logged and
    nothing else: the console gets the text JTV and the parsed line, with its
    raw text, and every field of the client stays as it was, whatever the
    command of the line. *)
Theorem jtv_only_logged (line : string) (msg : TekkoMessage) (st : Session) :
  parse line = Some msg ->
  from_jtv msg = true ->
  command msg <> "PING" ->
  _handleMessage parse line st =
    (set_console
       (console st ++ [LogText "JTV"; LogParsed (with_raw line msg)]) st,
     Normal tt).
Proof.
  intros Hparse Hjtv Hping.
  unfold _handleMessage. rewrite Hparse. cbv zeta.
  change (command (with_raw line msg)) with (command msg).
  change (from_jtv (with_raw line msg)) with (from_jtv msg).
  rewrite Hjtv. apply String.eqb_neq in Hping. rewrite Hping.
  destruct st. cbv [bind console_log modify set_console].
  cbn. rewrite <- app_assoc. reflexivity.
Qed.

Lemma welcome_run (line : string) (msg : TekkoMessage) (st : Session) :
  parse line = Some msg ->
  command msg = "001" ->
  from_jtv msg = false ->
  _handleMessage parse line st =
    (set_options
       (mkOptions
          (Some (mkIdentity (of_param (first_param (params msg)))
                   (match identity (options st) with
                    | Some id => auth id
                    | None => JsNull
                    end)))
          (opt_connection (options st))) st,
     Normal tt).
Proof.
  intros Hparse Hcmd Hjtv.
  unfold _handleMessage. rewrite Hparse. cbv zeta.
  change (command (with_raw line msg)) with (command msg).
  change (from_jtv (with_raw line msg)) with (from_jtv msg).
  rewrite Hcmd, Hjtv. decide_commands. cbv iota.
  unfold bind, gets, modify.
  change (params (with_raw line msg)) with (params msg).
  destruct (identity (options st)); reflexivity.
Qed.

(** X3: the welcome of the server (001), not sent by the service pseudo-user,
    makes its first parameter the name of the identity: an identity that
    exists keeps its auth, a missing identity is created with the auth [null];
    a welcome without parameters leaves the name [undefined]. Dispatch
    returns; the connection options, the socket, the events, the console, the
    channel map, the user and the objects stay as they were. *)
Theorem welcome_names_identity (line : string) (msg : TekkoMessage)
    (st : Session) :
  parse line = Some msg ->
  command msg = "001" ->
  from_jtv msg = false ->
  let st' := after (_handleMessage parse line) st in
  completion (_handleMessage parse line) st = Normal tt /\
  identity (options st') =
    Some (mkIdentity (of_param (first_param (params msg)))
            (match identity (options st) with
             | Some id => auth id
             | None => JsNull
             end)) /\
  opt_connection (options st') = opt_connection (options st) /\
  socket st' = socket st /\ connection st' = connection st /\
  emitted st' = emitted st /\ console st' = console st /\
  same_entities st st'.
Proof.
  intros Hparse Hcmd Hjtv st'.
  destruct (run_eq _ _ _ _ (welcome_run line msg st Hparse Hcmd Hjtv))
    as [Ha Hc].
  subst st'. rewrite Ha, Hc. unfold same_entities. cbn.
  repeat split; reflexivity.
Qed.

(** X4: after a welcome of the server (001) that the service pseudo-user
    did not send and that has a first parameter, the listener of a
    successful connection has a name to send, also on a client that was
    constructed without an identity: on a client with a socket it sends the
    capability request, [PASS] with the configured auth, or with the text
    null when there was no identity, and [NICK] with the name of the
    welcome, in one write, and emits [connected]. *)
Theorem handshake_after_welcome (line : string) (msg : TekkoMessage)
    (n : string) (sk : Socket) (st : Session) :
  parse line = Some msg ->
  command msg = "001" ->
  from_jtv msg = false ->
  first_param (params msg) = Some n ->
  socket st = Some sk ->
  let st1 := after (_handleMessage parse line) st in
  let pass :=
    match identity (options st) with
    | Some id => toString (auth id)
    | None => "null"
    end in
  completion _onConnect st1 = Normal tt /\
  written <$> socket (after _onConnect st1) =
    Some (written sk ++
          [ ("CAP REQ :twitch.tv/tags twitch.tv/commands" ++ CRLF ++
             "PASS oauth:" ++ pass ++ CRLF ++
             "NICK " ++ n ++ CRLF)%string ])%list /\
  emitted (after _onConnect st1) = (emitted st ++ [EvConnected])%list.
Proof.
  intros Hparse Hcmd Hjtv Hn Hsk st1 pass.
  destruct (run_eq _ _ _ _ (welcome_run line msg st Hparse Hcmd Hjtv))
    as [Ha _].
  fold st1 in Ha. rewrite Hn in Ha. cbn [of_param] in Ha.
  set (id := mkIdentity (JsStr n)
               (match identity (options st) with
                | Some id => auth id
                | None => JsNull
                end)) in Ha.
  assert (Hid : identity (options st1) = Some id) by (rewrite Ha; reflexivity).
  assert (Hsk1 : socket st1 = Some sk) by (rewrite Ha; exact Hsk).
  destruct (run_eq _ _ _ _ (_onConnect_connected id sk st1 Hid Hsk1))
    as [Hb Hc].
  rewrite Hb, Hc. split; [reflexivity |].
  assert (Hh : handshake id =
            ("CAP REQ :twitch.tv/tags twitch.tv/commands" ++ CRLF ++
             "PASS oauth:" ++ pass ++ CRLF ++ "NICK " ++ n ++ CRLF)%string).
  { unfold handshake, id, pass. cbn [auth name toString].
    destruct (identity (options st)); reflexivity. }
  rewrite <- Hh. split; [reflexivity |].
  rewrite Ha. reflexivity.
Qed.

End Early.

(** A capability acknowledgement on a new client. *)
Lemma noop_command_ignored_witness :
  let line := ":tmi.twitch.tv CAP * ACK :twitch.tv/tags twitch.tv/commands" in
  let msg := mkTekko "" "CAP" ["*"; "ACK"; "twitch.tv/tags twitch.tv/commands"]
               Samples.tmi ∅ in
  let st := new_Client Samples.alice_options in
  (Traffic.parse line = Some msg /\ In (command msg) noopIRCCommands /\
   from_jtv msg = false) /\
  _handleMessage Traffic.parse line st = (st, Normal tt).
Proof.
  intros line msg st.
  assert (Hp : Traffic.parse line = Some msg) by reflexivity.
  assert (Hin : In (command msg) noopIRCCommands) by (left; reflexivity).
  assert (Hj : from_jtv msg = false) by reflexivity.
  split; [repeat split; assumption |].
  exact (noop_command_ignored Traffic.parse line msg st Hp Hin Hj).
Defined.

(** A chat line of the service pseudo-user. *)
Lemma jtv_only_logged_witness :
  let line := ":jtv!jtv@jtv.tmi.twitch.tv PRIVMSG alice :hosting" in
  let msg := mkTekko "" "PRIVMSG" ["alice"; "hosting"] Samples.jtv ∅ in
  let st := new_Client Samples.alice_options in
  (Traffic.parse line = Some msg /\ from_jtv msg = true /\
   command msg <> "PING") /\
  emitted (after (_handleMessage Traffic.parse line) st) = [] /\
  console (after (_handleMessage Traffic.parse line) st) =
    [LogText "JTV"; LogParsed (with_raw line msg)].
Proof.
  intros line msg st.
  assert (Hp : Traffic.parse line = Some msg) by reflexivity.
  assert (Hj : from_jtv msg = true) by reflexivity.
  assert (Hc : command msg <> "PING") by discriminate.
  split; [repeat split; assumption |].
  unfold after. rewrite (jtv_only_logged Traffic.parse line msg st Hp Hj Hc).
  split; reflexivity.
Defined.

(** The welcome of the server on a client without identity. *)
Lemma welcome_names_identity_witness :
  let line := ":tmi.twitch.tv 001 alice :Welcome, GLHF!" in
  let msg := mkTekko "" "001" ["alice"; "Welcome, GLHF!"] Samples.tmi ∅ in
  let st := new_Client Samples.anonymous in
  (Traffic.parse line = Some msg /\ command msg = "001" /\
   from_jtv msg = false) /\
  identity (options (after (_handleMessage Traffic.parse line) st)) =
    Some (mkIdentity (JsStr "alice") JsNull).
Proof.
  intros line msg st.
  assert (Hp : Traffic.parse line = Some msg) by reflexivity.
  assert (Hc : command msg = "001") by reflexivity.
  assert (Hj : from_jtv msg = false) by reflexivity.
  split; [repeat split; assumption |].
  destruct (welcome_names_identity Traffic.parse line msg st Hp Hc Hj)
    as (_ & Hid & _).
  exact Hid.
Defined.

(** A client without identity that connects, is welcomed and connects
    again. *)
Lemma handshake_after_welcome_witness :
  let line := ":tmi.twitch.tv 001 alice :Welcome, GLHF!" in
  let msg := mkTekko "" "001" ["alice"; "Welcome, GLHF!"] Samples.tmi ∅ in
  let st := after connect (new_Client Samples.anonymous) in
  let st1 := after (_handleMessage Traffic.parse line) st in
  (Traffic.parse line = Some msg /\ command msg = "001" /\
   from_jtv msg = false /\ first_param (params msg) = Some "alice" /\
   socket st = Some Samples.fresh_socket) /\
  completion _onConnect st = 
    Throw (TypeError "Cannot read property 'name' of undefined") /\
  completion _onConnect st1 = Normal tt /\
  written <$> socket (after _onConnect st1) =
    Some [ ("CAP REQ :twitch.tv/tags twitch.tv/commands" ++ CRLF ++
            "PASS oauth:null" ++ CRLF ++ "NICK alice" ++ CRLF)%string ].
Proof.
  intros line msg st st1.
  assert (Hp : Traffic.parse line = Some msg) by reflexivity.
  assert (Hc : command msg = "001") by reflexivity.
  assert (Hj : from_jtv msg = false) by reflexivity.
  assert (Hn : first_param (params msg) = Some "alice") by reflexivity.
  assert (Hs : socket st = Some Samples.fresh_socket) by reflexivity.
  split; [repeat split; assumption |].
  split; [reflexivity |].
  destruct (handshake_after_welcome Traffic.parse line msg "alice"
              Samples.fresh_socket st Hp Hc Hj Hn Hs) as (Hok & Hw & _).
  split; [exact Hok | exact Hw].
Defined.

(** ** The branches on the command *)

Section Late.

Variable parse : string -> option TekkoMessage.

(** X5: a chat line (PRIVMSG) and a ROOMSTATE, not sent by the service
    pseudo-user, are told to the listeners and nothing more: dispatch returns,
    having emitted one [message] event with the chat message of the line, or
    one [roomstate] event with the data of the line (both with the raw text of
    the line); the channel map, the user, the users and user states, the
    options and the socket stay as they were. A Channel resolved for the line
    is not put in the channel map. *)
Theorem chat_and_roomstate_notify (line : string) (msg : TekkoMessage)
    (st : Session) :
  parse line = Some msg ->
  from_jtv msg = false ->
  command msg = "PRIVMSG" \/ command msg = "ROOMSTATE" ->
  sender_comparable st msg ->
  let st' := after (_handleMessage parse line) st in
  let data := new_MessageData (with_raw line msg) in
  completion (_handleMessage parse line) st = Normal tt /\
  emitted st' =
    (emitted st ++
     [ if String.eqb (command msg) "PRIVMSG"
       then EvMessage (new_ChatMessage data) else EvRoomState data ])%list /\
  data_raw data = line /\
  channels st' = channels st /\ user st' = user st /\
  userObjs st' = userObjs st /\ clientUserObjs st' = clientUserObjs st /\
  userStateObjs st' = userStateObjs st /\
  options st' = options st /\ socket st' = socket st.
Proof.
  intros Hparse Hjtv Hcmd Hcmp st' data.
  destruct (resolve_channel_run (first_param (params msg)) (tags msg) st)
    as (extra & ch & Hres & _).
  set (s1 := set_channelObjs (channelObjs st ++ extra) st) in *.
  destruct (is_self_comparable msg st s1 eq_refl eq_refl Hcmp) as [b Hself].
  assert (Hrun : _handleMessage parse line st =
            (set_emitted
               (emitted st ++
                [ if String.eqb (command msg) "PRIVMSG"
                  then EvMessage (new_ChatMessage data)
                  else EvRoomState data ]) s1, Normal tt)).
  { destruct Hcmd as [Hcmd | Hcmd].
    - enter_branch Hparse Hcmd Hjtv.
      unfold bind at 1. rewrite Hres.
      unfold bind at 1. rewrite Hself. reflexivity.
    - enter_branch Hparse Hcmd Hjtv.
      unfold bind at 1. rewrite Hres.
      unfold bind at 1. rewrite Hself. reflexivity. }
  apply run_eq in Hrun. destruct Hrun as [Ha Hc].
  subst st'. rewrite Ha, Hc. repeat split; reflexivity.
Qed.

(** The run of a JOIN whose sender is named, given the channel it resolved
    and what the comparison of the sender with the user gave. *)
Lemma join_run (line : string) (msg : TekkoMessage) (p : Prefix)
    (extra : list Channel) (ch : option ChannelRef) (b : bool) (st : Session) :
  parse line = Some msg ->
  dispatched_as "JOIN" msg ->
  prefix msg = Some p ->
  let s1 := set_channelObjs (channelObjs st ++ extra) st in
  resolve_channel (first_param (params msg)) (tags msg) st = (s1, Normal ch) ->
  is_self (Some p) s1 = (s1, Normal b) ->
  let s2 :=
    set_channels (<[first_param (params msg) := ch]> (channels st)) s1 in
  _handleMessage parse line st =
    (if b
     then set_emitted (emitted st ++ [EvJoin ch (AClientUser (user st))]) s2
     else set_emitted
            (emitted st ++ [EvJoin ch (AUser (length (userObjs st)))])
            (set_userObjs
               (userObjs st ++ [mkUser (prefix_name p) (tags msg) ch]) s2),
     Normal tt).
Proof.
  intros Hparse [Hcmd Hjtv] Hp s1 Hres Hself s2.
  enter_branch Hparse Hcmd Hjtv. rewrite Hp.
  unfold bind at 1. rewrite Hres.
  unfold bind at 1. rewrite Hself.
  destruct b; reflexivity.
Qed.

(** What the comparison of a named sender with the user gives: whether the
    name is the login of the user. *)
Lemma is_self_own_name (p : Prefix) (s1 st : Session) :
  user s1 = user st -> clientUserObjs s1 = clientUserObjs st ->
  (forall r, user st = Some r -> is_Some (clientUserObjs st !! r)) ->
  exists b : bool,
    is_self (Some p) s1 = (s1, Normal b) /\
    (b = true <-> own_name st (prefix_name p)).
Proof.
  intros Hu Ho Hlive. destruct (user st) as [r|] eqn:Hr.
  - destruct (Hlive r eq_refl) as [o Hobj].
    exists (bool_decide (JsStr (prefix_name p) = login o)).
    split; [apply (is_self_user p r o); congruence |].
    rewrite bool_decide_eq_true. split.
    + intros Heq. exists r, o. auto.
    + intros (r' & o' & Hr' & Ho' & Hl). congruence.
  - exists false. split; [apply is_self_no_user; congruence |].
    split; [intros H; discriminate H |].
    intros (r' & o' & Hr' & _). congruence.
Qed.

(** X6: a JOIN with a named sender, not sent by the service pseudo-user,
    puts under its channel name in the channel map the channel that channel
    resolution gave for that name: the Channel stored under the name, or
    else a Channel made for this line from the name and the tags, or [null]
    when the line has no channel name. It emits one [join] event with that
    same channel. The user of the event is the authenticated user when the
    name of the sender is the login of that user; otherwise, and always
    while no user is established, it is a User made for this line from the
    name of the sender, the tags and the channel. *)
Theorem join_names_its_user (line : string) (msg : TekkoMessage) (p : Prefix)
    (st : Session) :
  parse line = Some msg ->
  dispatched_as "JOIN" msg ->
  prefix msg = Some p ->
  (forall r, user st = Some r -> is_Some (clientUserObjs st !! r)) ->
  let c := first_param (params msg) in
  let st' := after (_handleMessage parse line) st in
  exists ch : option ChannelRef,
    completion (_handleMessage parse line) st = Normal tt /\
    completion (resolve_channel c (tags msg)) st = Normal ch /\
    channelObjs st' = channelObjs (after (resolve_channel c (tags msg)) st) /\
    ((truthy c = false /\ ch = None /\ channelObjs st' = channelObjs st) \/
     (truthy c = true /\ channels st !! c = Some ch /\ is_Some ch /\
      channelObjs st' = channelObjs st) \/
     (truthy c = true /\ ~ (exists k, channels st !! c = Some (Some k)) /\
      ch = Some (length (channelObjs st)) /\
      channelObjs st' = (channelObjs st ++ [mkChannel c (tags msg)])%list)) /\
    channels st' = <[c := ch]> (channels st) /\
    (own_name st (prefix_name p) ->
     emitted st' = (emitted st ++ [EvJoin ch (AClientUser (user st))])%list /\
     userObjs st' = userObjs st) /\
    (~ own_name st (prefix_name p) ->
     emitted st' =
       (emitted st ++ [EvJoin ch (AUser (length (userObjs st)))])%list /\
     userObjs st' =
       (userObjs st ++ [mkUser (prefix_name p) (tags msg) ch])%list).
Proof.
  intros Hparse Hd Hp Hlive c st'. subst c.
  set (c := first_param (params msg)) in *.
  destruct (resolve_channel_run c (tags msg) st)
    as (extra & ch & Hres & Hspec).
  set (s1 := set_channelObjs (channelObjs st ++ extra) st) in *.
  destruct (is_self_own_name p s1 st eq_refl eq_refl Hlive)
    as (b & Hself & Hb).
  pose proof (join_run line msg p extra ch b st Hparse Hd Hp Hres Hself)
    as Hrun.
  fold c in Hrun.
  apply run_eq in Hrun. destruct Hrun as [Ha Hc]. subst st'. rewrite Ha.
  destruct (run_eq _ _ _ _ Hres) as [Hra Hrc]. rewrite Hra, Hrc.
  assert (Hways : forall objs : list Channel,
            objs = (channelObjs st ++ extra)%list ->
            (truthy c = false /\ ch = None /\ objs = channelObjs st) \/
            (truthy c = true /\ channels st !! c = Some ch /\ is_Some ch /\
             objs = channelObjs st) \/
            (truthy c = true /\
             ~ (exists k, channels st !! c = Some (Some k)) /\
             ch = Some (length (channelObjs st)) /\
             objs = (channelObjs st ++ [mkChannel c (tags msg)])%list)).
  { intros objs ->.
    destruct Hspec as [(Ht & Hn & Hex) | [(Ht & Hst & Hsome & Hex) |
                                          (Ht & Hno & Hfresh & Hex)]];
      subst extra.
    - left. rewrite app_nil_r. auto.
    - right; left. rewrite app_nil_r. auto.
    - right; right. auto. }
  exists ch. split; [exact Hc |]. split; [reflexivity |].
  split; [destruct b; reflexivity |].
  split; [apply Hways; destruct b; reflexivity |].
  split; [destruct b; reflexivity |].
  split.
  - intros Hown. apply Hb in Hown. subst b. split; reflexivity.
  - intros Hown. destruct b; [exfalso; apply Hown, Hb; reflexivity |].
    split; reflexivity.
Qed.

(** The run of a PART with a named sender while a user is established,
    given the channel it resolved. *)
Lemma part_run (line : string) (msg : TekkoMessage) (p : Prefix)
    (r : ClientUserRef) (o : ClientUser) (extra : list Channel)
    (ch : option ChannelRef) (st : Session) :
  parse line = Some msg ->
  dispatched_as "PART" msg ->
  prefix msg = Some p ->
  user st = Some r ->
  clientUserObjs st !! r = Some o ->
  let c := first_param (params msg) in
  resolve_channel c (tags msg) st =
    (set_channelObjs (channelObjs st ++ extra) st, Normal ch) ->
  exists (s' : Session) (k : ChannelRef) (u : UserOrClientUser),
    _handleMessage parse line st = (s', Normal tt) /\
    channels s' = delete c (channels st) /\
    clientUserObjs s' =
      <[r := set_states (delete c (states o)) o]> (clientUserObjs st) /\
    user s' = user st /\ userStateObjs s' = userStateObjs st /\
    emitted s' = (emitted st ++ [EvPart (Some k) u])%list /\
    ((ch = Some k /\ channelObjs s' = (channelObjs st ++ extra)%list) \/
     (ch = None /\ k = length (channelObjs st ++ extra)%list /\
      channelObjs s' =
        ((channelObjs st ++ extra) ++ [mkChannel c (tags msg)])%list)).
Proof.
  intros Hparse [Hcmd Hjtv] Hp Hu Ho c Hres.
  set (s1 := set_channelObjs (channelObjs st ++ extra) st) in *.
  assert (Hself : exists b, is_self (Some p) s1 = (s1, Normal b)).
  { eexists. apply (is_self_user p r o); assumption. }
  destruct Hself as [b Hself].
  enter_branch Hparse Hcmd Hjtv. rewrite Hp. fold c.
  unfold bind at 1. rewrite Hres.
  unfold bind at 1. rewrite Hself.
  unfold bind at 1. unfold modify at 1.
  set (s2 := set_channels _ s1).
  unfold bind at 1. rewrite (user_states_user r o s2) by assumption.
  destruct b, ch as [k|]; eexists _, _, _;
    (split; [reflexivity |]);
    (do 5 (split; [reflexivity |])); auto.
Qed.

(** X7: a PART with a named sender, not sent by the service pseudo-user, while
    a user is established: dispatch returns, having deleted the channel name
    from the channel map and from the states of the user (the other states
    stay), and emits one [part] event, which always carries a Channel: the one
    stored under the name, or else one made for this line, also when the line
    has no channel name. *)
Theorem part_forgets_channel (line : string) (msg : TekkoMessage) (p : Prefix)
    (r : ClientUserRef) (o : ClientUser) (st : Session) :
  parse line = Some msg ->
  dispatched_as "PART" msg ->
  prefix msg = Some p ->
  user st = Some r ->
  clientUserObjs st !! r = Some o ->
  let c := first_param (params msg) in
  let st' := after (_handleMessage parse line) st in
  completion (_handleMessage parse line) st = Normal tt /\
  channels st' = delete c (channels st) /\
  (states <$> clientUserObjs st' !! r) = Some (delete c (states o)) /\
  user st' = user st /\ userStateObjs st' = userStateObjs st /\
  exists (k : ChannelRef) (u : UserOrClientUser),
    emitted st' = (emitted st ++ [EvPart (Some k) u])%list /\
    ((truthy c = true /\ channels st !! c = Some (Some k) /\
      channelObjs st' = channelObjs st) \/
     (k = length (channelObjs st) /\
      channelObjs st' = (channelObjs st ++ [mkChannel c (tags msg)])%list)).
Proof.
  intros Hparse Hd Hp Hu Ho c st'.
  destruct (resolve_channel_run c (tags msg) st)
    as (extra & ch & Hres & Hspec).
  destruct (part_run line msg p r o extra ch st Hparse Hd Hp Hu Ho Hres)
    as (s' & k & u & Hrun & Hch & Hcu & Huser & Hus & Hem & Hobjs).
  apply run_eq in Hrun. destruct Hrun as [Ha Hc]. subst st'. rewrite Ha.
  split; [exact Hc |]. split; [exact Hch |].
  split.
  { rewrite Hcu. rewrite list_lookup_insert_eq; [reflexivity |].
    apply lookup_lt_Some in Ho. exact Ho. }
  split; [exact Huser |]. split; [exact Hus |].
  exists k, u. split; [exact Hem |].
  destruct Hspec as [(Ht & Hnone & Hex) | [(Ht & Hstored & Hsome & Hex) |
                                           (Ht & _ & Hfresh & Hex)]];
    subst extra.
  - right. destruct Hobjs as [[Hk _] | (_ & Hk & Hob)]; [congruence |].
    rewrite app_nil_r in Hk, Hob. split; assumption.
  - left. destruct Hobjs as [[Hk Hob] | (Hk & _)].
    + subst ch. rewrite app_nil_r in Hob. repeat split; assumption.
    + subst ch. destruct Hsome as [x Hx]. discriminate Hx.
  - right. destruct Hobjs as [[Hk Hob] | (Hk & _)]; [| congruence].
    split; [congruence | exact Hob].
Qed.

(** The run of a USERSTATE with a named sender for a channel name under
    which the user has no state. *)
Lemma userstate_create_run (line : string) (msg : TekkoMessage) (p : Prefix)
    (r : ClientUserRef) (o : ClientUser) (st : Session) :
  parse line = Some msg ->
  dispatched_as "USERSTATE" msg ->
  prefix msg = Some p ->
  user st = Some r ->
  clientUserObjs st !! r = Some o ->
  let c := first_param (params msg) in
  states o !! c = None ->
  let fresh := length (userStateObjs st) in
  exists (s' : Session) (ch : option ChannelRef),
    _handleMessage parse line st = (s', Normal tt) /\
    clientUserObjs s' =
      <[r := set_states (<[c := fresh]> (states o)) o]> (clientUserObjs st) /\
    userStateObjs s' = (userStateObjs st ++ [mkUserState (tags msg) ch])%list /\
    user s' = user st /\ channels s' = channels st /\
    emitted s' = (emitted st ++ [EvUserState fresh])%list.
Proof.
  intros Hparse [Hcmd Hjtv] Hp Hu Ho c Hnone fresh.
  destruct (resolve_channel_run c (tags msg) st)
    as (extra & ch & Hres & _).
  set (s1 := set_channelObjs (channelObjs st ++ extra) st) in *.
  assert (Hself : exists b, is_self (Some p) s1 = (s1, Normal b)).
  { eexists. apply (is_self_user p r o); assumption. }
  destruct Hself as [b Hself].
  exists (set_emitted (emitted st ++ [EvUserState fresh])
            (set_clientUserObjs
               (<[r := set_states (<[c := fresh]> (states o)) o]>
                  (clientUserObjs st))
               (set_userStateObjs
                  (userStateObjs st ++ [mkUserState (tags msg) ch]) s1))), ch.
  split; [| repeat split; reflexivity].
  enter_branch Hparse Hcmd Hjtv. rewrite Hp. fold c.
  unfold bind at 1. rewrite Hres.
  unfold bind at 1. rewrite Hself.
  unfold bind at 1. rewrite (user_states_user r o s1) by assumption.
  rewrite Hnone. reflexivity.
Qed.

(** X8: leaving a channel forgets the state the user had in it. With a user
    established, take a PART for a channel name and then a USERSTATE for
    the same name, both with a named sender and neither sent by the service
    pseudo-user: both dispatches return, and the USERSTATE does not update
    the UserState that was stored before the PART. It constructs a new one,
    from its own tags alone, and stores that under the name; the other
    states of the user stay. *)
Theorem part_then_userstate_is_fresh (line1 line2 : string)
    (leave state : TekkoMessage) (p1 p2 : Prefix) (r : ClientUserRef)
    (o : ClientUser) (st : Session) :
  parse line1 = Some leave ->
  dispatched_as "PART" leave ->
  prefix leave = Some p1 ->
  parse line2 = Some state ->
  dispatched_as "USERSTATE" state ->
  prefix state = Some p2 ->
  first_param (params state) = first_param (params leave) ->
  user st = Some r ->
  clientUserObjs st !! r = Some o ->
  let c := first_param (params leave) in
  let st1 := after (_handleMessage parse line1) st in
  let st2 := after (_handleMessage parse line2) st1 in
  let fresh := length (userStateObjs st) in
  completion (_handleMessage parse line1) st = Normal tt /\
  completion (_handleMessage parse line2) st1 = Normal tt /\
  userStateObjs st !! fresh = None /\
  (exists ch, userStateObjs st2 =
                (userStateObjs st ++ [mkUserState (tags state) ch])%list) /\
  (states <$> clientUserObjs st2 !! r) =
    Some (<[c := fresh]> (delete c (states o))) /\
  (exists e, emitted st2 = (emitted st ++ [e; EvUserState fresh])%list).
Proof.
  intros Hp1 Hd1 Hpre1 Hp2 Hd2 Hpre2 Hsame Hu Ho c st1 st2 fresh.
  destruct (resolve_channel_run c (tags leave) st)
    as (extra & ch & Hres & _).
  destruct (part_run line1 leave p1 r o extra ch st Hp1 Hd1 Hpre1 Hu Ho Hres)
    as (s1 & k & u & Hrun1 & _ & Hcu1 & Hu1 & Hus1 & Hem1 & _).
  apply run_eq in Hrun1. destruct Hrun1 as [Ha1 Hc1].
  fold st1 in Ha1. rewrite <- Ha1 in Hcu1, Hu1, Hus1, Hem1. clear Ha1 s1.
  assert (Hr : r < length (clientUserObjs st))
    by (eapply lookup_lt_Some; exact Ho).
  set (o1 := set_states (delete c (states o)) o) in *.
  assert (Ho1 : clientUserObjs st1 !! r = Some o1)
    by (rewrite Hcu1; apply list_lookup_insert_eq; exact Hr).
  assert (Hnone : states o1 !! first_param (params state) = None)
    by (rewrite Hsame; apply lookup_delete_eq).
  destruct (userstate_create_run line2 state p2 r o1 st1 Hp2 Hd2 Hpre2
              (eq_trans Hu1 Hu) Ho1 Hnone)
    as (s2 & ch2 & Hrun2 & Hcu2 & Hus2 & _ & _ & Hem2).
  apply run_eq in Hrun2. destruct Hrun2 as [Ha2 Hc2].
  fold st2 in Ha2. rewrite <- Ha2 in Hcu2, Hus2, Hem2. clear Ha2 s2.
  rewrite Hus1 in Hus2, Hcu2, Hem2. fold fresh in Hcu2, Hem2.
  rewrite Hsame in Hcu2. fold c in Hcu2.
  split; [exact Hc1 |]. split; [exact Hc2 |].
  split; [apply lookup_ge_None_2; subst fresh; lia |].
  split; [exists ch2; exact Hus2 |].
  split.
  - rewrite Hcu2, Hcu1, list_insert_insert_eq.
    rewrite list_lookup_insert_eq by exact Hr. reflexivity.
  - exists (EvPart (Some k) u). rewrite Hem2, Hem1, <- app_assoc. reflexivity.
Qed.

End Late.

(** A chat line of another user, after the GLOBALUSERSTATE of the sample
    client. *)
Lemma chat_and_roomstate_notify_witness :
  let line := ":bob!bob@bob.tmi.twitch.tv PRIVMSG #channel :hello" in
  let msg := mkTekko "" "PRIVMSG" ["#channel"; "hello"] Traffic.bob ∅ in
  let st := after (_handleMessage Traffic.parse ":tmi.twitch.tv GLOBALUSERSTATE")
              (new_Client Samples.alice_options) in
  let st' := after (_handleMessage Traffic.parse line) st in
  (Traffic.parse line = Some msg /\ from_jtv msg = false /\
   (command msg = "PRIVMSG" \/ command msg = "ROOMSTATE") /\
   sender_comparable st msg) /\
  emitted st' =
    [ EvGlobalUserState 0;
      EvMessage (new_ChatMessage (new_MessageData (with_raw line msg))) ] /\
  channels st' = ∅.
Proof.
  intros line msg st st'.
  assert (Hp : Traffic.parse line = Some msg) by reflexivity.
  assert (Hj : from_jtv msg = false) by reflexivity.
  assert (Hc : command msg = "PRIVMSG" \/ command msg = "ROOMSTATE")
    by (left; reflexivity).
  assert (Hs : sender_comparable st msg).
  { unfold sender_comparable. change (user st) with (Some 0).
    split; eexists; reflexivity. }
  split; [exact (conj Hp (conj Hj (conj Hc Hs))) |].
  destruct (chat_and_roomstate_notify Traffic.parse line msg st Hp Hj Hc Hs)
    as (_ & He & _ & Hch & _).
  split; [exact He | exact Hch].
Defined.

(** The JOIN of the sample user, after its GLOBALUSERSTATE. *)
Lemma join_names_its_user_witness :
  let line := ":alice!alice@alice.tmi.twitch.tv JOIN #channel" in
  let msg := mkTekko "" "JOIN" ["#channel"] Samples.alice ∅ in
  let p := mkPrefix "alice" (Some "alice") (Some "alice.tmi.twitch.tv") in
  let st := after (_handleMessage Traffic.parse ":tmi.twitch.tv GLOBALUSERSTATE")
              (new_Client Samples.alice_options) in
  let st' := after (_handleMessage Traffic.parse line) st in
  (Traffic.parse line = Some msg /\ dispatched_as "JOIN" msg /\
   prefix msg = Some p /\
   (forall r, user st = Some r -> is_Some (clientUserObjs st !! r)) /\
   own_name st (prefix_name p)) /\
  channels st' !! Some "#channel" = Some (Some 0) /\
  channelObjs st' = [mkChannel (Some "#channel") ∅] /\
  emitted st' =
    [ EvGlobalUserState 0; EvJoin (Some 0) (AClientUser (Some 0)) ] /\
  userObjs st' = [].
Proof.
  intros line msg p st st'.
  assert (Hp : Traffic.parse line = Some msg) by reflexivity.
  assert (Hd : dispatched_as "JOIN" msg) by (split; reflexivity).
  assert (Hpre : prefix msg = Some p) by reflexivity.
  assert (Hlive : forall r, user st = Some r -> is_Some (clientUserObjs st !! r)).
  { intros r Hr. change (user st) with (Some 0) in Hr. injection Hr as <-.
    eexists; reflexivity. }
  assert (Hown : own_name st (prefix_name p)).
  { exists 0, (mkClientUser (JsStr "alice") ∅ ∅). repeat split; reflexivity. }
  split; [exact (conj Hp (conj Hd (conj Hpre (conj Hlive Hown)))) |].
  destruct (join_names_its_user Traffic.parse line msg p st Hp Hd Hpre Hlive)
    as (ch & _ & _ & _ & Hres & Hch & Hself & _).
  destruct Hres as [(Ht & _) | [(_ & Hst & _) | (_ & _ & Hfresh & Hobjs)]];
    [discriminate Ht | discriminate Hst |].
  subst ch. fold st' in Hobjs, Hch, Hself.
  split; [rewrite Hch; apply lookup_insert_eq |].
  split; [exact Hobjs |]. exact (Hself Hown).
Defined.

(** The PART of the sample user from the sample channel, for which it has a
    user state. *)
Lemma part_forgets_channel_witness :
  let line := ":alice!alice@alice.tmi.twitch.tv PART #channel" in
  let msg := mkTekko "" "PART" ["#channel"] Samples.alice ∅ in
  let p := mkPrefix "alice" (Some "alice") (Some "alice.tmi.twitch.tv") in
  let o := mkClientUser (JsStr "alice") ∅ {[ Some "#channel" := 0 ]} in
  let st :=
    after (_handleMessage Traffic.parse
             "@mod=0;color=red :tmi.twitch.tv USERSTATE #channel")
      (after (_handleMessage Traffic.parse ":tmi.twitch.tv GLOBALUSERSTATE")
         (new_Client Samples.alice_options)) in
  let st' := after (_handleMessage Traffic.parse line) st in
  (Traffic.parse line = Some msg /\ dispatched_as "PART" msg /\
   prefix msg = Some p /\ user st = Some 0 /\
   clientUserObjs st !! 0 = Some o) /\
  (states <$> clientUserObjs st' !! 0) =
    Some (delete (Some "#channel") {[ Some "#channel" := 0 ]}) /\
  channels st' !! Some "#channel" = None.
Proof.
  intros line msg p o st st'.
  assert (Hp : Traffic.parse line = Some msg) by reflexivity.
  assert (Hd : dispatched_as "PART" msg) by (split; reflexivity).
  assert (Hpre : prefix msg = Some p) by reflexivity.
  assert (Hu : user st = Some 0) by reflexivity.
  assert (Ho : clientUserObjs st !! 0 = Some o) by reflexivity.
  split; [exact (conj Hp (conj Hd (conj Hpre (conj Hu Ho)))) |].
  destruct (part_forgets_channel Traffic.parse line msg p 0 o st
              Hp Hd Hpre Hu Ho) as (_ & Hch & Hst & _).
  split; [exact Hst |].
  subst st'. rewrite Hch. apply lookup_delete_eq.
Defined.

(** The sample user has a state in the sample channel, leaves the channel,
    and gets a USERSTATE for it again. *)
Lemma part_then_userstate_is_fresh_witness :
  let line1 := ":alice!alice@alice.tmi.twitch.tv PART #channel" in
  let line2 := "@mod=1 :tmi.twitch.tv USERSTATE #channel" in
  let leave := mkTekko "" "PART" ["#channel"] Samples.alice ∅ in
  let state := mkTekko "" "USERSTATE" ["#channel"] Samples.tmi
                 {[ "mod" := TagStr "1" ]} in
  let p1 := mkPrefix "alice" (Some "alice") (Some "alice.tmi.twitch.tv") in
  let p2 := mkPrefix "tmi.twitch.tv" None None in
  let o := mkClientUser (JsStr "alice") ∅ {[ Some "#channel" := 0 ]} in
  let st :=
    after (_handleMessage Traffic.parse
             "@mod=0;color=red :tmi.twitch.tv USERSTATE #channel")
      (after (_handleMessage Traffic.parse ":tmi.twitch.tv GLOBALUSERSTATE")
         (new_Client Samples.alice_options)) in
  let st2 := after (_handleMessage Traffic.parse line2)
               (after (_handleMessage Traffic.parse line1) st) in
  (Traffic.parse line1 = Some leave /\ dispatched_as "PART" leave /\
   prefix leave = Some p1 /\ Traffic.parse line2 = Some state /\
   dispatched_as "USERSTATE" state /\ prefix state = Some p2 /\
   first_param (params state) = first_param (params leave) /\
   user st = Some 0 /\ clientUserObjs st !! 0 = Some o) /\
  (exists ch, userStateObjs st2 =
     (userStateObjs st ++ [mkUserState {[ "mod" := TagStr "1" ]} ch])%list) /\
  (states <$> clientUserObjs st2 !! 0) =
    Some (<[Some "#channel" := 1]> (delete (Some "#channel") (states o))).
Proof.
  intros line1 line2 leave state p1 p2 o st st2.
  assert (Hp1 : Traffic.parse line1 = Some leave) by reflexivity.
  assert (Hd1 : dispatched_as "PART" leave) by (split; reflexivity).
  assert (Hpre1 : prefix leave = Some p1) by reflexivity.
  assert (Hp2 : Traffic.parse line2 = Some state) by reflexivity.
  assert (Hd2 : dispatched_as "USERSTATE" state) by (split; reflexivity).
  assert (Hpre2 : prefix state = Some p2) by reflexivity.
  assert (Hsame : first_param (params state) = first_param (params leave))
    by reflexivity.
  assert (Hu : user st = Some 0) by reflexivity.
  assert (Ho : clientUserObjs st !! 0 = Some o) by reflexivity.
  split;
    [exact (conj Hp1 (conj Hd1 (conj Hpre1 (conj Hp2 (conj Hd2
              (conj Hpre2 (conj Hsame (conj Hu Ho)))))))) |].
  destruct (part_then_userstate_is_fresh Traffic.parse line1 line2 leave state
              p1 p2 0 o st Hp1 Hd1 Hpre1 Hp2 Hd2 Hpre2 Hsame Hu Ho)
    as (_ & _ & _ & Hobjs & Hstates & _).
  split; [exact Hobjs | exact Hstates].
Defined.

(** ** Sending *)

Section Sending.

Variable parse : string -> option TekkoMessage.
Variable format : FormatInput -> string.
Variable Channel_toString : Channel -> string.

(** X9: before [connect] has made a socket nothing can be sent: each of the
    sending methods throws on the missing socket, and so do the listener of a
    successful connection, once it has read the identity, and the reply to a
    PING, before its [ping] event is emitted. The session stays as it was. *)
Theorem send_before_connect_throws (st : Session) :
  socket st = None ->
  let thrown := (st, Throw (TypeError "Cannot read property 'write' of null")) in
  (forall m, sendRaw m st = thrown) /\
  (forall ms, sendRawArray ms st = thrown) /\
  (forall r, join format r st = thrown) /\
  (forall r, part format r st = thrown) /\
  (forall c m, say format Channel_toString c m st = thrown) /\
  (forall c w ps, sendCommand format Channel_toString c w ps st = thrown) /\
  (forall id, identity (options st) = Some id -> _onConnect st = thrown) /\
  (forall line msg, parse line = Some msg -> command msg = "PING" ->
     _handleMessage parse line st = thrown).
Proof.
  intros Hsk thrown.
  assert (Hraw : forall m, sendRaw m st = thrown)
    by (intros m; apply sendRaw_no_socket; exact Hsk).
  do 6 (split; [intros; apply Hraw |]). split.
  - intros id Hid. unfold _onConnect, sendRawArray.
    unfold bind at 1. unfold gets at 1. rewrite Hid.
    unfold bind. rewrite Hraw. reflexivity.
  - intros line msg Hparse Hcmd. unfold _handleMessage. rewrite Hparse.
    cbv zeta. change (command (with_raw line msg)) with (command msg).
    rewrite Hcmd. decide_commands. cbv iota.
    unfold bind. rewrite Hraw. reflexivity.
Qed.

Lemma concat_empty_cons (x : string) (xs : list string) :
  String.concat "" (x :: xs) = (x ++ String.concat "" xs)%string.
Proof.
  destruct xs as [|y ys]; [| reflexivity].
  cbn [String.concat]. induction x as [|c x IH]; [reflexivity |].
  cbn [append]. apply (f_equal (String c)). exact IH.
Qed.

Lemma concat_empty_app (xs ys : list string) :
  String.concat "" (xs ++ ys) =
  (String.concat "" xs ++ String.concat "" ys)%string.
Proof.
  induction xs as [|x xs IH]; [reflexivity |].
  change ((x :: xs) ++ ys)%list with (x :: (xs ++ ys))%list.
  rewrite !concat_empty_cons, IH, append_assoc. reflexivity.
Qed.

(** Ending each message with CRLF and joining the messages with CRLF, then
    ending the text with CRLF, give the same text. *)
Lemma concat_CRLF_each (ms : list string) :
  ms <> [] ->
  String.concat "" (map (fun m => (m ++ CRLF)%string) ms) =
  (String.concat CRLF ms ++ CRLF)%string.
Proof.
  induction ms as [|m rest IH]; [congruence |]. intros _.
  destruct rest as [|m' rest].
  - cbn [map String.concat]. reflexivity.
  - change (map (fun m0 => (m0 ++ CRLF)%string) (m :: m' :: rest))
      with ((m ++ CRLF)%string :: map (fun m0 => (m0 ++ CRLF)%string) (m' :: rest)).
    rewrite concat_empty_cons, IH by discriminate.
    change (String.concat CRLF (m :: m' :: rest))
      with (m ++ CRLF ++ String.concat CRLF (m' :: rest))%string.
    rewrite !append_assoc. reflexivity.
Qed.

Lemma send_each_run (ms : list string) (sk : Socket) (st : Session) :
  socket st = Some sk ->
  exists sk' : Socket,
    send_each ms st = (set_socket (Some sk') st, Normal tt) /\
    written sk' = (written sk ++ map (fun m => (m ++ CRLF)%string) ms)%list.
Proof.
  revert sk st. induction ms as [|m rest IH]; intros sk st Hsk.
  - exists sk. split; [| cbn; now rewrite app_nil_r].
    destruct st. cbn in Hsk. subst. reflexivity.
  - cbn [send_each]. unfold bind.
    rewrite (sendRaw_connected m sk st Hsk).
    destruct (IH (write (m ++ CRLF) sk)
                (set_socket (Some (write (m ++ CRLF) sk)) st) eq_refl)
      as (sk' & Hrun & Hw).
    exists sk'. rewrite Hrun. split; [reflexivity |].
    rewrite Hw. cbn [written write map]. now rewrite <- app_assoc.
Qed.

(** X10: on a connected client [sendRawArray] makes one write: the messages
    joined by CRLF, with a CRLF at the end. For a list that is not empty the
    socket is given the same text as by sending each message with [sendRaw],
    which takes a write for each; for the empty list [sendRawArray] still
    writes a bare CRLF. *)
Theorem sendRawArray_one_write (ms : list string) (sk : Socket) (st : Session) :
  socket st = Some sk ->
  let batch := after (sendRawArray ms) st in
  let each := after (send_each ms) st in
  completion (sendRawArray ms) st = Normal tt /\
  (written <$> socket batch) =
    Some (written sk ++ [(String.concat CRLF ms ++ CRLF)%string])%list /\
  (written <$> socket each) =
    Some (written sk ++ map (fun m => (m ++ CRLF)%string) ms)%list /\
  (ms <> [] -> wire_text batch = wire_text each) /\
  (ms = [] -> (written <$> socket batch) = Some (written sk ++ [CRLF])%list /\
              (written <$> socket each) = Some (written sk)).
Proof.
  intros Hsk batch each.
  assert (Hb : sendRawArray ms st =
               (set_socket (Some (write (String.concat CRLF ms ++ CRLF) sk)) st,
                Normal tt))
    by (apply sendRaw_connected; exact Hsk).
  destruct (send_each_run ms sk st Hsk) as (sk' & He & Hw).
  apply run_eq in Hb. destruct Hb as [Hba Hbc].
  apply run_eq in He. destruct He as [Hea _].
  subst batch each. rewrite Hba, Hea, Hbc. unfold wire_text.
  cbn [socket set_socket fmap option_fmap option_map written write].
  rewrite Hw.
  split; [reflexivity |]. split; [reflexivity |]. split; [reflexivity |].
  split.
  - intros Hne. f_equal.
    rewrite !concat_empty_app, (concat_CRLF_each ms Hne). reflexivity.
  - intros ->. cbn. rewrite app_nil_r. split; reflexivity.
Qed.

End Sending.

(** The sending methods on a new client. *)
Lemma send_before_connect_throws_witness :
  let st := new_Client Samples.alice_options in
  socket st = None /\
  join Samples.format "#channel" st =
    (st, Throw (TypeError "Cannot read property 'write' of null")) /\
  _onConnect st =
    (st, Throw (TypeError "Cannot read property 'write' of null")).
Proof.
  intros st.
  assert (Hs : socket st = None) by reflexivity.
  split; [exact Hs |].
  destruct (send_before_connect_throws Samples.parse Samples.format
              Samples.Channel_toString st Hs)
    as (_ & _ & Hjoin & _ & _ & _ & Hconn & _).
  split; [apply Hjoin | apply (Hconn _ eq_refl)].
Defined.

(** Two messages sent in a batch and one by one. *)
Lemma sendRawArray_one_write_witness :
  let st := after connect (new_Client Samples.alice_options) in
  let ms := ["JOIN #a"; "JOIN #b"] in
  socket st = Some Samples.fresh_socket /\
  (written <$> socket (after (sendRawArray ms) st)) =
    Some [ ("JOIN #a" ++ CRLF ++ "JOIN #b" ++ CRLF)%string ] /\
  (written <$> socket (after (send_each ms) st)) =
    Some [ ("JOIN #a" ++ CRLF)%string; ("JOIN #b" ++ CRLF)%string ] /\
  wire_text (after (sendRawArray ms) st) = wire_text (after (send_each ms) st).
Proof.
  intros st ms.
  assert (Hs : socket st = Some Samples.fresh_socket) by reflexivity.
  split; [exact Hs |].
  destruct (sendRawArray_one_write ms Samples.fresh_socket st Hs)
    as (_ & Hb & He & Hsame & _).
  split; [exact Hb |]. split; [exact He |].
  apply Hsame. discriminate.
Defined.

(** ** Chunks of inbound data *)

Lemma split_CRLF_step (c c' : ascii) (s : string) :
  split_CRLF (String c (String c' s)) =
    if (Ascii.eqb c "013" && Ascii.eqb c' "010")%bool
    then EmptyString :: split_CRLF s
    else match split_CRLF (String c' s) with
         | l :: ls => String c l :: ls
         | [] => [String c EmptyString]
         end.
Proof. reflexivity. Qed.

Lemma has_CRLF_tail (c : ascii) (l : string) :
  has_CRLF l -> has_CRLF (String c l).
Proof. intros (a & b & ->). exists (String c a), b. reflexivity. Qed.

(** Splitting takes a line without CRLF off the front of a text. *)
Lemma split_CRLF_line (l rest : string) :
  ~ has_CRLF l ->
  split_CRLF (l ++ CRLF ++ rest) = l :: split_CRLF rest.
Proof.
  induction l as [|c l IH]; intros Hl; [reflexivity |].
  assert (Hl' : ~ has_CRLF l) by (intros H; apply Hl, has_CRLF_tail, H).
  specialize (IH Hl').
  destruct l as [|c' l].
  - change (String c "" ++ CRLF ++ rest)%string
      with (String c (String "013" (String "010" rest))).
    rewrite split_CRLF_step.
    change (String "013" (String "010" rest)) with ("" ++ CRLF ++ rest)%string.
    rewrite IH. rewrite andb_false_r. reflexivity.
  - change (String c (String c' l) ++ CRLF ++ rest)%string
      with (String c (String c' (l ++ CRLF ++ rest))).
    rewrite split_CRLF_step.
    change (String c' (l ++ CRLF ++ rest)) with (String c' l ++ CRLF ++ rest)%string.
    rewrite IH.
    destruct (Ascii.eqb c "013" && Ascii.eqb c' "010")%bool eqn:Hcc;
      [| reflexivity].
    apply andb_true_iff in Hcc. destruct Hcc as [H1 H2].
    apply Ascii.eqb_eq in H1, H2. subst c c'.
    exfalso. apply Hl. exists "", l. reflexivity.
Qed.

Lemma split_CRLF_single (l : string) :
  ~ has_CRLF l -> split_CRLF l = [l].
Proof.
  induction l as [|c l IH]; intros Hl; [reflexivity |].
  assert (Hl' : ~ has_CRLF l) by (intros H; apply Hl, has_CRLF_tail, H).
  specialize (IH Hl').
  destruct l as [|c' l]; [reflexivity |].
  rewrite split_CRLF_step, IH.
  destruct (Ascii.eqb c "013" && Ascii.eqb c' "010")%bool eqn:Hcc;
    [| reflexivity].
  apply andb_true_iff in Hcc. destruct Hcc as [H1 H2].
  apply Ascii.eqb_eq in H1, H2. subst c c'.
  exfalso. apply Hl. exists "", l. reflexivity.
Qed.

(** A text with a CRLF in it does not split into itself alone. *)
Lemma has_CRLF_splits (l : string) : has_CRLF l -> split_CRLF l <> [l].
Proof.
  intros (a & b & ->). induction a as [|c a IH]; [discriminate |].
  destruct (a ++ CRLF ++ b)%string as [|c' s] eqn:Hs.
  { destruct a; discriminate Hs. }
  change (String c a ++ CRLF ++ b)%string with (String c (a ++ CRLF ++ b)).
  rewrite Hs, split_CRLF_step.
  destruct (Ascii.eqb c "013" && Ascii.eqb c' "010")%bool; [discriminate |].
  destruct (split_CRLF (String c' s)) as [|l0 ls]; [discriminate |].
  intros Heq. injection Heq as Hl0 Hls. subst l0 ls. apply IH. reflexivity.
Qed.

(** Splitting at CRLF undoes joining with CRLF, for lines that have no CRLF
    in them. *)
Lemma split_CRLF_concat (lines : list string) :
  lines <> [] ->
  (forall l, In l lines -> ~ has_CRLF l) ->
  split_CRLF (String.concat CRLF lines) = lines.
Proof.
  induction lines as [|l rest IH]; [congruence |]. intros _ Hall.
  destruct rest as [|l' rest].
  - apply split_CRLF_single. apply Hall. left. reflexivity.
  - change (String.concat CRLF (l :: l' :: rest))
      with (l ++ CRLF ++ String.concat CRLF (l' :: rest))%string.
    rewrite split_CRLF_line by (apply Hall; left; reflexivity).
    rewrite IH; [reflexivity | discriminate |].
    intros x Hx. apply Hall. right. exact Hx.
Qed.

Section Chunks.

Variable parse : string -> option TekkoMessage.
Variable trim : string -> string.

Lemma handleMessage_then_done (line : string) (s : Session) :
  (_handleMessage parse line >> ret tt) s = _handleMessage parse line s.
Proof.
  unfold bind, ret.
  destruct (_handleMessage parse line s) as [s' [[]|e]]; reflexivity.
Qed.

(** The lines of a chunk are dispatched one by one, the way the single line
    of a chunk is. *)
Lemma onData_handle_lines (rawData : string) (s : Session) :
  _onData parse trim rawData s =
  handle_lines parse (split_CRLF (trim rawData)) s.
Proof.
  unfold _onData. destruct (split_CRLF (trim rawData)) as [|l [|l' ls]];
    try reflexivity.
  cbn [handle_lines]. symmetry. apply handleMessage_then_done.
Qed.

Lemma handle_lines_app (pre post : list string) (s : Session) :
  handle_lines parse (pre ++ post) s =
  (handle_lines parse pre >> handle_lines parse post) s.
Proof.
  revert s. induction pre as [|l pre IH]; intros s; [reflexivity |].
  cbn [app handle_lines]. unfold bind.
  destruct (_handleMessage parse l s) as [s1 [[]|e]]; [| reflexivity].
  rewrite IH. reflexivity.
Qed.

(** X11: a chunk that is, once trimmed, lines joined by CRLF is dispatched as
    these lines, in their order: splitting the chunk gives the lines back. The
    lines are not empty in number and have no CRLF in them. *)
Theorem onData_dispatches_lines (lines : list string) (rawData : string)
    (st : Session) :
  lines <> [] ->
  (forall l, In l lines -> ~ has_CRLF l) ->
  trim rawData = String.concat CRLF lines ->
  split_CRLF (trim rawData) = lines /\
  _onData parse trim rawData st = handle_lines parse lines st.
Proof.
  intros Hne Hall Htrim.
  assert (Hsplit : split_CRLF (trim rawData) = lines)
    by (rewrite Htrim; apply split_CRLF_concat; assumption).
  split; [exact Hsplit |].
  rewrite onData_handle_lines, Hsplit. reflexivity.
Qed.

(** X12: a line that makes dispatch throw ends the chunk: the exception leaves
    [_onData], the lines before it have been dispatched, and the lines after
    it are not dispatched at all. *)
Theorem onData_stops_at_throw (pre post : list string) (bad rawData : string)
    (e : JsError) (st : Session) :
  split_CRLF (trim rawData) = (pre ++ bad :: post)%list ->
  completion (handle_lines parse pre) st = Normal tt ->
  completion (_handleMessage parse bad) (after (handle_lines parse pre) st) =
    Throw e ->
  completion (_onData parse trim rawData) st = Throw e /\
  after (_onData parse trim rawData) st =
    after (_handleMessage parse bad) (after (handle_lines parse pre) st).
Proof.
  intros Hsplit Hpre Hbad.
  unfold completion, after in *.
  destruct (handle_lines parse pre st) as [s1 c1] eqn:H1. cbn [fst snd] in *.
  destruct (_handleMessage parse bad s1) as [s2 c2] eqn:H2. cbn [fst snd] in *.
  subst c1 c2.
  assert (Hrun : _onData parse trim rawData st = (s2, Throw e)).
  { rewrite onData_handle_lines, Hsplit, handle_lines_app.
    unfold bind at 1. rewrite H1. cbn [handle_lines].
    unfold bind at 1. rewrite H2. reflexivity. }
  rewrite Hrun. split; reflexivity.
Qed.

End Chunks.

(** Two lines of the server in one chunk. *)
Lemma onData_dispatches_lines_witness :
  let lines := [":tmi.twitch.tv GLOBALUSERSTATE";
                ":tmi.twitch.tv ROOMSTATE #channel"] in
  let rawData := (":tmi.twitch.tv GLOBALUSERSTATE" ++ CRLF ++
                  ":tmi.twitch.tv ROOMSTATE #channel")%string in
  let st := new_Client Samples.alice_options in
  (lines <> [] /\ (forall l, In l lines -> ~ has_CRLF l) /\
   Samples.trim rawData = String.concat CRLF lines) /\
  event_name <$> emitted (after (_onData Traffic.parse Samples.trim rawData) st) =
    ["globaluserstate"; "roomstate"].
Proof.
  intros lines rawData st.
  assert (Hne : lines <> []) by discriminate.
  assert (Hall : forall l, In l lines -> ~ has_CRLF l).
  { intros l Hl Hcr. apply has_CRLF_splits in Hcr. apply Hcr.
    destruct Hl as [<- | [<- | []]]; reflexivity. }
  assert (Htrim : Samples.trim rawData = String.concat CRLF lines) by reflexivity.
  split; [exact (conj Hne (conj Hall Htrim)) |].
  destruct (onData_dispatches_lines Traffic.parse Samples.trim lines rawData st
              Hne Hall Htrim) as [_ Hrun].
  unfold after. rewrite Hrun. reflexivity.
Defined.

(** A USERSTATE that comes before any GLOBALUSERSTATE, with a ROOMSTATE after
    it in the same chunk. *)
Lemma onData_stops_at_throw_witness :
  let bad := "@mod=1 :tmi.twitch.tv USERSTATE #channel" in
  let rawData := ("@mod=1 :tmi.twitch.tv USERSTATE #channel" ++ CRLF ++
                  ":tmi.twitch.tv ROOMSTATE #channel")%string in
  let e := TypeError "Cannot read property 'states' of null" in
  let st := new_Client Samples.alice_options in
  (split_CRLF (Samples.trim rawData) =
     ([] ++ bad :: [":tmi.twitch.tv ROOMSTATE #channel"])%list /\
   completion (handle_lines Traffic.parse []) st = Normal tt /\
   completion (_handleMessage Traffic.parse bad)
     (after (handle_lines Traffic.parse []) st) = Throw e) /\
  completion (_onData Traffic.parse Samples.trim rawData) st = Throw e /\
  emitted (after (_onData Traffic.parse Samples.trim rawData) st) = [].
Proof.
  intros bad rawData e st.
  assert (Hsplit : split_CRLF (Samples.trim rawData) =
            ([] ++ bad :: [":tmi.twitch.tv ROOMSTATE #channel"])%list)
    by reflexivity.
  assert (Hpre : completion (handle_lines Traffic.parse []) st = Normal tt)
    by reflexivity.
  assert (Hbad : completion (_handleMessage Traffic.parse bad)
                   (after (handle_lines Traffic.parse []) st) = Throw e)
    by reflexivity.
  split; [exact (conj Hsplit (conj Hpre Hbad)) |].
  destruct (onData_stops_at_throw Traffic.parse Samples.trim [] _ bad rawData
              e st Hsplit Hpre Hbad) as [Hc Ha].
  split; [exact Hc |]. rewrite Ha. reflexivity.
Defined.

(** ** What the calls and events of a session keep *)

Lemma keeps_gets {A} (P : Session -> Prop) (f : Session -> A) :
  keeps P (gets f).
Proof. intros s Hs. exact Hs. Qed.

Lemma keeps_throw {A} (P : Session -> Prop) (e : JsError) :
  keeps P (throw (A := A) e).
Proof. intros s Hs. exact Hs. Qed.

Section Fields.

Variable parse : string -> option TekkoMessage.
Variable format : FormatInput -> string.
Variable trim : string -> string.
Variable Channel_toString : Channel -> string.

(** A property of sessions that emitting, registering a listener, writing
    to the socket, connecting and dispatching a line keep. *)
Variable P : Session -> Prop.
Hypothesis P_emit : forall e, keeps P (emit e).
Hypothesis P_on : forall event, keeps P (Client_on event).
Hypothesis P_sendRaw : forall m, keeps P (sendRaw m).
Hypothesis P_connect : keeps P connect.
Hypothesis P_handleMessage : forall line, keeps P (_handleMessage parse line).

Lemma kept_onConnect : keeps P _onConnect.
Proof.
  unfold _onConnect. apply keeps_bind; [apply keeps_gets |].
  intros opts. destruct (identity opts); [| apply keeps_throw].
  apply keeps_bind; [apply P_sendRaw | intros _; apply P_emit].
Qed.

Lemma kept_onClose (hadError : bool) : keeps P (_onClose hadError).
Proof.
  unfold _onClose. apply keeps_bind; [apply P_emit | intros _; apply keeps_ret].
Qed.

Lemma kept_handle_lines (lines : list string) :
  keeps P (handle_lines parse lines).
Proof.
  induction lines as [|l rest IH]; [apply keeps_ret |].
  cbn [handle_lines]. apply keeps_bind; [apply P_handleMessage |].
  intros _. exact IH.
Qed.

Lemma kept_onData (rawData : string) : keeps P (_onData parse trim rawData).
Proof.
  unfold _onData. destruct (split_CRLF (trim rawData)) as [|line [|l ls]].
  - apply kept_handle_lines.
  - apply P_handleMessage.
  - apply kept_handle_lines.
Qed.

Lemma kept_call_handler (h : Handler) (e : SocketEvent) :
  keeps P (call_handler parse trim h e).
Proof.
  destruct h, e; cbn [call_handler];
    first [ apply keeps_ret | apply kept_onConnect | apply kept_onClose
          | apply P_emit | apply kept_onData ].
Qed.

Lemma kept_call_listeners (ls : list (string * Handler)) (e : SocketEvent) :
  keeps P (call_listeners parse trim ls e).
Proof.
  induction ls as [|[n h] rest IH]; cbn [call_listeners].
  - apply keeps_ret.
  - apply keeps_bind; [| intros _; exact IH].
    destruct (String.eqb n (socket_event_name e));
      [apply kept_call_handler | apply keeps_ret].
Qed.

Lemma kept_perform (a : Action) :
  keeps P (perform parse format trim Channel_toString a).
Proof.
  destruct a; cbn [perform].
  - apply P_on.
  - apply keeps_bind; [apply P_connect | intros _; apply keeps_ret].
  - unfold deliver. apply keeps_bind; [apply keeps_gets |].
    intros [sk|]; [apply kept_call_listeners | apply keeps_ret].
  - destruct err; [apply P_emit | apply keeps_ret].
  - apply P_handleMessage.
  - apply P_sendRaw.
  - apply P_sendRaw.
  - apply P_sendRaw.
  - apply P_sendRaw.
  - apply P_sendRaw.
  - apply P_sendRaw.
Qed.

Lemma kept_run_all (acts : list Action) (s : Session) :
  P s -> P (run_all parse format trim Channel_toString acts s).
Proof.
  revert s. induction acts as [|a rest IH]; intros s Hs; [exact Hs |].
  cbn [run_all fold_left]. apply IH. apply kept_perform. exact Hs.
Qed.

End Fields.

(** Follow the run [H] and decide what is asked of the fields of the
    session it ends in. *)
Ltac fields H :=
  crunch H; injection H as <- <-; subst; cbn;
  repeat split; first [congruence | auto].

(** What dispatch of a line leaves of the fields that are not entities: the
    connection and the connection options are kept, and a socket, an
    identity and a user that are there are not taken away. *)
Lemma handleMessage_fields (parse : string -> option TekkoMessage)
    (line : string) (s : Session) :
  let s' := after (_handleMessage parse line) s in
  connection s' = connection s /\
  (socket s <> None -> socket s' <> None) /\
  (identity (options s) <> None -> identity (options s') <> None) /\
  (user s <> None -> user s' <> None).
Proof.
  intros s'. subst s'. unfold after.
  destruct (_handleMessage parse line s) as [s' c] eqn:Hrun. cbn [fst].
  unfold _handleMessage in Hrun.
  destruct (parse line) as [msg|] eqn:Hparse; [| fields Hrun].
  cbv zeta in Hrun.
  change (command (with_raw line msg)) with (command msg) in Hrun.
  change (from_jtv (with_raw line msg)) with (from_jtv msg) in Hrun.
  destruct (String.eqb (command msg) "PING").
  { unfold sendRaw in Hrun. fields Hrun. }
  destruct (from_jtv msg). { fields Hrun. }
  destruct (String.eqb (command msg) "001"). { fields Hrun. }
  destruct (existsb _ _). { fields Hrun. }
  destruct (resolve_channel_run (first_param (params msg)) (tags msg) s)
    as (extra & ch & Hres & _).
  cbn [new_MessageData data_params data_prefix data_tags with_raw
       params prefix tags] in Hrun.
  remember (set_channelObjs (channelObjs s ++ extra) s) as s1 eqn:Hs1.
  unfold bind at 1 in Hrun. rewrite Hres in Hrun.
  destruct (is_self_pure (prefix msg) s1) as [cs Hself].
  unfold bind at 1 in Hrun. rewrite Hself in Hrun.
  destruct cs as [b|e]; [| fields Hrun].
  destruct (String.eqb (command msg) "PRIVMSG"). { fields Hrun. }
  destruct (String.eqb (command msg) "JOIN"). { fields Hrun. }
  destruct (String.eqb (command msg) "PART"). { fields Hrun. }
  destruct (String.eqb (command msg) "GLOBALUSERSTATE"). { fields Hrun. }
  destruct (String.eqb (command msg) "USERSTATE"). { fields Hrun. }
  destruct (String.eqb (command msg) "ROOMSTATE"); fields Hrun.
Qed.

(** Emitting changes the events alone, registering a listener the
    listeners alone, and [connect] the socket alone. *)
Lemma emit_fields (e : Event) (s : Session) :
  let s' := after (emit e) s in
  connection s' = connection s /\ options s' = options s /\
  user s' = user s /\ socket s' = socket s.
Proof.
  intros s'. subst s'. unfold after.
  destruct e; unfold emit, bind, gets, modify, throw;
    try (repeat split; reflexivity).
  destruct (existsb (String.eqb "error") (handlers s));
    repeat split; reflexivity.
Qed.

Lemma connect_fields (s : Session) :
  let s' := after connect s in
  connection s' = connection s /\ options s' = options s /\
  user s' = user s /\ (socket s <> None -> socket s' <> None).
Proof.
  intros s'. subst s'. unfold after.
  destruct (valid_port (port (connection s))) eqn:Hport.
  - rewrite (connect_run s Hport). repeat split; try reflexivity.
    intros _. discriminate.
  - rewrite (connect_out_of_range s Hport). repeat split; auto.
Qed.

Lemma sendRaw_fields (m : string) (s : Session) :
  let s' := after (sendRaw m) s in
  connection s' = connection s /\ options s' = options s /\
  user s' = user s /\ (socket s <> None -> socket s' <> None).
Proof.
  intros s'. subst s'. unfold after, sendRaw, bind, gets, modify, throw.
  destruct (socket s); cbn; repeat split; congruence.
Qed.

Lemma same_entities_trans (s1 s2 s3 : Session) :
  same_entities s1 s2 -> same_entities s2 s3 -> same_entities s1 s3.
Proof.
  unfold same_entities. intros (? & ? & ? & ? & ? & ?) (? & ? & ? & ? & ? & ?).
  repeat split; congruence.
Qed.

Lemma keeps_entities_bind {A B} (m : Eff A) (k : A -> Eff B) :
  keeps_entities m -> (forall a, keeps_entities (k a)) ->
  keeps_entities (bind m k).
Proof.
  intros Hm Hk s. specialize (Hm s). unfold after in *. unfold bind.
  destruct (m s) as [s1 [a|e]]; cbn [fst] in *; [| exact Hm].
  exact (same_entities_trans _ _ _ Hm (Hk a s1)).
Qed.

Lemma keeps_entities_ret {A} (a : A) : keeps_entities (ret a).
Proof. intros s. repeat split; reflexivity. Qed.

Section Lifetime.

Variable parse : string -> option TekkoMessage.
Variable format : FormatInput -> string.
Variable trim : string -> string.
Variable Channel_toString : Channel -> string.

(** X13: the host and the port of the connection are fixed by the
    constructor: the ones of the options, or else the defaults of the
    service. No call and no event of the session changes them, a welcome
    that rewrote the options included. So whatever the session has been
    through, [connect] makes its socket for that host and port when the port
    is one that [tls.connect] accepts; when the port is out of range it
    throws the [RangeError] of [tls.connect] and leaves the client as it
    was. *)
Theorem connect_keeps_endpoint (opts : ClientOptions) (acts : list Action) :
  let st := run_all parse format trim Channel_toString acts (new_Client opts) in
  let given := default (mkConnectionOptions None None) (opt_connection opts) in
  let h := default defaultTMIHost (opt_host given) in
  let p := default defaultTMIPort (opt_port given) in
  connection st = mkConnection h p /\
  (valid_port p = true ->
   completion connect st = Normal (Resolved tt) /\
   (socket_host <$> socket (after connect st)) = Some h /\
   (socket_port <$> socket (after connect st)) = Some p) /\
  (valid_port p = false ->
   completion connect st =
     Throw (RangeError "Port should be >= 0 and < 65536") /\
   after connect st = st).
Proof.
  intros st given h p.
  assert (Hc : connection st = connection (new_Client opts)).
  { apply (kept_run_all parse format trim Channel_toString
             (fun s => connection s = connection (new_Client opts))).
    - intros e s Hs. destruct (emit_fields e s) as (H & _). congruence.
    - intros event s Hs. exact Hs.
    - intros m s Hs. destruct (sendRaw_fields m s) as (H & _). congruence.
    - intros s Hs. destruct (connect_fields s) as (H & _). congruence.
    - intros line s Hs. destruct (handleMessage_fields parse line s) as (H & _).
      congruence.
    - reflexivity. }
  assert (Hn : connection (new_Client opts) = mkConnection h p).
  { subst h p given. unfold new_Client. cbn [connection].
    destruct (opt_connection opts) as [[[h|] [p|]]|]; reflexivity. }
  rewrite Hn in Hc. split; [exact Hc |].
  assert (Hp : port (connection st) = p) by (rewrite Hc; reflexivity).
  split.
  - intros Hport. rewrite <- Hp in Hport.
    unfold completion, after. rewrite (connect_run st Hport).
    cbn [fst snd socket set_socket]. rewrite Hc.
    repeat split; reflexivity.
  - intros Hport. rewrite <- Hp in Hport.
    unfold completion, after. rewrite (connect_out_of_range st Hport).
    split; reflexivity.
Qed.

(** X14: what a session has once got it keeps: no call and no event takes away
    the socket, the identity or the authenticated user. So once [connect] has
    been called [sendRaw] returns, once there is an identity as well the
    listener of a successful connection returns, and once a GLOBALUSERSTATE
    has established the user there is a user. *)
Theorem session_keeps_what_it_has (acts : list Action) (st : Session) :
  let st' := run_all parse format trim Channel_toString acts st in
  (socket st <> None ->
   socket st' <> None /\
   forall m, completion (sendRaw m) st' = Normal tt) /\
  (socket st <> None -> identity (options st) <> None ->
   identity (options st') <> None /\ completion _onConnect st' = Normal tt) /\
  (user st <> None -> user st' <> None).
Proof.
  intros st'.
  assert (Hsock : socket st <> None -> socket st' <> None).
  { apply (kept_run_all parse format trim Channel_toString
             (fun s => socket s <> None)).
    - intros e s Hs. destruct (emit_fields e s) as (_ & _ & _ & H).
      unfold after in *. congruence.
    - intros event s Hs. exact Hs.
    - intros m s Hs. destruct (sendRaw_fields m s) as (_ & _ & _ & H). auto.
    - intros s Hs. destruct (connect_fields s) as (_ & _ & _ & H). auto.
    - intros line s Hs.
      destruct (handleMessage_fields parse line s) as (_ & H & _). auto. }
  assert (Hid : identity (options st) <> None -> identity (options st') <> None).
  { apply (kept_run_all parse format trim Channel_toString
             (fun s => identity (options s) <> None)).
    - intros e s Hs. destruct (emit_fields e s) as (_ & H & _).
      unfold after in *. congruence.
    - intros event s Hs. exact Hs.
    - intros m s Hs. destruct (sendRaw_fields m s) as (_ & H & _).
      unfold after in *. congruence.
    - intros s Hs. destruct (connect_fields s) as (_ & H & _).
      unfold after in *. congruence.
    - intros line s Hs.
      destruct (handleMessage_fields parse line s) as (_ & _ & H & _). auto. }
  assert (Huser : user st <> None -> user st' <> None).
  { apply (kept_run_all parse format trim Channel_toString
             (fun s => user s <> None)).
    - intros e s Hs. destruct (emit_fields e s) as (_ & _ & H & _).
      unfold after in *. congruence.
    - intros event s Hs. exact Hs.
    - intros m s Hs. destruct (sendRaw_fields m s) as (_ & _ & H & _).
      unfold after in *. congruence.
    - intros s Hs. destruct (connect_fields s) as (_ & _ & H & _).
      unfold after in *. congruence.
    - intros line s Hs.
      destruct (handleMessage_fields parse line s) as (_ & _ & _ & H). auto. }
  split; [| split; [| exact Huser]].
  - intros Hs. specialize (Hsock Hs). split; [exact Hsock |]. intros m.
    destruct (socket st') as [sk|] eqn:Hsk; [| congruence].
    unfold completion. rewrite (sendRaw_connected m sk st' Hsk). reflexivity.
  - intros Hs Hi. specialize (Hsock Hs). specialize (Hid Hi).
    split; [exact Hid |].
    destruct (socket st') as [sk|] eqn:Hsk; [| congruence].
    destruct (identity (options st')) as [id|] eqn:Hid'; [| congruence].
    unfold completion. rewrite (_onConnect_connected id sk st' Hid' Hsk).
    reflexivity.
Qed.

Lemma keeps_entities_call_listeners (ls : list (string * Handler))
    (e : SocketEvent) :
  (forall d, e <> Data d) ->
  keeps_entities (call_listeners parse trim ls e).
Proof.
  intros He. induction ls as [|[n h] rest IH]; cbn [call_listeners].
  - apply keeps_entities_ret.
  - apply keeps_entities_bind; [| intros _; exact IH].
    destruct (String.eqb n (socket_event_name e));
      [| apply keeps_entities_ret].
    destruct h, e; cbn [call_handler];
      first [ apply keeps_entities_ret | apply keeps_entities_onConnect
            | apply keeps_entities_onClose | apply keeps_entities_onError
            | exfalso; eapply He; reflexivity ].
Qed.

(** X15: the channel map, the authenticated user and the objects of the entity
    model change through inbound data alone. [connect], the sending methods
    ([join] and [part] among them), the callback of a write and the listeners
    of a successful connection, of a closed connection and of an error leave
    them as they are: joining is recorded when the JOIN of the server is
    dispatched, and a closed connection clears nothing. *)
Theorem entities_change_by_inbound_only (a : Action) (st : Session) :
  inbound a = false ->
  same_entities st (after (perform parse format trim Channel_toString a) st).
Proof.
  intros Ha. destruct a; cbn [perform]; try discriminate Ha.
  - apply keeps_entities_on.
  - apply keeps_entities_bind;
      [apply keeps_entities_connect | intros _; apply keeps_entities_ret].
  - unfold deliver. apply keeps_entities_bind.
    + intros s. repeat split; reflexivity.
    + intros [sk|]; [| apply keeps_entities_ret].
      apply keeps_entities_call_listeners.
      intros d ->. discriminate Ha.
  - apply keeps_entities_write_callback.
  - apply keeps_entities_sendRaw.
  - apply keeps_entities_sendRaw.
  - apply keeps_entities_sendRaw.
  - apply keeps_entities_sendRaw.
  - apply keeps_entities_sendRaw.
  - apply keeps_entities_sendRaw.
Qed.

End Lifetime.

(** A client with the default connection, after a welcome and a closed
    connection. *)
Lemma connect_keeps_endpoint_witness :
  let acts := [ A_connect;
                A_handleMessage ":tmi.twitch.tv 001 alice :Welcome, GLHF!";
                A_deliver (Close false) ] in
  let st := run_all Traffic.parse Samples.format Samples.trim
              Samples.Channel_toString acts
              (new_Client Samples.alice_options) in
  valid_port defaultTMIPort = true /\
  connection st = mkConnection defaultTMIHost defaultTMIPort /\
  completion connect st = Normal (Resolved tt) /\
  (socket_host <$> socket (after connect st)) = Some defaultTMIHost /\
  (socket_port <$> socket (after connect st)) = Some defaultTMIPort.
Proof.
  intros acts st.
  assert (Hport : valid_port defaultTMIPort = true) by reflexivity.
  split; [exact Hport |].
  destruct (connect_keeps_endpoint Traffic.parse Samples.format Samples.trim
              Samples.Channel_toString Samples.alice_options acts)
    as (Hc & Hvalid & _).
  split; [exact Hc |]. exact (Hvalid Hport).
Defined.

(** A client that is connected and has its user, through a closed
    connection and a chunk of data. *)
Lemma session_keeps_what_it_has_witness :
  let st := after (_handleMessage Traffic.parse ":tmi.twitch.tv GLOBALUSERSTATE")
              (after connect (new_Client Samples.alice_options)) in
  let acts := [ A_deliver (Close true);
                A_deliver (Data ":tmi.twitch.tv ROOMSTATE #channel") ] in
  let st' := run_all Traffic.parse Samples.format Samples.trim
               Samples.Channel_toString acts st in
  (socket st <> None /\ identity (options st) <> None /\ user st <> None) /\
  completion (sendRaw "PART #channel") st' = Normal tt /\
  completion _onConnect st' = Normal tt /\
  user st' <> None.
Proof.
  intros st acts st'.
  assert (Hs : socket st <> None) by discriminate.
  assert (Hi : identity (options st) <> None) by discriminate.
  assert (Hu : user st <> None) by discriminate.
  split; [exact (conj Hs (conj Hi Hu)) |].
  destruct (session_keeps_what_it_has Traffic.parse Samples.format Samples.trim
              Samples.Channel_toString acts st) as (Hsock & Hconn & Huser).
  split; [apply (proj2 (Hsock Hs)) |].
  split; [apply (proj2 (Hconn Hs Hi)) | apply (Huser Hu)].
Defined.

(** [join] on a connected client, and its connection closing. *)
Lemma entities_change_by_inbound_only_witness :
  let st := after connect (new_Client Samples.alice_options) in
  (inbound (A_join "#channel") = false /\
   inbound (A_deliver (Close false)) = false) /\
  channels (after (join Samples.format "#channel") st) = channels st /\
  same_entities st (after (deliver Samples.parse Samples.trim (Close false)) st).
Proof.
  intros st.
  split; [split; reflexivity |].
  split.
  - apply (entities_change_by_inbound_only Samples.parse Samples.format
             Samples.trim Samples.Channel_toString (A_join "#channel") st
             eq_refl).
  - apply (entities_change_by_inbound_only Samples.parse Samples.format
             Samples.trim Samples.Channel_toString
             (A_deliver (Close false)) st eq_refl).
Defined.

Section Effects.

Variable parse : string -> option TekkoMessage.

Ltac emits_once H :=
  crunch H; injection H as <- <-; subst; cbn;
  first [ left; reflexivity
        | right; split; [reflexivity | eexists; reflexivity] ].

(** X16: one line, at most one event: dispatch of a line leaves the events as
    they were, or returns having emitted exactly one more. A line that makes
    dispatch throw, or that [tekko.parse] rejects, emits nothing. *)
Theorem dispatch_emits_at_most_once (line : string) (st : Session) :
  let st' := after (_handleMessage parse line) st in
  emitted st' = emitted st \/
  (completion (_handleMessage parse line) st = Normal tt /\
   exists e : Event, emitted st' = (emitted st ++ [e])%list).
Proof.
  intros st'. subst st'. unfold after, completion.
  destruct (_handleMessage parse line st) as [s' c] eqn:Hrun. cbn [fst snd].
  unfold _handleMessage in Hrun.
  destruct (parse line) as [msg|] eqn:Hparse; [| emits_once Hrun].
  cbv zeta in Hrun.
  change (command (with_raw line msg)) with (command msg) in Hrun.
  change (from_jtv (with_raw line msg)) with (from_jtv msg) in Hrun.
  destruct (String.eqb (command msg) "PING").
  { unfold sendRaw in Hrun. emits_once Hrun. }
  destruct (from_jtv msg). { emits_once Hrun. }
  destruct (String.eqb (command msg) "001"). { emits_once Hrun. }
  destruct (existsb _ _). { emits_once Hrun. }
  destruct (resolve_channel_run (first_param (params msg)) (tags msg) st)
    as (extra & ch & Hres & _).
  cbn [new_MessageData data_params data_prefix data_tags with_raw
       params prefix tags] in Hrun.
  remember (set_channelObjs (channelObjs st ++ extra) st) as s1 eqn:Hs1.
  unfold bind at 1 in Hrun. rewrite Hres in Hrun.
  destruct (is_self_pure (prefix msg) s1) as [cs Hself].
  unfold bind at 1 in Hrun. rewrite Hself in Hrun.
  destruct cs as [b|e]; [| emits_once Hrun].
  destruct (String.eqb (command msg) "PRIVMSG"). { emits_once Hrun. }
  destruct (String.eqb (command msg) "JOIN"). { emits_once Hrun. }
  destruct (String.eqb (command msg) "PART"). { emits_once Hrun. }
  destruct (String.eqb (command msg) "GLOBALUSERSTATE"). { emits_once Hrun. }
  destruct (String.eqb (command msg) "USERSTATE"). { emits_once Hrun. }
  destruct (String.eqb (command msg) "ROOMSTATE"); emits_once Hrun.
Qed.

Ltac untouched H :=
  crunch H; injection H as <- <-; subst; cbn;
  repeat split; intros; first [congruence | reflexivity].

(** X17: which line changes which field of the client: dispatch writes to the
    socket for a PING alone, logs to the console for the service pseudo-user
    alone, rewrites the options at the welcome (001) alone, replaces the user
    at a GLOBALUSERSTATE alone, changes the channel map at a JOIN or a PART
    alone, and never changes the connection. *)
Theorem dispatch_side_effects (line : string) (msg : TekkoMessage)
    (st : Session) :
  parse line = Some msg ->
  let st' := after (_handleMessage parse line) st in
  connection st' = connection st /\
  (command msg <> "PING" -> socket st' = socket st) /\
  (from_jtv msg = false -> console st' = console st) /\
  (command msg <> "001" -> options st' = options st) /\
  (command msg <> "GLOBALUSERSTATE" -> user st' = user st) /\
  (command msg <> "JOIN" -> command msg <> "PART" ->
   channels st' = channels st).
Proof.
  intros Hparse st'. subst st'. unfold after.
  destruct (_handleMessage parse line st) as [s' c] eqn:Hrun. cbn [fst].
  unfold _handleMessage in Hrun. rewrite Hparse in Hrun.
  cbv zeta in Hrun.
  change (command (with_raw line msg)) with (command msg) in Hrun.
  change (from_jtv (with_raw line msg)) with (from_jtv msg) in Hrun.
  destruct (String.eqb (command msg) "PING") eqn:Hping.
  { apply String.eqb_eq in Hping. unfold sendRaw in Hrun. untouched Hrun. }
  clear Hping.
  destruct (from_jtv msg) eqn:Hjtv. { untouched Hrun. }
  destruct (String.eqb (command msg) "001") eqn:H001.
  { apply String.eqb_eq in H001. untouched Hrun. }
  clear H001.
  destruct (existsb _ _). { untouched Hrun. }
  destruct (resolve_channel_run (first_param (params msg)) (tags msg) st)
    as (extra & ch & Hres & _).
  cbn [new_MessageData data_params data_prefix data_tags with_raw
       params prefix tags] in Hrun.
  remember (set_channelObjs (channelObjs st ++ extra) st) as s1 eqn:Hs1.
  unfold bind at 1 in Hrun. rewrite Hres in Hrun.
  destruct (is_self_pure (prefix msg) s1) as [cs Hself].
  unfold bind at 1 in Hrun. rewrite Hself in Hrun.
  destruct cs as [b|e]; [| untouched Hrun].
  destruct (String.eqb (command msg) "PRIVMSG"). { untouched Hrun. }
  destruct (String.eqb (command msg) "JOIN") eqn:Hjoin.
  { apply String.eqb_eq in Hjoin. untouched Hrun. }
  clear Hjoin.
  destruct (String.eqb (command msg) "PART") eqn:Hpart.
  { apply String.eqb_eq in Hpart. untouched Hrun. }
  clear Hpart.
  destruct (String.eqb (command msg) "GLOBALUSERSTATE") eqn:Hglobal.
  { apply String.eqb_eq in Hglobal. untouched Hrun. }
  clear Hglobal.
  destruct (String.eqb (command msg) "USERSTATE"). { untouched Hrun. }
  destruct (String.eqb (command msg) "ROOMSTATE"); untouched Hrun.
Qed.

(** X18: take a welcome of the server (001) and then a GLOBALUSERSTATE,
    neither sent by the service pseudo-user, the GLOBALUSERSTATE naming its
    sender if a user is established already (so that the sender can be
    compared with that user). The user that the GLOBALUSERSTATE establishes
    has the name of the welcome as its login, whatever name the client was
    configured with: it is by that name, and by no other, that the client
    takes a JOIN or a PART for its own. *)
Theorem welcomed_name_is_own_name (line1 line2 : string)
    (welcome state : TekkoMessage) (n : string) (st : Session) :
  parse line1 = Some welcome ->
  command welcome = "001" ->
  from_jtv welcome = false ->
  first_param (params welcome) = Some n ->
  parse line2 = Some state ->
  dispatched_as "GLOBALUSERSTATE" state ->
  sender_comparable st state ->
  let st2 := after (_handleMessage parse line2)
               (after (_handleMessage parse line1) st) in
  own_name st2 n /\
  (forall n' : string, own_name st2 n' -> n' = n).
Proof.
  intros Hp1 Hc1 Hj1 Hn Hp2 [Hc2 Hj2] Hcmp. cbv zeta.
  destruct (run_eq _ _ _ _ (welcome_run parse line1 welcome st Hp1 Hc1 Hj1))
    as [Ha1 _].
  rewrite Hn in Ha1. cbn [of_param] in Ha1.
  remember (after (_handleMessage parse line1) st) as st1 eqn:Hst1.
  assert (Hid : identity (options st1) =
                Some (mkIdentity (JsStr n)
                        (match identity (options st) with
                         | Some id => auth id
                         | None => JsNull
                         end))) by (rewrite Ha1; reflexivity).
  assert (Hu : user st1 = user st) by (rewrite Ha1; reflexivity).
  assert (Ho : clientUserObjs st1 = clientUserObjs st)
    by (rewrite Ha1; reflexivity).
  clear Ha1 Hst1.
  destruct (resolve_channel_run (first_param (params state)) (tags state) st1)
    as (extra & ch & Hres & _).
  set (s1 := set_channelObjs (channelObjs st1 ++ extra) st1) in *.
  destruct (is_self_comparable state st s1 Hu Ho Hcmp) as [b Hself].
  set (r := length (clientUserObjs st1)).
  assert (Hrun : _handleMessage parse line2 st1 =
                 (set_emitted (emitted st1 ++ [EvGlobalUserState r])
                    (set_user (Some r)
                       (set_clientUserObjs
                          (clientUserObjs st1 ++
                           [mkClientUser (JsStr n) (tags state) ∅])
                          s1)),
                  Normal tt)).
  { enter_branch Hp2 Hc2 Hj2.
    unfold bind at 1. rewrite Hres.
    unfold bind at 1. rewrite Hself.
    unfold bind at 1. unfold gets at 1.
    change (options s1) with (options st1). rewrite Hid. reflexivity. }
  destruct (run_eq _ _ _ _ Hrun) as [Ha2 _]. rewrite Ha2.
  assert (Hl : (clientUserObjs st1 ++
                [mkClientUser (JsStr n) (tags state) ∅])%list !! r =
               Some (mkClientUser (JsStr n) (tags state) ∅)).
  { rewrite lookup_app_r by (subst r; lia).
    subst r. now rewrite Nat.sub_diag. }
  split.
  - exists r, (mkClientUser (JsStr n) (tags state) ∅).
    split; [reflexivity |]. split; [exact Hl | reflexivity].
  - intros n' (r' & o' & Hr' & Ho' & Hlogin).
    cbn in Hr', Ho'. injection Hr' as <-.
    rewrite Hl in Ho'. injection Ho' as <-. cbn in Hlogin. congruence.
Qed.

End Effects.

(** A ROOMSTATE, on a connected client. *)
Lemma dispatch_side_effects_witness :
  let line := ":tmi.twitch.tv ROOMSTATE #channel" in
  let msg := mkTekko "" "ROOMSTATE" ["#channel"] Samples.tmi ∅ in
  let st := after connect (new_Client Samples.alice_options) in
  let st' := after (_handleMessage Traffic.parse line) st in
  Traffic.parse line = Some msg /\
  socket st' = socket st /\ console st' = console st /\
  options st' = options st.
Proof.
  intros line msg st st'.
  assert (Hp : Traffic.parse line = Some msg) by reflexivity.
  split; [exact Hp |].
  destruct (dispatch_side_effects Traffic.parse line msg st Hp)
    as (_ & Hs & Hc & Ho & _).
  split; [apply Hs; discriminate |].
  split; [apply Hc; reflexivity | apply Ho; discriminate].
Defined.

(** A client configured as Alice (in capitals), with its user established
    under that name, that the server welcomes as alice. *)
Lemma welcomed_name_is_own_name_witness :
  let line1 := ":tmi.twitch.tv 001 alice :Welcome, GLHF!" in
  let line2 := ":tmi.twitch.tv GLOBALUSERSTATE" in
  let welcome := mkTekko "" "001" ["alice"; "Welcome, GLHF!"] Samples.tmi ∅ in
  let state := mkTekko "" "GLOBALUSERSTATE" [] Samples.tmi ∅ in
  let st := after (_handleMessage Traffic.parse line2)
              (new_Client
                 (mkOptions (Some (mkIdentity (JsStr "Alice") (JsStr "token")))
                    None)) in
  let st2 := after (_handleMessage Traffic.parse line2)
               (after (_handleMessage Traffic.parse line1) st) in
  (Traffic.parse line1 = Some welcome /\ command welcome = "001" /\
   from_jtv welcome = false /\ first_param (params welcome) = Some "alice" /\
   Traffic.parse line2 = Some state /\
   dispatched_as "GLOBALUSERSTATE" state /\ sender_comparable st state /\
   own_name st "Alice") /\
  own_name st2 "alice" /\ ~ own_name st2 "Alice".
Proof.
  intros line1 line2 welcome state st st2.
  assert (Hp1 : Traffic.parse line1 = Some welcome) by reflexivity.
  assert (Hc1 : command welcome = "001") by reflexivity.
  assert (Hj1 : from_jtv welcome = false) by reflexivity.
  assert (Hn : first_param (params welcome) = Some "alice") by reflexivity.
  assert (Hp2 : Traffic.parse line2 = Some state) by reflexivity.
  assert (Hd : dispatched_as "GLOBALUSERSTATE" state) by (split; reflexivity).
  assert (Hs : sender_comparable st state).
  { unfold sender_comparable. change (user st) with (Some 0).
    split; eexists; reflexivity. }
  assert (Hwas : own_name st "Alice").
  { exists 0, (mkClientUser (JsStr "Alice") ∅ ∅). repeat split; reflexivity. }
  split;
    [exact (conj Hp1 (conj Hc1 (conj Hj1 (conj Hn (conj Hp2 (conj Hd
              (conj Hs Hwas))))))) |].
  destruct (welcomed_name_is_own_name Traffic.parse line1 line2 welcome state
              "alice" st Hp1 Hc1 Hj1 Hn Hp2 Hd Hs) as [Hown Honly].
  split; [exact Hown |].
  intros Hother. apply Honly in Hother. discriminate Hother.
Defined.

(** ** When dispatch returns *)

Lemma run_all_reachable (parse : string -> option TekkoMessage)
    (format : FormatInput -> string) (trim : string -> string)
    (Channel_toString : Channel -> string) (acts : list Action) (s : Session) :
  reachable parse format trim Channel_toString s ->
  reachable parse format trim Channel_toString
    (run_all parse format trim Channel_toString acts s).
Proof.
  revert s. induction acts as [|a rest IH]; intros s Hs; [exact Hs |].
  cbn [run_all fold_left]. apply IH. apply reachable_step. exact Hs.
Qed.

Section Returns.

Variable parse : string -> option TekkoMessage.
Variable format : FormatInput -> string.
Variable trim : string -> string.
Variable Channel_toString : Channel -> string.

(** A reference that is live is not read in vain. *)
Ltac dead Hlu Hls :=
  match goal with
  | Hn : userStateObjs _ !! ?u = None, Hk : states ?o !! _ = Some ?u,
    Ho : clientUserObjs _ !! _ = Some ?o |- _ =>
    apply lookup_ge_None in Hn; pose proof (Hls _ _ _ _ Ho Hk); lia
  | Hn : clientUserObjs _ !! ?r = None |- _ =>
    apply lookup_ge_None in Hn; pose proof (Hlu r eq_refl); lia
  end.

(** Follow the run [H] to its end: it returns, or it read what is not
    there. *)
Ltac returns H Hlu Hls :=
  crunch H;
  first [ injection H as <- <-; reflexivity
        | exfalso; clear H; first [congruence | dead Hlu Hls] ].

(** X19: on a client that has connected and whose user is established,
    dispatch of a parsed line returns: it throws for no line that names its
    sender, nor for a line of the branches that end dispatch early, a PING
    among them. So the faults of dispatch are those of a line that the parser
    rejects, of a client without socket or without user, and of a line without
    sender. *)
Theorem dispatch_returns (line : string) (msg : TekkoMessage) (st : Session) :
  reachable parse format trim Channel_toString st ->
  parse line = Some msg ->
  socket st <> None ->
  user st <> None ->
  ends_early msg = true \/ is_Some (prefix msg) ->
  completion (_handleMessage parse line) st = Normal tt.
Proof.
  intros Hreach Hparse Hsock Huser Hsender.
  pose proof (reachable_references_live parse format trim Channel_toString
                st Hreach) as Hlive.
  unfold completion.
  destruct (_handleMessage parse line st) as [s' c] eqn:Hrun. cbn [snd].
  unfold _handleMessage in Hrun. rewrite Hparse in Hrun. cbv zeta in Hrun.
  change (command (with_raw line msg)) with (command msg) in Hrun.
  change (from_jtv (with_raw line msg)) with (from_jtv msg) in Hrun.
  unfold ends_early in Hsender.
  destruct (String.eqb (command msg) "PING").
  { unfold sendRaw in Hrun. crunch Hrun; injection Hrun as <- <-;
      [reflexivity | congruence]. }
  destruct (from_jtv msg).
  { crunch Hrun. injection Hrun as <- <-. reflexivity. }
  destruct (String.eqb (command msg) "001").
  { crunch Hrun; injection Hrun as <- <-; reflexivity. }
  destruct (existsb _ _).
  { crunch Hrun. injection Hrun as <- <-. reflexivity. }
  destruct Hsender as [Hfalse | [p Hp]]; [discriminate Hfalse |].
  destruct (resolve_channel_run (first_param (params msg)) (tags msg) st)
    as (extra & ch & Hres & _).
  cbn [new_MessageData data_params data_prefix data_tags with_raw
       params prefix tags] in Hrun.
  remember (set_channelObjs (channelObjs st ++ extra) st) as s1 eqn:Hs1.
  assert (Hlive1 : references_live s1)
    by (subst s1; eapply references_live_same; [exact Hlive | reflexivity ..]).
  assert (Hu1 : user s1 <> None) by (subst s1; exact Huser).
  unfold bind at 1 in Hrun. rewrite Hres in Hrun.
  clear Hlive Hs1 Hres Huser Hsock Hreach.
  destruct Hlive1 as [Hlu Hls].
  assert (Hself : exists b, is_self (prefix msg) s1 = (s1, Normal b)).
  { rewrite Hp. destruct (user s1) as [r|] eqn:Hr; [| congruence].
    destruct (lookup_lt_is_Some_2 (clientUserObjs s1) r (Hlu r eq_refl))
      as [o Ho].
    eexists. apply (is_self_user p r o); assumption. }
  destruct Hself as [b Hself].
  unfold bind at 1 in Hrun. rewrite Hself, Hp in Hrun. clear Hself.
  destruct (String.eqb (command msg) "PRIVMSG"). { returns Hrun Hlu Hls. }
  destruct (String.eqb (command msg) "JOIN"). { returns Hrun Hlu Hls. }
  destruct (String.eqb (command msg) "PART"). { returns Hrun Hlu Hls. }
  destruct (String.eqb (command msg) "GLOBALUSERSTATE"). { returns Hrun Hlu Hls. }
  destruct (String.eqb (command msg) "USERSTATE"). { returns Hrun Hlu Hls. }
  destruct (String.eqb (command msg) "ROOMSTATE"); returns Hrun Hlu Hls.
Qed.

End Returns.

(** A chat line of another user on a client that has connected and has its
    user. *)
Lemma dispatch_returns_witness :
  let line := ":bob!bob@bob.tmi.twitch.tv PRIVMSG #channel :hello" in
  let msg := mkTekko "" "PRIVMSG" ["#channel"; "hello"] Traffic.bob ∅ in
  let st := run_all Traffic.parse Samples.format Samples.trim
              Samples.Channel_toString
              [ A_connect; A_handleMessage ":tmi.twitch.tv GLOBALUSERSTATE" ]
              (new_Client Samples.alice_options) in
  (reachable Traffic.parse Samples.format Samples.trim
     Samples.Channel_toString st /\
   Traffic.parse line = Some msg /\ socket st <> None /\ user st <> None /\
   (ends_early msg = true \/ is_Some (prefix msg))) /\
  completion (_handleMessage Traffic.parse line) st = Normal tt.
Proof.
  intros line msg st.
  assert (Hr : reachable Traffic.parse Samples.format Samples.trim
                 Samples.Channel_toString st)
    by (apply run_all_reachable, reachable_new).
  assert (Hp : Traffic.parse line = Some msg) by reflexivity.
  assert (Hs : socket st <> None) by discriminate.
  assert (Hu : user st <> None) by discriminate.
  assert (Hpre : ends_early msg = true \/ is_Some (prefix msg))
    by (right; eexists; reflexivity).
  split; [exact (conj Hr (conj Hp (conj Hs (conj Hu Hpre)))) |].
  exact (dispatch_returns Traffic.parse Samples.format Samples.trim
           Samples.Channel_toString line msg st Hr Hp Hs Hu Hpre).
Defined.
